(** * USB Audio Class 1.0 speaker core: [usbd_audio.c]

    A shallow embedding of the class driver in
    [Middlewares/ST/STM32_USB_Device_Library/Class/AUDIO/Src/usbd_audio.c]:
    the ring buffer filled by the isochronous OUT endpoint, the explicit
    feedback value computed on every start-of-frame, and the SET_INTERFACE
    part of the control state machine.

    The file-scope [volatile] variables and the fields of [pdev] that the
    driver touches are the fields of one [State] record; every call into
    the USB core or into the DAC interface table is appended to [calls]. *)

From Stdlib Require Import ZArith List Lia Bool.
From stdpp Require Import base list.
Import ListNotations.
Local Open Scope Z_scope.

(** ** C integer conversions *)

Definition u8 (x : Z) : Z := x mod 2 ^ 8.
Definition u16 (x : Z) : Z := x mod 2 ^ 16.
Definition u32 (x : Z) : Z := x mod 2 ^ 32.
Definition u64 (x : Z) : Z := x mod 2 ^ 64.
(** Conversion to [int32_t] (two's complement wrap-around). *)
Definition i32 (x : Z) : Z := (x + 2 ^ 31) mod 2 ^ 32 - 2 ^ 31.

(** ** Build-time configuration

    [usbd_audio.h] and [usbd_conf.h] are not among the sources at hand, so
    the macros they define are the fields of a [Config]. *)

Record Config : Type := {
  USBD_AUDIO_FREQ : Z;
  AUDIO_OUT_PACKET : Z;
  AUDIO_TOTAL_BUF_SIZE : Z;
  AUDIO_DEFAULT_VOLUME : Z;
  AUDIO_OUT_EP : Z;
  AUDIO_IN_EP : Z;
  USBD_MAX_NUM_INTERFACES : Z
}.

(** The ring is a non-empty array of whole stereo frames whose offsets fit
    the 16-bit [rd_ptr] and [wr_ptr]. *)
Definition ring_ok (c : Config) : Prop :=
  0 < AUDIO_TOTAL_BUF_SIZE c < 2 ^ 16 /\ AUDIO_TOTAL_BUF_SIZE c mod 4 = 0.

(** The build of the end-to-end scenarios: 48 kHz, 192-byte packets, a ring
    of 1920 bytes. *)
Definition cfg48 : Config := {|
  USBD_AUDIO_FREQ := 48000;
  AUDIO_OUT_PACKET := 192;
  AUDIO_TOTAL_BUF_SIZE := 1920;
  AUDIO_DEFAULT_VOLUME := 70;
  AUDIO_OUT_EP := 0x01;
  AUDIO_IN_EP := 0x81;
  USBD_MAX_NUM_INTERFACES := 1
|}.

(** The same build with room for two interfaces in [usbd_conf.h]. *)
Definition cfg48_2itf : Config := {|
  USBD_AUDIO_FREQ := 48000;
  AUDIO_OUT_PACKET := 192;
  AUDIO_TOTAL_BUF_SIZE := 1920;
  AUDIO_DEFAULT_VOLUME := 70;
  AUDIO_OUT_EP := 0x01;
  AUDIO_IN_EP := 0x81;
  USBD_MAX_NUM_INTERFACES := 2
|}.

(** ** Constants of the USB device library and of the USB standard *)

Inductive USBD_StatusTypeDef : Type := USBD_OK | USBD_BUSY | USBD_EMEM | USBD_FAIL.

Inductive AUDIO_OffsetTypeDef : Type :=
  AUDIO_OFFSET_NONE | AUDIO_OFFSET_HALF | AUDIO_OFFSET_FULL | AUDIO_OFFSET_UNKNOWN.

Inductive AUDIO_CMD : Type := AUDIO_CMD_START | AUDIO_CMD_PLAY | AUDIO_CMD_STOP.

Definition USBD_STATE_CONFIGURED : Z := 3.
Definition USBD_SPEED_HIGH : Z := 0.
Definition AUDIO_HS_BINTERVAL : Z := 4.
Definition AUDIO_FS_BINTERVAL : Z := 1.
Definition USBD_EP_TYPE_ISOC : Z := 1.
Definition AUDIO_IN_PACKET : Z := 3.

Definition USB_REQ_TYPE_MASK : Z := 0x60.
Definition USB_REQ_TYPE_STANDARD : Z := 0x00.
Definition USB_REQ_TYPE_CLASS : Z := 0x20.
Definition USB_REQ_GET_STATUS : Z := 0x00.
Definition USB_REQ_CLEAR_FEATURE : Z := 0x01.
Definition USB_REQ_GET_DESCRIPTOR : Z := 0x06.
Definition USB_REQ_GET_INTERFACE : Z := 0x0A.
Definition USB_REQ_SET_INTERFACE : Z := 0x0B.
Definition AUDIO_REQ_GET_CUR : Z := 0x81.
Definition AUDIO_REQ_SET_CUR : Z := 0x01.
Definition AUDIO_DESCRIPTOR_TYPE : Z := 0x21.
Definition USB_AUDIO_DESC_SIZ : Z := 0x09.
Definition AUDIO_OUT_STREAMING_CTRL : Z := 0x02.
(** [USB_OTG_DSTS_FNSOF]: bits 8..21 of the device status register. *)
Definition USB_OTG_DSTS_FNSOF : Z := 0x3FFF00.

(** ** Calls that leave the driver *)

(** Where [USBD_LL_PrepareReceive] points the OUT endpoint. *)
Inductive RxTarget : Type :=
| RxRing (off : Z)      (* [&haudio->buffer[off]] *)
| RxTmpbuf.             (* the static [tmpbuf] of [USBD_AUDIO_DataOut] *)

(** What [USBD_CtlSendData] is asked to send. *)
Inductive TxSource : Type :=
| TxStatusInfo          (* [&status_info], always 0 *)
| TxCfgDesc (off : Z)   (* [USBD_AUDIO_CfgDesc + off] *)
| TxAltSetting (v : Z)  (* [&haudio->alt_setting] *)
| TxControlData (d : list Z).

Inductive Call : Type :=
| LL_OpenEP (ep ty mps : Z)
| LL_CloseEP (ep : Z)
| LL_FlushEP (ep : Z)
| LL_PrepareReceive (ep : Z) (dst : RxTarget) (size : Z)
| LL_Transmit (ep : Z) (pkt : list Z) (size : Z)
| CtlError
| CtlSendData (src : TxSource) (size : Z)
| CtlPrepareRx (size : Z)
| Itf_Init (freq vol opt : Z)
| Itf_DeInit (opt : Z)
| Itf_AudioCmd (off size : Z) (cmd : AUDIO_CMD)
| Itf_MuteCtl (v : Z).

(** ** The audio handle and the driver state

    Field widths are those of the ST middleware's [USBD_AUDIO_HandleTypeDef]:
    [uint32_t alt_setting], [uint8_t buffer[AUDIO_TOTAL_BUF_SIZE]],
    [uint8_t rd_enable], [uint16_t rd_ptr], [uint16_t wr_ptr]. *)

Record USBD_AUDIO_ControlTypeDef : Type := {
  ctl_cmd : Z;
  ctl_data : list Z;
  ctl_len : Z;
  ctl_unit : Z
}.

Record USBD_AUDIO_HandleTypeDef : Type := {
  alt_setting : Z;
  buffer : list Z;
  offset : AUDIO_OffsetTypeDef;
  rd_enable : Z;
  rd_ptr : Z;
  wr_ptr : Z;
  control : USBD_AUDIO_ControlTypeDef
}.

Definition set_alt_setting v (h : USBD_AUDIO_HandleTypeDef) :=
  {| alt_setting := v; buffer := buffer h; offset := offset h; rd_enable := rd_enable h;
     rd_ptr := rd_ptr h; wr_ptr := wr_ptr h; control := control h |}.
Definition set_buffer v (h : USBD_AUDIO_HandleTypeDef) :=
  {| alt_setting := alt_setting h; buffer := v; offset := offset h; rd_enable := rd_enable h;
     rd_ptr := rd_ptr h; wr_ptr := wr_ptr h; control := control h |}.
Definition set_offset v (h : USBD_AUDIO_HandleTypeDef) :=
  {| alt_setting := alt_setting h; buffer := buffer h; offset := v; rd_enable := rd_enable h;
     rd_ptr := rd_ptr h; wr_ptr := wr_ptr h; control := control h |}.
Definition set_rd_enable v (h : USBD_AUDIO_HandleTypeDef) :=
  {| alt_setting := alt_setting h; buffer := buffer h; offset := offset h; rd_enable := v;
     rd_ptr := rd_ptr h; wr_ptr := wr_ptr h; control := control h |}.
Definition set_rd_ptr v (h : USBD_AUDIO_HandleTypeDef) :=
  {| alt_setting := alt_setting h; buffer := buffer h; offset := offset h; rd_enable := rd_enable h;
     rd_ptr := v; wr_ptr := wr_ptr h; control := control h |}.
Definition set_wr_ptr v (h : USBD_AUDIO_HandleTypeDef) :=
  {| alt_setting := alt_setting h; buffer := buffer h; offset := offset h; rd_enable := rd_enable h;
     rd_ptr := rd_ptr h; wr_ptr := v; control := control h |}.
Definition set_control v (h : USBD_AUDIO_HandleTypeDef) :=
  {| alt_setting := alt_setting h; buffer := buffer h; offset := offset h; rd_enable := rd_enable h;
     rd_ptr := rd_ptr h; wr_ptr := wr_ptr h; control := v |}.

Record State : Type := {
  (* pdev *)
  pClassData : option USBD_AUDIO_HandleTypeDef;   (* [None] is [NULL] *)
  dev_state : Z;
  dev_speed : Z;
  ep_out_bInterval : Z;
  ep_out_is_used : Z;
  ep_in_is_used : Z;
  (* file-scope variables *)
  tx_flag : Z;
  is_playing : Z;
  all_ready : Z;
  fnsof : Z;
  fb_value : Z;
  fb_raw : Z;
  fb_data : list Z;
  (* function-scope statics *)
  sof_count : Z;
  tmpbuf : list Z;
  (* calls made so far, oldest first *)
  calls : list Call
}.

Definition set_pClassData v (s : State) :=
  {| pClassData := v; dev_state := dev_state s; dev_speed := dev_speed s;
     ep_out_bInterval := ep_out_bInterval s; ep_out_is_used := ep_out_is_used s;
     ep_in_is_used := ep_in_is_used s; tx_flag := tx_flag s; is_playing := is_playing s;
     all_ready := all_ready s; fnsof := fnsof s; fb_value := fb_value s; fb_raw := fb_raw s;
     fb_data := fb_data s; sof_count := sof_count s; tmpbuf := tmpbuf s; calls := calls s |}.
Definition set_ep_out v w (s : State) :=
  {| pClassData := pClassData s; dev_state := dev_state s; dev_speed := dev_speed s;
     ep_out_bInterval := v; ep_out_is_used := w;
     ep_in_is_used := ep_in_is_used s; tx_flag := tx_flag s; is_playing := is_playing s;
     all_ready := all_ready s; fnsof := fnsof s; fb_value := fb_value s; fb_raw := fb_raw s;
     fb_data := fb_data s; sof_count := sof_count s; tmpbuf := tmpbuf s; calls := calls s |}.
Definition set_ep_in_is_used v (s : State) :=
  {| pClassData := pClassData s; dev_state := dev_state s; dev_speed := dev_speed s;
     ep_out_bInterval := ep_out_bInterval s; ep_out_is_used := ep_out_is_used s;
     ep_in_is_used := v; tx_flag := tx_flag s; is_playing := is_playing s;
     all_ready := all_ready s; fnsof := fnsof s; fb_value := fb_value s; fb_raw := fb_raw s;
     fb_data := fb_data s; sof_count := sof_count s; tmpbuf := tmpbuf s; calls := calls s |}.
Definition set_tx_flag v (s : State) :=
  {| pClassData := pClassData s; dev_state := dev_state s; dev_speed := dev_speed s;
     ep_out_bInterval := ep_out_bInterval s; ep_out_is_used := ep_out_is_used s;
     ep_in_is_used := ep_in_is_used s; tx_flag := v; is_playing := is_playing s;
     all_ready := all_ready s; fnsof := fnsof s; fb_value := fb_value s; fb_raw := fb_raw s;
     fb_data := fb_data s; sof_count := sof_count s; tmpbuf := tmpbuf s; calls := calls s |}.
Definition set_is_playing v (s : State) :=
  {| pClassData := pClassData s; dev_state := dev_state s; dev_speed := dev_speed s;
     ep_out_bInterval := ep_out_bInterval s; ep_out_is_used := ep_out_is_used s;
     ep_in_is_used := ep_in_is_used s; tx_flag := tx_flag s; is_playing := v;
     all_ready := all_ready s; fnsof := fnsof s; fb_value := fb_value s; fb_raw := fb_raw s;
     fb_data := fb_data s; sof_count := sof_count s; tmpbuf := tmpbuf s; calls := calls s |}.
Definition set_all_ready v (s : State) :=
  {| pClassData := pClassData s; dev_state := dev_state s; dev_speed := dev_speed s;
     ep_out_bInterval := ep_out_bInterval s; ep_out_is_used := ep_out_is_used s;
     ep_in_is_used := ep_in_is_used s; tx_flag := tx_flag s; is_playing := is_playing s;
     all_ready := v; fnsof := fnsof s; fb_value := fb_value s; fb_raw := fb_raw s;
     fb_data := fb_data s; sof_count := sof_count s; tmpbuf := tmpbuf s; calls := calls s |}.
Definition set_fnsof v (s : State) :=
  {| pClassData := pClassData s; dev_state := dev_state s; dev_speed := dev_speed s;
     ep_out_bInterval := ep_out_bInterval s; ep_out_is_used := ep_out_is_used s;
     ep_in_is_used := ep_in_is_used s; tx_flag := tx_flag s; is_playing := is_playing s;
     all_ready := all_ready s; fnsof := v; fb_value := fb_value s; fb_raw := fb_raw s;
     fb_data := fb_data s; sof_count := sof_count s; tmpbuf := tmpbuf s; calls := calls s |}.
Definition set_fb_value v (s : State) :=
  {| pClassData := pClassData s; dev_state := dev_state s; dev_speed := dev_speed s;
     ep_out_bInterval := ep_out_bInterval s; ep_out_is_used := ep_out_is_used s;
     ep_in_is_used := ep_in_is_used s; tx_flag := tx_flag s; is_playing := is_playing s;
     all_ready := all_ready s; fnsof := fnsof s; fb_value := v; fb_raw := fb_raw s;
     fb_data := fb_data s; sof_count := sof_count s; tmpbuf := tmpbuf s; calls := calls s |}.
Definition set_fb_raw v (s : State) :=
  {| pClassData := pClassData s; dev_state := dev_state s; dev_speed := dev_speed s;
     ep_out_bInterval := ep_out_bInterval s; ep_out_is_used := ep_out_is_used s;
     ep_in_is_used := ep_in_is_used s; tx_flag := tx_flag s; is_playing := is_playing s;
     all_ready := all_ready s; fnsof := fnsof s; fb_value := fb_value s; fb_raw := v;
     fb_data := fb_data s; sof_count := sof_count s; tmpbuf := tmpbuf s; calls := calls s |}.
Definition set_fb_data v (s : State) :=
  {| pClassData := pClassData s; dev_state := dev_state s; dev_speed := dev_speed s;
     ep_out_bInterval := ep_out_bInterval s; ep_out_is_used := ep_out_is_used s;
     ep_in_is_used := ep_in_is_used s; tx_flag := tx_flag s; is_playing := is_playing s;
     all_ready := all_ready s; fnsof := fnsof s; fb_value := fb_value s; fb_raw := fb_raw s;
     fb_data := v; sof_count := sof_count s; tmpbuf := tmpbuf s; calls := calls s |}.
Definition set_sof_count v (s : State) :=
  {| pClassData := pClassData s; dev_state := dev_state s; dev_speed := dev_speed s;
     ep_out_bInterval := ep_out_bInterval s; ep_out_is_used := ep_out_is_used s;
     ep_in_is_used := ep_in_is_used s; tx_flag := tx_flag s; is_playing := is_playing s;
     all_ready := all_ready s; fnsof := fnsof s; fb_value := fb_value s; fb_raw := fb_raw s;
     fb_data := fb_data s; sof_count := v; tmpbuf := tmpbuf s; calls := calls s |}.
Definition set_tmpbuf v (s : State) :=
  {| pClassData := pClassData s; dev_state := dev_state s; dev_speed := dev_speed s;
     ep_out_bInterval := ep_out_bInterval s; ep_out_is_used := ep_out_is_used s;
     ep_in_is_used := ep_in_is_used s; tx_flag := tx_flag s; is_playing := is_playing s;
     all_ready := all_ready s; fnsof := fnsof s; fb_value := fb_value s; fb_raw := fb_raw s;
     fb_data := fb_data s; sof_count := sof_count s; tmpbuf := v; calls := calls s |}.
(** Record one call into the USB core or the DAC interface. *)
Definition emit (k : Call) (s : State) :=
  {| pClassData := pClassData s; dev_state := dev_state s; dev_speed := dev_speed s;
     ep_out_bInterval := ep_out_bInterval s; ep_out_is_used := ep_out_is_used s;
     ep_in_is_used := ep_in_is_used s; tx_flag := tx_flag s; is_playing := is_playing s;
     all_ready := all_ready s; fnsof := fnsof s; fb_value := fb_value s; fb_raw := fb_raw s;
     fb_data := fb_data s; sof_count := sof_count s; tmpbuf := tmpbuf s;
     calls := calls s ++ [k] |}.
Definition set_handle (h : USBD_AUDIO_HandleTypeDef) (s : State) := set_pClassData (Some h) s.

(** ** Feedback controller *)

(** [AUDIO_FB_DEFAULT]: nominal feedback, 10.14 samples per frame shifted
    left by 8. *)
Definition AUDIO_FB_DEFAULT (c : Config) : Z :=
  if USBD_AUDIO_FREQ c =? 96000 then Z.shiftl 96 22
  else if USBD_AUDIO_FREQ c =? 48000 then Z.shiftl 48 22
  else if USBD_AUDIO_FREQ c =? 44100 then Z.shiftl 44 22 + Z.quot (Z.shiftl 1 22) 10
  else Z.shiftl 48 22.

Definition AUDIO_FB_DELTA : Z := u32 (Z.shiftl 1 22).

(** [fb_nom] is initialised to [AUDIO_FB_DEFAULT] and assigned nowhere. *)
Definition fb_nom (c : Config) : Z := AUDIO_FB_DEFAULT c.

(** The three bytes of the feedback packet, low byte first. *)
Definition fb_bytes (v : Z) : list Z :=
  [ u8 (Z.land (Z.shiftr v 8) 0xFF);
    u8 (Z.land (Z.shiftr v 16) 0xFF);
    u8 (Z.land (Z.shiftr v 24) 0xFF) ].

(** [rd_ptr = AUDIO_TOTAL_BUF_SIZE - (NDTR & 0xFFFF)], stored in 16 bits. *)
Definition rd_from_ndtr (c : Config) (ndtr : Z) : Z :=
  u16 (u32 (AUDIO_TOTAL_BUF_SIZE c - Z.land ndtr 0xFFFF)).

(** Free space ahead of the write pointer, in stereo frames.  The operands
    are promoted to [int]; the quotient is stored in a [uint32_t]. *)
Definition audio_buf_writable_size (c : Config) (rd wr : Z) : Z :=
  if rd <? wr
  then u32 (Z.quot (rd + AUDIO_TOTAL_BUF_SIZE c - wr) 4)
  else u32 (Z.quot (rd - wr) 4).

Definition audio_buf_writable_dev_from_nom_size (c : Config) (writable : Z) : Z :=
  i32 (u32 (writable - Z.quot (AUDIO_TOTAL_BUF_SIZE c) (2 * 6))).

(** [tmp], [pid_k] and the unclamped [fb_value]. *)
Definition pid_tmp (dev : Z) : Z := u64 (i32 (i32 (Z.shiftl 1 22) + i32 (dev * 256))).
Definition pid_k (c : Config) (dev : Z) : Z := u64 (u64 (fb_nom c) * pid_tmp dev).
Definition fb_unclamped (c : Config) (dev : Z) : Z := u32 (Z.shiftr (pid_k c dev) 22).

(** "Check feedback max / min": the chained assignment goes through the
    signed [fb_raw]. *)
Definition fb_clamp (c : Config) (s : State) : State :=
  if fb_value s >? u32 (fb_nom c + AUDIO_FB_DELTA) then
    let r := i32 (u32 (fb_nom c + AUDIO_FB_DELTA)) in
    set_fb_value (u32 r) (set_fb_raw r s)
  else if fb_value s <? u32 (fb_nom c - AUDIO_FB_DELTA) then
    let r := i32 (u32 (fb_nom c - AUDIO_FB_DELTA)) in
    set_fb_value (u32 r) (set_fb_raw r s)
  else s.

(** The block guarded by [sof_count == 1U]. *)
Definition sof_feedback (c : Config) (writable : Z) (s : State) : State :=
  let dev := audio_buf_writable_dev_from_nom_size c writable in
  let s1 := set_fb_value (fb_unclamped c dev) s in
  let s2 := fb_clamp c s1 in
  set_fb_data (fb_bytes (fb_value s2)) s2.

Definition fnsof_of_dsts (dsts : Z) : Z := Z.shiftr (Z.land dsts USB_OTG_DSTS_FNSOF) 8.

(** "Transmit feedback only when the last one is transmitted". *)
Definition sof_transmit (c : Config) (dsts : Z) (s : State) : State :=
  if tx_flag s =? 0 then
    let fnsof_new := fnsof_of_dsts dsts in
    if Z.land (fnsof s) 0x1 =? Z.land fnsof_new 0x1 then
      set_tx_flag 1 (emit (LL_Transmit (AUDIO_IN_EP c) (fb_data s) 3) s)
    else s
  else s.

(** [USBD_AUDIO_SOF].  [ndtr] is what the read of [DMA1_Stream4->NDTR]
    returns and [dsts] the device status register.  The handle is
    dereferenced unchecked: with [pClassData == NULL] there is no result. *)
Definition USBD_AUDIO_SOF (c : Config) (ndtr dsts : Z) (s : State)
  : option (USBD_StatusTypeDef * State) :=
  match pClassData s with
  | None => None
  | Some h =>
    if (1 <=? rd_enable h) && (all_ready s =? 1) then
      let h1 := set_rd_ptr (rd_from_ndtr c ndtr) h in
      let writable := audio_buf_writable_size c (rd_ptr h1) (wr_ptr h1) in
      let s1 := set_handle h1 s in
      let s2 := set_fb_value (AUDIO_FB_DEFAULT c) s1 in
      let s3 := set_fb_data (fb_bytes (fb_value s2)) s2 in
      let s4 := set_sof_count (u32 (sof_count s3 + 1)) s3 in
      let s5 := if sof_count s4 =? 1
                then sof_feedback c writable (set_sof_count 0 s4)
                else s4 in
      Some (USBD_OK, sof_transmit c dsts s5)
    else Some (USBD_OK, s)
  end.

(** ** Isochronous event handlers *)

(** [USBD_AUDIO_DataIn]. *)
Definition USBD_AUDIO_DataIn (c : Config) (epnum : Z) (s : State)
  : USBD_StatusTypeDef * State :=
  if epnum =? Z.land (AUDIO_IN_EP c) 0xf
  then (USBD_OK, set_tx_flag 0 s)
  else (USBD_OK, s).

(** [USBD_AUDIO_IsoINIncomplete]; [dsts] is the device status register. *)
Definition USBD_AUDIO_IsoINIncomplete (c : Config) (epnum dsts : Z) (s : State)
  : USBD_StatusTypeDef * State :=
  let s1 := set_fnsof (fnsof_of_dsts dsts) s in
  if tx_flag s1 =? 1
  then (USBD_OK, emit (LL_FlushEP (AUDIO_IN_EP c)) (set_tx_flag 0 s1))
  else (USBD_OK, s1).

(** [USBD_AUDIO_IsoOutIncomplete]; the handle is dereferenced unchecked. *)
Definition USBD_AUDIO_IsoOutIncomplete (c : Config) (epnum : Z) (s : State)
  : option (USBD_StatusTypeDef * State) :=
  match pClassData s with
  | None => None
  | Some h =>
    let s1 := emit (LL_FlushEP (AUDIO_OUT_EP c)) s in
    Some (USBD_OK,
          emit (LL_PrepareReceive (AUDIO_OUT_EP c) (RxRing (wr_ptr h)) (AUDIO_OUT_PACKET c)) s1)
  end.

(** [haudio->buffer[haudio->wr_ptr++] = v].  An index past the end of the
    array leaves the list as it is. *)
Definition store_byte (v : Z) (h : USBD_AUDIO_HandleTypeDef) : USBD_AUDIO_HandleTypeDef :=
  set_wr_ptr (u16 (wr_ptr h + 1))
             (set_buffer (<[Z.to_nat (wr_ptr h) := v]> (buffer h)) h).

(** [tmpbuf[i]]; the static array has 1024 bytes. *)
Definition tmpbuf_at (tmp : list Z) (i : Z) : Z := default 0 (tmp !! Z.to_nat i).

(** The copy loop of [USBD_AUDIO_DataOut], [n] iterations left. *)
Fixpoint ingest_loop (c : Config) (n : nat) (tmp : list Z) (tmpbuf_ptr : Z)
         (h : USBD_AUDIO_HandleTypeDef) : USBD_AUDIO_HandleTypeDef :=
  match n with
  | O => h
  | S n' =>
    let h1 := store_byte (tmpbuf_at tmp tmpbuf_ptr) h in
    let h2 := store_byte (tmpbuf_at tmp (tmpbuf_ptr + 1)) h1 in
    let h3 := store_byte (tmpbuf_at tmp (tmpbuf_ptr + 2)) h2 in
    let h4 := store_byte (tmpbuf_at tmp (tmpbuf_ptr + 3)) h3 in
    let h5 := if AUDIO_TOTAL_BUF_SIZE c <=? wr_ptr h4 then set_wr_ptr 0 h4 else h4 in
    ingest_loop c n' tmp (u32 (tmpbuf_ptr + 4)) h5
  end.

Definition offset_is_unknown (o : AUDIO_OffsetTypeDef) : bool :=
  match o with AUDIO_OFFSET_UNKNOWN => true | _ => false end.

(** The half-full latch at the end of [USBD_AUDIO_DataOut]. *)
Definition playback_latch (c : Config) (h : USBD_AUDIO_HandleTypeDef) (s : State) : State :=
  if offset_is_unknown (offset h) && (is_playing s =? 0) then
    if AUDIO_TOTAL_BUF_SIZE c / 2 <=? wr_ptr h then
      let h1 := set_offset AUDIO_OFFSET_NONE h in
      let s1 := set_is_playing 1 (set_handle h1 s) in
      if rd_enable h1 =? 0 then
        let h2 := set_rd_enable 1 h1 in
        emit (Itf_AudioCmd 0 (AUDIO_TOTAL_BUF_SIZE c / 2) AUDIO_CMD_START)
             (set_handle h2 s1)
      else s1
    else s
  else s.

(** [PacketSize] after "Ignore strangely large packets". *)
Definition packet_size (c : Config) (rx_size : Z) : Z :=
  let PacketSize := u16 rx_size in
  if PacketSize >? AUDIO_OUT_PACKET c then 0 else PacketSize.

(** [USBD_AUDIO_DataOut]; [rx_size] is what [USBD_LL_GetRxDataSize] returns. *)
Definition USBD_AUDIO_DataOut (c : Config) (epnum rx_size : Z) (s : State)
  : USBD_StatusTypeDef * State :=
  match pClassData s with
  | None => (USBD_FAIL, s)
  | Some h =>
    if (epnum =? AUDIO_OUT_EP c) && (all_ready s =? 1) then
      let PacketSize := packet_size c rx_size in
      let num_samples := PacketSize / 4 in
      let h1 := ingest_loop c (Z.to_nat num_samples) (tmpbuf s) 0 h in
      let s1 := set_handle h1 s in
      let s2 := playback_latch c h1 s1 in
      (USBD_OK,
       emit (LL_PrepareReceive (AUDIO_OUT_EP c) RxTmpbuf (AUDIO_OUT_PACKET c)) s2)
    else (USBD_OK, s)
  end.

(** ** Control requests *)

Record USBD_SetupReqTypedef : Type := {
  bmRequest : Z;
  bRequest : Z;
  wValue : Z;
  wIndex : Z;
  wLength : Z
}.

Definition HIBYTE (x : Z) : Z := u8 (Z.shiftr (Z.land x 0xFF00) 8).
Definition MIN (a b : Z) : Z := if a <? b then a else b.

(** [AUDIO_REQ_GetCurrent]. *)
Definition AUDIO_REQ_GetCurrent (req : USBD_SetupReqTypedef) (s : State) : State :=
  match pClassData s with
  | None => s
  | Some h =>
    let ctl := control h in
    let ctl1 := {| ctl_cmd := ctl_cmd ctl; ctl_data := replicate 64 0;
                   ctl_len := ctl_len ctl; ctl_unit := ctl_unit ctl |} in
    emit (CtlSendData (TxControlData (ctl_data ctl1)) (wLength req))
         (set_handle (set_control ctl1 h) s)
  end.

(** [AUDIO_REQ_SetCurrent]. *)
Definition AUDIO_REQ_SetCurrent (req : USBD_SetupReqTypedef) (s : State) : State :=
  match pClassData s with
  | None => s
  | Some h =>
    if negb (wLength req =? 0) then
      let s1 := emit (CtlPrepareRx (wLength req)) s in
      let ctl1 := {| ctl_cmd := AUDIO_REQ_SET_CUR; ctl_data := ctl_data (control h);
                     ctl_len := u8 (wLength req); ctl_unit := HIBYTE (wIndex req) |} in
      set_handle (set_control ctl1 h) s1
    else s
  end.

Definition ctl_error (s : State) : USBD_StatusTypeDef * State := (USBD_FAIL, emit CtlError s).

(** The two branches under [USB_REQ_SET_INTERFACE] once the request is
    accepted. *)
Definition set_interface_alt0 (c : Config) (h : USBD_AUDIO_HandleTypeDef) (s : State) : State :=
  let h1 := set_buffer (replicate (Z.to_nat (AUDIO_TOTAL_BUF_SIZE c)) 0) h in
  let s1 := set_is_playing 0 (set_tx_flag 1 (set_all_ready 0 s)) in
  let h2 := set_wr_ptr 0 (set_rd_ptr 0 (set_rd_enable 0 (set_offset AUDIO_OFFSET_UNKNOWN h1))) in
  let s2 := set_handle h2 s1 in
  let s3 := emit (LL_FlushEP (AUDIO_OUT_EP c)) (emit (LL_FlushEP (AUDIO_IN_EP c)) s2) in
  emit (Itf_DeInit 0) s3.

Definition set_interface_alt_other (c : Config) (h : USBD_AUDIO_HandleTypeDef) (s : State) : State :=
  let s1 := set_is_playing 0 (set_tx_flag 1 (set_all_ready 0 s)) in
  let h2 := set_wr_ptr 0 (set_rd_ptr 0 (set_rd_enable 0 (set_offset AUDIO_OFFSET_UNKNOWN h))) in
  let s2 := set_handle h2 s1 in
  let s3 := emit (LL_FlushEP (AUDIO_OUT_EP c)) (emit (LL_FlushEP (AUDIO_IN_EP c)) s2) in
  let s4 := emit (Itf_Init (USBD_AUDIO_FREQ c) (AUDIO_DEFAULT_VOLUME c) 0) s3 in
  set_all_ready 1 (set_tx_flag 0 s4).

(** The [USB_REQ_SET_INTERFACE] case. *)
Definition setup_set_interface (c : Config) (req : USBD_SetupReqTypedef)
           (h : USBD_AUDIO_HandleTypeDef) (s : State) : USBD_StatusTypeDef * State :=
  if dev_state s =? USBD_STATE_CONFIGURED then
    if u8 (wValue req) <=? USBD_MAX_NUM_INTERFACES c then
      let h1 := set_alt_setting (u8 (wValue req)) h in
      let s1 := set_handle h1 s in
      let s2 := if alt_setting h1 =? 0
                then set_interface_alt0 c h1 s1
                else set_interface_alt_other c h1 s1 in
      (USBD_OK, emit (LL_FlushEP (AUDIO_IN_EP c)) s2)
    else ctl_error s
  else ctl_error s.

(** [USBD_AUDIO_Setup]. *)
Definition USBD_AUDIO_Setup (c : Config) (req : USBD_SetupReqTypedef) (s : State)
  : USBD_StatusTypeDef * State :=
  match pClassData s with
  | None => (USBD_FAIL, s)
  | Some h =>
    let ty := Z.land (bmRequest req) USB_REQ_TYPE_MASK in
    if ty =? USB_REQ_TYPE_CLASS then
      if bRequest req =? AUDIO_REQ_GET_CUR then (USBD_OK, AUDIO_REQ_GetCurrent req s)
      else if bRequest req =? AUDIO_REQ_SET_CUR then (USBD_OK, AUDIO_REQ_SetCurrent req s)
      else ctl_error s
    else if ty =? USB_REQ_TYPE_STANDARD then
      if bRequest req =? USB_REQ_GET_STATUS then
        if dev_state s =? USBD_STATE_CONFIGURED
        then (USBD_OK, emit (CtlSendData TxStatusInfo 2) s)
        else ctl_error s
      else if bRequest req =? USB_REQ_GET_DESCRIPTOR then
        if Z.shiftr (wValue req) 8 =? AUDIO_DESCRIPTOR_TYPE
        then (USBD_OK,
              emit (CtlSendData (TxCfgDesc 18) (u16 (MIN USB_AUDIO_DESC_SIZ (wLength req)))) s)
        else (USBD_OK, s)
      else if bRequest req =? USB_REQ_GET_INTERFACE then
        if dev_state s =? USBD_STATE_CONFIGURED
        then (USBD_OK, emit (CtlSendData (TxAltSetting (alt_setting h)) 1) s)
        else ctl_error s
      else if bRequest req =? USB_REQ_SET_INTERFACE then setup_set_interface c req h s
      else if bRequest req =? USB_REQ_CLEAR_FEATURE then (USBD_OK, s)
      else ctl_error s
    else ctl_error s
  end.

(** [USBD_AUDIO_EP0_RxReady]. *)
Definition USBD_AUDIO_EP0_RxReady (s : State) : USBD_StatusTypeDef * State :=
  match pClassData s with
  | None => (USBD_FAIL, s)
  | Some h =>
    if ctl_cmd (control h) =? AUDIO_REQ_SET_CUR then
      if ctl_unit (control h) =? AUDIO_OUT_STREAMING_CTRL then
        let s1 := emit (Itf_MuteCtl (default 0 (ctl_data (control h) !! 0%nat))) s in
        let ctl1 := {| ctl_cmd := 0; ctl_data := ctl_data (control h);
                       ctl_len := 0; ctl_unit := ctl_unit (control h) |} in
        (USBD_OK, set_handle (set_control ctl1 h) s1)
      else (USBD_OK, s)
    else (USBD_OK, s)
  end.

(** [USBD_AUDIO_EP0_TxReady]. *)
Definition USBD_AUDIO_EP0_TxReady (s : State) : USBD_StatusTypeDef * State := (USBD_OK, s).

(** ** Init and DeInit *)

(** [USBD_AUDIO_Init].  [mem] is the block [USBD_malloc] returns, with the
    contents found there ([None] when it returns [NULL]); [itf_ret] is the
    return value of the DAC's [Init]. *)
Definition USBD_AUDIO_Init (c : Config) (mem : option USBD_AUDIO_HandleTypeDef)
           (itf_ret : Z) (s : State) : USBD_StatusTypeDef * State :=
  match mem with
  | None => (USBD_EMEM, set_pClassData None s)
  | Some h =>
    let s1 := set_handle h s in
    let s2 := if dev_speed s1 =? USBD_SPEED_HIGH
              then set_ep_out AUDIO_HS_BINTERVAL (ep_out_is_used s1) s1
              else set_ep_out AUDIO_FS_BINTERVAL (ep_out_is_used s1) s1 in
    let s3 := emit (LL_OpenEP (AUDIO_OUT_EP c) USBD_EP_TYPE_ISOC (AUDIO_OUT_PACKET c)) s2 in
    let s4 := set_ep_out (ep_out_bInterval s3) 1 s3 in
    let s5 := emit (LL_OpenEP (AUDIO_IN_EP c) USBD_EP_TYPE_ISOC AUDIO_IN_PACKET) s4 in
    let s6 := set_ep_in_is_used 1 s5 in
    let s7 := emit (LL_FlushEP (AUDIO_IN_EP c)) s6 in
    let s8 := set_tx_flag 1 s7 in
    let h1 := set_rd_enable 0 (set_rd_ptr 0 (set_wr_ptr 0
                (set_offset AUDIO_OFFSET_UNKNOWN (set_alt_setting 0 h)))) in
    let s9 := set_handle h1 s8 in
    let s10 := emit (Itf_Init (USBD_AUDIO_FREQ c) (AUDIO_DEFAULT_VOLUME c) 0) s9 in
    if negb (itf_ret =? 0) then (USBD_FAIL, s10)
    else (USBD_OK,
          emit (LL_PrepareReceive (AUDIO_OUT_EP c) (RxRing 0) (AUDIO_OUT_PACKET c)) s10)
  end.

(** [USBD_AUDIO_DeInit]. *)
Definition USBD_AUDIO_DeInit (c : Config) (s : State) : USBD_StatusTypeDef * State :=
  let s1 := emit (LL_FlushEP (AUDIO_IN_EP c)) (emit (LL_FlushEP (AUDIO_OUT_EP c)) s) in
  let s2 := set_ep_out 0 0 (emit (LL_CloseEP (AUDIO_OUT_EP c)) s1) in
  let s3 := set_ep_in_is_used 0 (emit (LL_CloseEP (AUDIO_IN_EP c)) s2) in
  let s4 := set_tx_flag 0 s3 in
  match pClassData s4 with
  | Some _ => (USBD_OK, set_pClassData None (emit (Itf_DeInit 0) s4))
  | None => (USBD_OK, s4)
  end.

(** ** Events and runs *)

(** The file-scope initialiser of [fb_data]: [AUDIO_FB_DEFAULT] expands
    unparenthesised, so the mask binds to the last alternative only. *)
Definition fb_default_masked (c : Config) (mask : Z) : Z :=
  if USBD_AUDIO_FREQ c =? 96000 then Z.shiftl 96 22
  else if USBD_AUDIO_FREQ c =? 48000 then Z.shiftl 48 22
  else if USBD_AUDIO_FREQ c =? 44100 then Z.shiftl 44 22 + Z.quot (Z.shiftl 1 22) 10
  else Z.land (Z.shiftl 48 22) mask.

(** The state before the first callback: the initialisers of the file. *)
Definition boot_state (c : Config) (state speed : Z) : State := {|
  pClassData := None;
  dev_state := state;
  dev_speed := speed;
  ep_out_bInterval := 0;
  ep_out_is_used := 0;
  ep_in_is_used := 0;
  tx_flag := 1;
  is_playing := 0;
  all_ready := 0;
  fnsof := 0;
  fb_value := u32 (AUDIO_FB_DEFAULT c);
  fb_raw := i32 (AUDIO_FB_DEFAULT c);
  fb_data := [ u8 (Z.shiftr (fb_default_masked c 0x0000FF00) 8);
               u8 (Z.shiftr (fb_default_masked c 0x00FF0000) 16);
               u8 (Z.shiftr (fb_default_masked c 0xFF000000) 24) ];
  sof_count := 0;
  tmpbuf := replicate 1024 0;
  calls := []
|}.

Definition set_dev_state v (s : State) :=
  {| pClassData := pClassData s; dev_state := v; dev_speed := dev_speed s;
     ep_out_bInterval := ep_out_bInterval s; ep_out_is_used := ep_out_is_used s;
     ep_in_is_used := ep_in_is_used s; tx_flag := tx_flag s; is_playing := is_playing s;
     all_ready := all_ready s; fnsof := fnsof s; fb_value := fb_value s; fb_raw := fb_raw s;
     fb_data := fb_data s; sof_count := sof_count s; tmpbuf := tmpbuf s; calls := calls s |}.

(** The EP0 data stage lands in [haudio->control.data]. *)
Definition deliver_control (rx : list Z) (s : State) : State :=
  match pClassData s with
  | None => s
  | Some h =>
    set_handle (set_control {| ctl_cmd := ctl_cmd (control h); ctl_data := rx;
                               ctl_len := ctl_len (control h);
                               ctl_unit := ctl_unit (control h) |} h) s
  end.

(** What the USB core and the hardware do to the driver.  Each callback
    carries the values the handler reads from outside. *)
Inductive Event : Type :=
| EvDevState (st : Z)                         (* the core moves [pdev->dev_state] *)
| EvInit (mem : option USBD_AUDIO_HandleTypeDef) (itf_ret : Z)
| EvDeInit
| EvSetup (req : USBD_SetupReqTypedef)
| EvEP0_TxReady
| EvEP0_RxReady (rx : list Z)
| EvDataIn (epnum : Z)
| EvDataOut (epnum rx_size : Z) (pkt : list Z) (* [pkt]: [tmpbuf] as the handler finds it *)
| EvSOF (ndtr dsts : Z)
| EvIsoINIncomplete (epnum dsts : Z)
| EvIsoOutIncomplete (epnum : Z).

(** One callback; [None] when the handler dereferences a [NULL] handle. *)
Definition dispatch (c : Config) (e : Event) (s : State) : option State :=
  match e with
  | EvDevState st => Some (set_dev_state st s)
  | EvInit mem r => Some (snd (USBD_AUDIO_Init c mem r s))
  | EvDeInit => Some (snd (USBD_AUDIO_DeInit c s))
  | EvSetup req => Some (snd (USBD_AUDIO_Setup c req s))
  | EvEP0_TxReady => Some (snd (USBD_AUDIO_EP0_TxReady s))
  | EvEP0_RxReady rx => Some (snd (USBD_AUDIO_EP0_RxReady (deliver_control rx s)))
  | EvDataIn ep => Some (snd (USBD_AUDIO_DataIn c ep s))
  | EvDataOut ep sz pkt => Some (snd (USBD_AUDIO_DataOut c ep sz (set_tmpbuf pkt s)))
  | EvSOF ndtr dsts => snd <$> USBD_AUDIO_SOF c ndtr dsts s
  | EvIsoINIncomplete ep dsts => Some (snd (USBD_AUDIO_IsoINIncomplete c ep dsts s))
  | EvIsoOutIncomplete ep => snd <$> USBD_AUDIO_IsoOutIncomplete c ep s
  end.

Fixpoint run (c : Config) (evs : list Event) (s : State) : option State :=
  match evs with
  | [] => Some s
  | e :: rest =>
    match dispatch c e s with
    | Some s' => run c rest s'
    | None => None
    end
  end.

(** The steps of a run: state before, event, state after. *)
Fixpoint transitions (c : Config) (s : State) (evs : list Event)
  : list (State * Event * State) :=
  match evs with
  | [] => []
  | e :: rest =>
    match dispatch c e s with
    | Some s' => (s, e, s') :: transitions c s' rest
    | None => []
    end
  end.

(** The calls made between [s] and a later state [s']. *)
Definition new_calls (s s' : State) : list Call := drop (length (calls s)) (calls s').

(** ** Vocabulary of the properties *)

Definition iso_event (e : Event) : bool :=
  match e with
  | EvDataIn _ | EvDataOut _ _ _ | EvSOF _ _
  | EvIsoINIncomplete _ _ | EvIsoOutIncomplete _ => true
  | _ => false
  end.

Definition is_dataout (e : Event) : bool :=
  match e with EvDataOut _ _ _ => true | _ => false end.

(** The transition table of [tx_flag] with IsoInIncomplete on the setting
    side. *)
Definition tx_transition_setting (c : Config) (e : Event) (old new : Z) : Prop :=
  match e with
  | EvDataIn ep => ep = Z.land (AUDIO_IN_EP c) 0xf /\ old = 1 /\ new = 0
  | EvSOF _ _ => old = 0 /\ new = 1
  | EvIsoINIncomplete _ _ => old = 0 /\ new = 1
  | _ => False
  end.

(** The transition table of [tx_flag] with IsoInIncomplete on the clearing
    side. *)
Definition tx_transition_clearing (c : Config) (e : Event) (old new : Z) : Prop :=
  match e with
  | EvDataIn ep => ep = Z.land (AUDIO_IN_EP c) 0xf /\ old = 1 /\ new = 0
  | EvSOF _ _ => old = 0 /\ new = 1
  | EvIsoINIncomplete _ _ => old = 1 /\ new = 0
  | _ => False
  end.

(** The frame number captured by the most recent IsoInIncomplete of a run
    whose first state held [init]. *)
Fixpoint last_captured_fnsof (evs : list Event) (init : Z) : Z :=
  match evs with
  | [] => init
  | EvIsoINIncomplete _ dsts :: rest => last_captured_fnsof rest (fnsof_of_dsts dsts)
  | _ :: rest => last_captured_fnsof rest init
  end.

Definition is_transmit (k : Call) : bool :=
  match k with LL_Transmit _ _ _ => true | _ => false end.
Definition is_audio_cmd (k : Call) : bool :=
  match k with Itf_AudioCmd _ _ _ => true | _ => false end.
Definition is_ctl_error (k : Call) : bool :=
  match k with CtlError => true | _ => false end.
Definition is_dac_init_deinit (k : Call) : bool :=
  match k with Itf_Init _ _ _ | Itf_DeInit _ => true | _ => false end.

(** A standard-type SET_INTERFACE request, and the alternate setting it
    asks for. *)
Definition is_set_interface (req : USBD_SetupReqTypedef) : bool :=
  (Z.land (bmRequest req) USB_REQ_TYPE_MASK =? USB_REQ_TYPE_STANDARD)
  && (bRequest req =? USB_REQ_SET_INTERFACE).
Definition req_alt (req : USBD_SetupReqTypedef) : Z := u8 (wValue req).

(** The request reaches one of the two reset branches. *)
Definition set_interface_accepted (c : Config) (req : USBD_SetupReqTypedef) (s : State) : bool :=
  match pClassData s with
  | None => false
  | Some _ =>
    is_set_interface req && (dev_state s =? USBD_STATE_CONFIGURED)
    && (req_alt req <=? USBD_MAX_NUM_INTERFACES c)
  end.

(** Events that reset the streaming state: Init, DeInit and an accepted
    SET_INTERFACE. *)
Definition resets (c : Config) (s : State) (e : Event) : bool :=
  match e with
  | EvInit _ _ | EvDeInit => true
  | EvSetup req => set_interface_accepted c req s
  | _ => false
  end.

(** Events that open an operational session: Init with a handle, or an
    accepted SET_INTERFACE with a non-zero alternate setting. *)
Definition opens_session (c : Config) (s : State) (e : Event) : bool :=
  match e with
  | EvInit (Some _) _ => true
  | EvSetup req => set_interface_accepted c req s && negb (req_alt req =? 0)
  | _ => false
  end.

(** No event of the run from [s] is a reset. *)
Fixpoint is_session (c : Config) (s : State) (evs : list Event) : bool :=
  match evs with
  | [] => true
  | e :: rest =>
    negb (resets c s e) &&
    match dispatch c e s with
    | Some s' => is_session c s' rest
    | None => true
    end
  end.

(** [is_playing] goes from 0 to 1 in this step. *)
Definition rising (t : State * Event * State) : bool :=
  (is_playing (fst (fst t)) =? 0) && (is_playing (snd t) =? 1).

(** The state SET_INTERFACE with a non-zero alternate setting [alt] leaves
    behind: ring contents and control scratch as they were. *)
Definition operational_state (c : Config) (alt : Z) (h : USBD_AUDIO_HandleTypeDef) (s : State)
  : State := {|
  pClassData := Some {| alt_setting := alt; buffer := buffer h;
                        offset := AUDIO_OFFSET_UNKNOWN; rd_enable := 0;
                        rd_ptr := 0; wr_ptr := 0; control := control h |};
  dev_state := dev_state s;
  dev_speed := dev_speed s;
  ep_out_bInterval := ep_out_bInterval s;
  ep_out_is_used := ep_out_is_used s;
  ep_in_is_used := ep_in_is_used s;
  tx_flag := 0;
  is_playing := 0;
  all_ready := 1;
  fnsof := fnsof s;
  fb_value := fb_value s;
  fb_raw := fb_raw s;
  fb_data := fb_data s;
  sof_count := sof_count s;
  tmpbuf := tmpbuf s;
  calls := calls s ++ [ LL_FlushEP (AUDIO_IN_EP c); LL_FlushEP (AUDIO_OUT_EP c);
                        Itf_Init (USBD_AUDIO_FREQ c) (AUDIO_DEFAULT_VOLUME c) 0;
                        LL_FlushEP (AUDIO_IN_EP c) ]
|}.

(** A handle with a ring of [n] bytes all equal to [v], streaming idle. *)
Definition fresh_handle (n : nat) (v : Z) : USBD_AUDIO_HandleTypeDef := {|
  alt_setting := 0; buffer := replicate n v; offset := AUDIO_OFFSET_UNKNOWN;
  rd_enable := 0; rd_ptr := 0; wr_ptr := 0;
  control := {| ctl_cmd := 0; ctl_data := replicate 64 0; ctl_len := 0; ctl_unit := 0 |}
|}.

Definition SET_INTERFACE_req (alt : Z) : USBD_SetupReqTypedef :=
  {| bmRequest := 0x01; bRequest := USB_REQ_SET_INTERFACE; wValue := alt;
     wIndex := 1; wLength := 0 |}.

(** ** Vocabulary of the feedback and SET_INTERFACE properties *)

Definition fb_in_range (c : Config) (v : Z) : Prop :=
  fb_nom c - AUDIO_FB_DELTA <= v <= fb_nom c + AUDIO_FB_DELTA.


(** The state a SOF tick with its guard true reaches, before the transmit decision. *)
Definition sof_computed (c : Config) (ndtr : Z) (h : USBD_AUDIO_HandleTypeDef) (s : State)
  : State :=
  let h1 := set_rd_ptr (rd_from_ndtr c ndtr) h in
  let writable := audio_buf_writable_size c (rd_ptr h1) (wr_ptr h1) in
  let s3 := set_fb_data (fb_bytes (AUDIO_FB_DEFAULT c))
              (set_fb_value (AUDIO_FB_DEFAULT c) (set_handle h1 s)) in
  let s4 := set_sof_count (u32 (sof_count s3 + 1)) s3 in
  if sof_count s4 =? 1 then sof_feedback c writable (set_sof_count 0 s4) else s4.


(** A state on which the SOF guard holds, over a 1920-byte ring: DMA
    running, write pointer [wr]. *)
Definition streaming_state (c : Config) (wr : Z) : State :=
  set_all_ready 1 (set_tx_flag 0
    (set_handle (set_wr_ptr wr (set_rd_enable 1 (set_offset AUDIO_OFFSET_NONE
                  (fresh_handle 1920 0))))
       (boot_state c USBD_STATE_CONFIGURED 1))).

(** The state in which the DAC callback of a SET_INTERFACE branch runs:
    flags cleared, pointers at 0, both endpoints flushed; [buf] is the ring
    that branch leaves. *)
Definition reset_state (c : Config) (alt : Z) (buf : list Z)
           (h : USBD_AUDIO_HandleTypeDef) (s : State) : State := {|
  pClassData := Some {| alt_setting := alt; buffer := buf;
                        offset := AUDIO_OFFSET_UNKNOWN; rd_enable := 0;
                        rd_ptr := 0; wr_ptr := 0; control := control h |};
  dev_state := dev_state s;
  dev_speed := dev_speed s;
  ep_out_bInterval := ep_out_bInterval s;
  ep_out_is_used := ep_out_is_used s;
  ep_in_is_used := ep_in_is_used s;
  tx_flag := 1;
  is_playing := 0;
  all_ready := 0;
  fnsof := fnsof s;
  fb_value := fb_value s;
  fb_raw := fb_raw s;
  fb_data := fb_data s;
  sof_count := sof_count s;
  tmpbuf := tmpbuf s;
  calls := calls s ++ [ LL_FlushEP (AUDIO_IN_EP c); LL_FlushEP (AUDIO_OUT_EP c) ]
|}.

(** What the operational branch adds after the reset: DAC init, feedback
    armed, processing enabled. *)
Definition arm_operational (c : Config) (s : State) : State :=
  set_all_ready 1 (set_tx_flag 0
    (emit (Itf_Init (USBD_AUDIO_FREQ c) (AUDIO_DEFAULT_VOLUME c) 0) s)).

(** A configured device whose ring holds 0xAA everywhere. *)
Definition stale_ring_state (c : Config) : State :=
  set_handle (fresh_handle 1920 0xAA) (boot_state c USBD_STATE_CONFIGURED 1).

(** ** Vocabulary of the ingestion properties *)

(** The write offset is on a frame boundary inside the ring. *)
Definition wr_ok (c : Config) (h : USBD_AUDIO_HandleTypeDef) : Prop :=
  wr_ptr h mod 4 = 0 /\ 0 <= wr_ptr h < AUDIO_TOTAL_BUF_SIZE c.

(** The half-full latch finds its condition true, and then also finds
    reads disabled. *)
Definition latch_fires (c : Config) (h : USBD_AUDIO_HandleTypeDef) (s : State) : bool :=
  offset_is_unknown (offset h) && (is_playing s =? 0)
  && (AUDIO_TOTAL_BUF_SIZE c / 2 <=? wr_ptr h).
Definition latch_starts (c : Config) (h : USBD_AUDIO_HandleTypeDef) (s : State) : bool :=
  latch_fires c h s && (rd_enable h =? 0).

Definition count_rising (T : list (State * Event * State)) : nat :=
  length (List.filter rising T).

(** Reads stay disabled for as long as the offset state is UNKNOWN. *)
Definition unknown_means_idle (s : State) : Prop :=
  match pClassData s with
  | Some h => offset_is_unknown (offset h) = true -> rd_enable h = 0
  | None => True
  end.

(** ** Vocabulary of the feedback gating and session properties *)

(** Flags, captured frame number and call log are the same in both states. *)
Definition frame (s s' : State) : Prop :=
  tx_flag s' = tx_flag s /\ is_playing s' = is_playing s /\ all_ready s' = all_ready s /\
  fnsof s' = fnsof s /\ calls s' = calls s.

(** The streaming fields of the handle are the same. *)
Definition same_stream (h h' : USBD_AUDIO_HandleTypeDef) : Prop :=
  offset h' = offset h /\ rd_enable h' = rd_enable h /\ wr_ptr h' = wr_ptr h /\
  buffer h' = buffer h.

(** The conditions under which [USBD_AUDIO_SOF] reaches [USBD_LL_Transmit]. *)
Definition sof_submits (dsts : Z) (h : USBD_AUDIO_HandleTypeDef) (s : State) : bool :=
  (1 <=? rd_enable h) && (all_ready s =? 1) && (tx_flag s =? 0)
  && (Z.land (fnsof s) 0x1 =? Z.land (fnsof_of_dsts dsts) 0x1).

(** A step that starts playback: a DataOut that leaves the write offset at
    or past half the ring and calls the DAC's start command once, on the
    first half of the ring, before re-arming the endpoint. *)
Definition starts_playback (c : Config) (t : State * Event * State) : Prop :=
  exists ep sz pkt h',
    snd (fst t) = EvDataOut ep sz pkt /\
    pClassData (snd t) = Some h' /\
    AUDIO_TOTAL_BUF_SIZE c / 2 <= wr_ptr h' /\
    new_calls (fst (fst t)) (snd t) =
      [ Itf_AudioCmd 0 (AUDIO_TOTAL_BUF_SIZE c / 2) AUDIO_CMD_START;
        LL_PrepareReceive (AUDIO_OUT_EP c) RxTmpbuf (AUDIO_OUT_PACKET c) ].

(** A step that leaves the DAC's command entry alone. *)
Definition no_start (t : State * Event * State) : Prop :=
  existsb is_audio_cmd (new_calls (fst (fst t)) (snd t)) = false.

(** What the half-full latch looks at in the handle. *)
Definition stream_key (s : State) : option (AUDIO_OffsetTypeDef * Z) :=
  match pClassData s with
  | Some h => Some (offset h, rd_enable h)
  | None => None
  end.

(** A step that touches neither [is_playing] nor the latch inputs and
    does not call the DAC's command entry. *)
Definition quiet (s s' : State) : Prop :=
  is_playing s' = is_playing s /\ stream_key s' = stream_key s /\
  exists l, calls s' = calls s ++ l /\ existsb is_audio_cmd l = false.

(** A short session on the 48 kHz build: five full packets, a SOF tick,
    one more packet. *)
Definition demo_packet : list Z := replicate 1024 7.
Definition demo_session : list Event :=
  [ EvDataOut 0x01 192 demo_packet; EvDataOut 0x01 192 demo_packet;
    EvDataOut 0x01 192 demo_packet; EvDataOut 0x01 192 demo_packet;
    EvDataOut 0x01 192 demo_packet; EvSOF 1280 0;
    EvDataOut 0x01 192 demo_packet ].
Definition demo_session_start : State :=
  operational_state cfg48 1 (fresh_handle 1920 0xAA) (stale_ring_state cfg48).

(** ** Vocabulary of the further properties *)

(** The 24-bit number a host reads from a three-byte little-endian packet. *)
Definition le24 (l : list Z) : Z :=
  match l with
  | [b0; b1; b2] => b0 + 256 * b1 + 65536 * b2
  | _ => 0
  end.

(** The bounds of the clamp. *)
Definition fb_lo (c : Config) : Z := fb_nom c - AUDIO_FB_DELTA.
Definition fb_hi (c : Config) : Z := fb_nom c + AUDIO_FB_DELTA.

(** The feedback value as a rational expression of the free space:
    nominal times [(1 << 22) + 256 * dev], shifted back, then clamped. *)
Definition fb_closed_form (c : Config) (writable : Z) : Z :=
  Z.max (fb_lo c)
    (Z.min (fb_hi c)
       (fb_nom c * (2 ^ 22 + 256 * (writable - AUDIO_TOTAL_BUF_SIZE c / 12)) / 2 ^ 22)).

(** The three flags hold 0 or 1 and the SOF tick counter is back at 0. *)
Definition flags_ok (s : State) : Prop :=
  (tx_flag s = 0 \/ tx_flag s = 1) /\ (all_ready s = 0 \/ all_ready s = 1) /\
  (is_playing s = 0 \/ is_playing s = 1) /\ sof_count s = 0.

(** The feedback value is inside the clamp and the packet serialises it. *)
Definition feedback_ok (c : Config) (s : State) : Prop :=
  fb_in_range c (fb_value s) /\ fb_data s = fb_bytes (fb_value s).




(** Standard GET_INTERFACE and GET_DESCRIPTOR requests; class SET_CUR and
    GET_CUR requests. *)
Definition is_get_interface (req : USBD_SetupReqTypedef) : bool :=
  (Z.land (bmRequest req) USB_REQ_TYPE_MASK =? USB_REQ_TYPE_STANDARD)
  && (bRequest req =? USB_REQ_GET_INTERFACE).
Definition is_get_descriptor (req : USBD_SetupReqTypedef) : bool :=
  (Z.land (bmRequest req) USB_REQ_TYPE_MASK =? USB_REQ_TYPE_STANDARD)
  && (bRequest req =? USB_REQ_GET_DESCRIPTOR).

Definition GET_INTERFACE_req : USBD_SetupReqTypedef :=
  {| bmRequest := 0x81; bRequest := USB_REQ_GET_INTERFACE; wValue := 0;
     wIndex := 1; wLength := 1 |}.
Definition GET_DESCRIPTOR_req (ty len : Z) : USBD_SetupReqTypedef :=
  {| bmRequest := 0x81; bRequest := USB_REQ_GET_DESCRIPTOR; wValue := Z.shiftl ty 8;
     wIndex := 0; wLength := len |}.

(** The handle [USBD_AUDIO_Init] leaves in a freshly allocated block:
    pointers and flags reset, ring and control scratch as found. *)
Definition init_handle (h0 : USBD_AUDIO_HandleTypeDef) : USBD_AUDIO_HandleTypeDef :=
  {| alt_setting := 0; buffer := buffer h0; offset := AUDIO_OFFSET_UNKNOWN;
     rd_enable := 0; rd_ptr := 0; wr_ptr := 0; control := control h0 |}.

(** The calls of [USBD_AUDIO_Init] up to and including the DAC's init. *)
Definition init_calls (c : Config) : list Call :=
  [ LL_OpenEP (AUDIO_OUT_EP c) USBD_EP_TYPE_ISOC (AUDIO_OUT_PACKET c);
    LL_OpenEP (AUDIO_IN_EP c) USBD_EP_TYPE_ISOC AUDIO_IN_PACKET;
    LL_FlushEP (AUDIO_IN_EP c);
    Itf_Init (USBD_AUDIO_FREQ c) (AUDIO_DEFAULT_VOLUME c) 0 ].

(** The endpoint calls of [USBD_AUDIO_DeInit]. *)
Definition deinit_ep_calls (c : Config) : list Call :=
  [ LL_FlushEP (AUDIO_OUT_EP c); LL_FlushEP (AUDIO_IN_EP c);
    LL_CloseEP (AUDIO_OUT_EP c); LL_CloseEP (AUDIO_IN_EP c) ].

Definition is_dac_deinit (k : Call) : bool :=
  match k with Itf_DeInit _ => true | _ => false end.


(** Isochronous events that cannot clear [tx_flag]: everything except
    IsoInIncomplete and a DataIn whose endpoint number is the feedback
    endpoint's. *)
Definition keeps_in_flight (c : Config) (e : Event) : bool :=
  match e with
  | EvSOF _ _ | EvDataOut _ _ _ | EvIsoOutIncomplete _ => true
  | EvDataIn ep => negb (ep =? Z.land (AUDIO_IN_EP c) 0xf)
  | _ => false
  end.

(** ** Descriptors *)

(** [AUDIO_SAMPLE_FREQ(frq)]: three bytes, low byte first. *)
Definition AUDIO_SAMPLE_FREQ (frq : Z) : list Z :=
  [ u8 frq; u8 (Z.shiftr frq 8); u8 (Z.shiftr frq 16) ].

(** [AUDIO_PACKET_SZE(frq)]: the two bytes of [(frq * 2U * 2U) / 1000U],
    computed in 32-bit unsigned arithmetic. *)
Definition AUDIO_PACKET_SZE (frq : Z) : list Z :=
  [ u8 (Z.land (u32 (u32 (frq * 2) * 2) / 1000) 0xFF);
    u8 (Z.land (Z.shiftr (u32 (u32 (frq * 2) * 2) / 1000) 8) 0xFF) ].

Definition LOBYTE (x : Z) : Z := u8 (Z.land x 0x00FF).

(** The value of a little-endian byte string. *)
Fixpoint le_value (l : list Z) : Z :=
  match l with
  | [] => 0
  | b :: rest => b + 256 * le_value rest
  end.

(** The descriptor macros of [usbd_def.h], [usbd_conf.h] and
    [usbd_audio.h] that the configuration descriptor is built from; those
    headers are not among the sources at hand. *)
Record DescConsts : Type := {
  USB_AUDIO_CONFIG_DESC_SIZ : Z;
  USB_DESC_TYPE_CONFIGURATION : Z;
  USB_DESC_TYPE_INTERFACE : Z;
  USB_DESC_TYPE_ENDPOINT : Z;
  USBD_SELF_POWERED : Z;
  USBD_MAX_POWER : Z;
  USB_DEVICE_CLASS_AUDIO : Z;
  AUDIO_SUBCLASS_AUDIOCONTROL : Z;
  AUDIO_SUBCLASS_AUDIOSTREAMING : Z;
  AUDIO_PROTOCOL_UNDEFINED : Z;
  AUDIO_INTERFACE_DESC_SIZE : Z;
  AUDIO_INPUT_TERMINAL_DESC_SIZE : Z;
  AUDIO_STREAMING_INTERFACE_DESC_SIZE : Z;
  AUDIO_STANDARD_ENDPOINT_DESC_SIZE : Z;
  AUDIO_STREAMING_ENDPOINT_DESC_SIZE : Z;
  AUDIO_INTERFACE_DESCRIPTOR_TYPE : Z;
  AUDIO_ENDPOINT_DESCRIPTOR_TYPE : Z;
  AUDIO_CONTROL_HEADER : Z;
  AUDIO_CONTROL_INPUT_TERMINAL : Z;
  AUDIO_CONTROL_OUTPUT_TERMINAL : Z;
  AUDIO_CONTROL_FEATURE_UNIT : Z;
  AUDIO_CONTROL_MUTE : Z;
  AUDIO_STREAMING_GENERAL : Z;
  AUDIO_STREAMING_FORMAT_TYPE : Z;
  AUDIO_FORMAT_TYPE_I : Z;
  AUDIO_ENDPOINT_GENERAL : Z;
  USBD_EP_TYPE_ISOC_ASYNC : Z
}.

(** The initialiser of [USBD_AUDIO_CfgDesc], descriptor by descriptor. *)
Definition CfgDesc_configuration (k : DescConsts) : list Z :=
  [ 0x09; USB_DESC_TYPE_CONFIGURATION k;
    LOBYTE (USB_AUDIO_CONFIG_DESC_SIZ k); HIBYTE (USB_AUDIO_CONFIG_DESC_SIZ k);
    0x02; 0x01; 0x00;
    (if USBD_SELF_POWERED k =? 1 then 0xC0 else 0x80);
    USBD_MAX_POWER k ].
Definition CfgDesc_ac_interface (k : DescConsts) : list Z :=
  [ AUDIO_INTERFACE_DESC_SIZE k; USB_DESC_TYPE_INTERFACE k; 0x00; 0x00; 0x00;
    USB_DEVICE_CLASS_AUDIO k; AUDIO_SUBCLASS_AUDIOCONTROL k; AUDIO_PROTOCOL_UNDEFINED k;
    0x00 ].
Definition CfgDesc_ac_header (k : DescConsts) : list Z :=
  [ AUDIO_INTERFACE_DESC_SIZE k; AUDIO_INTERFACE_DESCRIPTOR_TYPE k; AUDIO_CONTROL_HEADER k;
    0x00; 0x01; 0x27; 0x00; 0x01; 0x01 ].
Definition CfgDesc_input_terminal (k : DescConsts) : list Z :=
  [ AUDIO_INPUT_TERMINAL_DESC_SIZE k; AUDIO_INTERFACE_DESCRIPTOR_TYPE k;
    AUDIO_CONTROL_INPUT_TERMINAL k; 0x01; 0x01; 0x01; 0x00; 0x01; 0x00; 0x00; 0x00; 0x00 ].
Definition CfgDesc_feature_unit (k : DescConsts) : list Z :=
  [ 0x09; AUDIO_INTERFACE_DESCRIPTOR_TYPE k; AUDIO_CONTROL_FEATURE_UNIT k;
    AUDIO_OUT_STREAMING_CTRL; 0x01; 0x01; AUDIO_CONTROL_MUTE k; 0; 0x00 ].
Definition CfgDesc_output_terminal (k : DescConsts) : list Z :=
  [ 0x09; AUDIO_INTERFACE_DESCRIPTOR_TYPE k; AUDIO_CONTROL_OUTPUT_TERMINAL k;
    0x03; 0x01; 0x03; 0x00; 0x02; 0x00 ].
Definition CfgDesc_as_alt0 (k : DescConsts) : list Z :=
  [ AUDIO_INTERFACE_DESC_SIZE k; USB_DESC_TYPE_INTERFACE k; 0x01; 0x00; 0x00;
    USB_DEVICE_CLASS_AUDIO k; AUDIO_SUBCLASS_AUDIOSTREAMING k; AUDIO_PROTOCOL_UNDEFINED k;
    0x00 ].
Definition CfgDesc_as_alt1 (k : DescConsts) : list Z :=
  [ AUDIO_INTERFACE_DESC_SIZE k; USB_DESC_TYPE_INTERFACE k; 0x01; 0x01; 0x02;
    USB_DEVICE_CLASS_AUDIO k; AUDIO_SUBCLASS_AUDIOSTREAMING k; AUDIO_PROTOCOL_UNDEFINED k;
    0x00 ].
Definition CfgDesc_as_general (k : DescConsts) : list Z :=
  [ AUDIO_STREAMING_INTERFACE_DESC_SIZE k; AUDIO_INTERFACE_DESCRIPTOR_TYPE k;
    AUDIO_STREAMING_GENERAL k; 0x01; 0x01; 0x01; 0x00 ].
Definition CfgDesc_format (k : DescConsts) (c : Config) : list Z :=
  [ 0x0B; AUDIO_INTERFACE_DESCRIPTOR_TYPE k; AUDIO_STREAMING_FORMAT_TYPE k;
    AUDIO_FORMAT_TYPE_I k; 0x02; 0x02; 16; 0x01 ]
  ++ AUDIO_SAMPLE_FREQ (USBD_AUDIO_FREQ c).
Definition CfgDesc_out_endpoint (k : DescConsts) (c : Config) : list Z :=
  [ AUDIO_STANDARD_ENDPOINT_DESC_SIZE k; USB_DESC_TYPE_ENDPOINT k; AUDIO_OUT_EP c;
    USBD_EP_TYPE_ISOC_ASYNC k ]
  ++ AUDIO_PACKET_SZE (USBD_AUDIO_FREQ c)
  ++ [ AUDIO_FS_BINTERVAL; 0x00; AUDIO_IN_EP c ].
Definition CfgDesc_as_endpoint (k : DescConsts) : list Z :=
  [ AUDIO_STREAMING_ENDPOINT_DESC_SIZE k; AUDIO_ENDPOINT_DESCRIPTOR_TYPE k;
    AUDIO_ENDPOINT_GENERAL k; 0x00; 0x00; 0x00; 0x00 ].
Definition CfgDesc_feedback_endpoint (k : DescConsts) (c : Config) : list Z :=
  [ AUDIO_STANDARD_ENDPOINT_DESC_SIZE k; USB_DESC_TYPE_ENDPOINT k; AUDIO_IN_EP c;
    0x11; 0x03; 0x00; 0x01; 0x00; 0x00 ].

Definition USBD_AUDIO_CfgDesc_init (k : DescConsts) (c : Config) : list Z :=
  CfgDesc_configuration k ++ CfgDesc_ac_interface k ++ CfgDesc_ac_header k
  ++ CfgDesc_input_terminal k ++ CfgDesc_feature_unit k ++ CfgDesc_output_terminal k
  ++ CfgDesc_as_alt0 k ++ CfgDesc_as_alt1 k ++ CfgDesc_as_general k
  ++ CfgDesc_format k c ++ CfgDesc_out_endpoint k c ++ CfgDesc_as_endpoint k
  ++ CfgDesc_feedback_endpoint k c.

(** Cut a byte string into descriptors by their [bLength]; [None] when a
    length is below 2 or runs past the end. *)
Fixpoint split_descriptors (fuel : nat) (l : list Z) : option (list (list Z)) :=
  match fuel with
  | O => match l with [] => Some [] | _ => None end
  | S fuel' =>
    match l with
    | [] => Some []
    | b :: _ =>
      if (2 <=? b) && (b <=? Z.of_nat (length l))
      then cons (take (Z.to_nat b) l) <$> split_descriptors fuel' (drop (Z.to_nat b) l)
      else None
    end
  end.

(** The class-descriptor sizes of USB Audio 1.0. *)
Definition uac1_sizes (k : DescConsts) : Prop :=
  AUDIO_INTERFACE_DESC_SIZE k = 9 /\ AUDIO_INPUT_TERMINAL_DESC_SIZE k = 12 /\
  AUDIO_STREAMING_INTERFACE_DESC_SIZE k = 7 /\ AUDIO_STANDARD_ENDPOINT_DESC_SIZE k = 9 /\
  AUDIO_STREAMING_ENDPOINT_DESC_SIZE k = 7.

(** Sample values: the codes of the USB and USB Audio 1.0 specifications,
    a bus-powered device, and a declared size equal to the number of
    initialisers. *)
Definition st_consts : DescConsts := {|
  USB_AUDIO_CONFIG_DESC_SIZ := 118;
  USB_DESC_TYPE_CONFIGURATION := 0x02;
  USB_DESC_TYPE_INTERFACE := 0x04;
  USB_DESC_TYPE_ENDPOINT := 0x05;
  USBD_SELF_POWERED := 0;
  USBD_MAX_POWER := 0x32;
  USB_DEVICE_CLASS_AUDIO := 0x01;
  AUDIO_SUBCLASS_AUDIOCONTROL := 0x01;
  AUDIO_SUBCLASS_AUDIOSTREAMING := 0x02;
  AUDIO_PROTOCOL_UNDEFINED := 0x00;
  AUDIO_INTERFACE_DESC_SIZE := 0x09;
  AUDIO_INPUT_TERMINAL_DESC_SIZE := 0x0C;
  AUDIO_STREAMING_INTERFACE_DESC_SIZE := 0x07;
  AUDIO_STANDARD_ENDPOINT_DESC_SIZE := 0x09;
  AUDIO_STREAMING_ENDPOINT_DESC_SIZE := 0x07;
  AUDIO_INTERFACE_DESCRIPTOR_TYPE := 0x24;
  AUDIO_ENDPOINT_DESCRIPTOR_TYPE := 0x25;
  AUDIO_CONTROL_HEADER := 0x01;
  AUDIO_CONTROL_INPUT_TERMINAL := 0x02;
  AUDIO_CONTROL_OUTPUT_TERMINAL := 0x03;
  AUDIO_CONTROL_FEATURE_UNIT := 0x06;
  AUDIO_CONTROL_MUTE := 0x0001;
  AUDIO_STREAMING_GENERAL := 0x01;
  AUDIO_STREAMING_FORMAT_TYPE := 0x02;
  AUDIO_FORMAT_TYPE_I := 0x01;
  AUDIO_ENDPOINT_GENERAL := 0x01;
  USBD_EP_TYPE_ISOC_ASYNC := 0x05
|}.

(** * Properties *)

(** ** Setters and projections *)

Lemma State_ext (s t : State) :
  pClassData s = pClassData t -> dev_state s = dev_state t -> dev_speed s = dev_speed t ->
  ep_out_bInterval s = ep_out_bInterval t -> ep_out_is_used s = ep_out_is_used t ->
  ep_in_is_used s = ep_in_is_used t -> tx_flag s = tx_flag t ->
  is_playing s = is_playing t -> all_ready s = all_ready t -> fnsof s = fnsof t ->
  fb_value s = fb_value t -> fb_raw s = fb_raw t -> fb_data s = fb_data t ->
  sof_count s = sof_count t -> tmpbuf s = tmpbuf t -> calls s = calls t -> s = t.
Proof. destruct s, t; cbn; intros; subst; reflexivity. Qed.

Lemma fb_value_emit k s : fb_value (emit k s) = fb_value s.
Proof. reflexivity. Qed.

Lemma calls_emit k s : calls (emit k s) = calls s ++ [k].
Proof. reflexivity. Qed.

Lemma new_calls_refl s : new_calls s s = [].
Proof. unfold new_calls. apply drop_all. Qed.

Lemma new_calls_app s s' l : calls s' = calls s ++ l -> new_calls s s' = l.
Proof. unfold new_calls. intros ->. apply drop_app_length. Qed.

(** ** Feedback controller *)

Lemma AUDIO_FB_DELTA_value : AUDIO_FB_DELTA = 4194304.
Proof. reflexivity. Qed.

(** The nominal value is one of the three of the rate table. *)
Lemma fb_nom_cases c :
  fb_nom c = 402653184 \/ fb_nom c = 201326592 \/ fb_nom c = 184968806.
Proof.
  unfold fb_nom, AUDIO_FB_DEFAULT.
  destruct (USBD_AUDIO_FREQ c =? 96000); [left; reflexivity|].
  destruct (USBD_AUDIO_FREQ c =? 48000); [right; left; reflexivity|].
  destruct (USBD_AUDIO_FREQ c =? 44100); [right; right; reflexivity|].
  right; left; reflexivity.
Qed.

Lemma fb_clamp_in_range c s : fb_in_range c (fb_value (fb_clamp c s)).
Proof.
  unfold fb_in_range, fb_clamp. rewrite AUDIO_FB_DELTA_value.
  destruct (fb_nom_cases c) as [E | [E | E]]; rewrite E;
    repeat match goal with
           | |- context [u32 ?x] =>
             let v := eval vm_compute in (u32 x) in change (u32 x) with v
           | |- context [i32 ?x] =>
             let v := eval vm_compute in (i32 x) in change (i32 x) with v
           end;
    repeat match goal with
           | |- context [if ?b then _ else _] => destruct b eqn:?
           end; cbn [fb_value set_fb_value set_fb_raw]; lia.
Qed.

Lemma fb_value_sof_feedback c w s :
  fb_value (sof_feedback c w s) =
  fb_value (fb_clamp c (set_fb_value (fb_unclamped c (audio_buf_writable_dev_from_nom_size c w)) s)).
Proof. reflexivity. Qed.

Lemma fb_value_sof_transmit c dsts s : fb_value (sof_transmit c dsts s) = fb_value s.
Proof.
  unfold sof_transmit.
  destruct (tx_flag s =? 0); [|reflexivity].
  destruct (_ =? _); reflexivity.
Qed.

Lemma fb_nom_in_range c : fb_in_range c (fb_nom c).
Proof. unfold fb_in_range. rewrite AUDIO_FB_DELTA_value. lia. Qed.

(** With no deviation the product shifted back is the nominal value, and
    the clamp leaves it alone. *)
Lemma fb_unclamped_0 c : fb_unclamped c 0 = fb_nom c.
Proof.
  unfold fb_unclamped, pid_k, pid_tmp.
  destruct (fb_nom_cases c) as [E | [E | E]]; rewrite E; reflexivity.
Qed.

Lemma fb_clamp_nominal c s : fb_value s = fb_nom c -> fb_clamp c s = s.
Proof.
  intros E. unfold fb_clamp. rewrite E, AUDIO_FB_DELTA_value.
  destruct (fb_nom_cases c) as [E' | [E' | E']]; rewrite E'; reflexivity.
Qed.

Lemma SOF_open c ndtr dsts s h :
  pClassData s = Some h -> 1 <= rd_enable h -> all_ready s = 1 ->
  USBD_AUDIO_SOF c ndtr dsts s = Some (USBD_OK, sof_transmit c dsts (sof_computed c ndtr h s)).
Proof.
  intros Hh Hrd Har. unfold USBD_AUDIO_SOF. rewrite Hh.
  replace (1 <=? rd_enable h) with true by (symmetry; apply Z.leb_le; exact Hrd).
  rewrite Har. reflexivity.
Qed.

Lemma SOF_closed c ndtr dsts s h :
  pClassData s = Some h -> (1 <=? rd_enable h) && (all_ready s =? 1) = false ->
  USBD_AUDIO_SOF c ndtr dsts s = Some (USBD_OK, s).
Proof. intros Hh Hg. unfold USBD_AUDIO_SOF. rewrite Hh, Hg. reflexivity. Qed.

(** C1. Every feedback computation of a SOF tick whose guard holds leaves
    [fb_value] within [AUDIO_FB_DELTA = 1 << 22] of [fb_nom], whatever the
    DMA counter, the write pointer and the rest of the state are. *)
Theorem C1_feedback_within_delta c ndtr dsts s h :
  pClassData s = Some h -> 1 <= rd_enable h -> all_ready s = 1 ->
  exists s',
    USBD_AUDIO_SOF c ndtr dsts s = Some (USBD_OK, s') /\
    AUDIO_FB_DELTA = Z.shiftl 1 22 /\
    fb_nom c - AUDIO_FB_DELTA <= fb_value s' <= fb_nom c + AUDIO_FB_DELTA.
Proof.
  intros Hh Hrd Har. eexists. split; [apply (SOF_open c ndtr dsts s h Hh Hrd Har)|].
  split; [reflexivity|].
  rewrite fb_value_sof_transmit. unfold sof_computed.
  cbv zeta. destruct (sof_count _ =? 1).
  - rewrite fb_value_sof_feedback. apply fb_clamp_in_range.
  - cbn [fb_value set_sof_count set_fb_data set_fb_value]. apply fb_nom_in_range.
Qed.

Lemma C1_feedback_within_delta_witness :
  exists s',
    USBD_AUDIO_SOF cfg48 7 0 (streaming_state cfg48 960) = Some (USBD_OK, s') /\
    AUDIO_FB_DELTA = Z.shiftl 1 22 /\
    fb_nom cfg48 - AUDIO_FB_DELTA <= fb_value s' <= fb_nom cfg48 + AUDIO_FB_DELTA.
Proof.
  apply (C1_feedback_within_delta cfg48 7 0 (streaming_state cfg48 960)
           (set_wr_ptr 960 (set_rd_enable 1 (set_offset AUDIO_OFFSET_NONE (fresh_handle 1920 0))))).
  - reflexivity.
  - vm_compute. discriminate.
  - reflexivity.
Defined.

(** C8. When the deviation computed on a SOF tick is 0, [fb_value] ends up
    equal to [fb_nom] and the packet holds its bytes 1..3; at 48 kHz these
    are 0x00, 0x00, 0x0C. *)
Theorem C8_zero_deviation_nominal c ndtr dsts s h :
  pClassData s = Some h -> 1 <= rd_enable h -> all_ready s = 1 ->
  audio_buf_writable_dev_from_nom_size c
    (audio_buf_writable_size c (rd_from_ndtr c ndtr) (wr_ptr h)) = 0 ->
  exists s',
    USBD_AUDIO_SOF c ndtr dsts s = Some (USBD_OK, s') /\
    fb_unclamped c 0 = fb_nom c /\
    fb_value s' = fb_nom c /\
    fb_data s' = fb_bytes (fb_nom c) /\
    (USBD_AUDIO_FREQ c = 48000 -> fb_data s' = [0x00; 0x00; 0x0C]).
Proof.
  intros Hh Hrd Har Hdev. eexists. split; [apply (SOF_open c ndtr dsts s h Hh Hrd Har)|].
  split; [apply fb_unclamped_0|].
  assert (V : fb_value (sof_computed c ndtr h s) = fb_nom c /\
              fb_data (sof_computed c ndtr h s) = fb_bytes (fb_nom c)).
  { unfold sof_computed. cbv zeta. destruct (sof_count _ =? 1).
    - unfold sof_feedback. cbn [rd_ptr wr_ptr set_rd_ptr]. rewrite Hdev. cbv zeta.
      rewrite fb_clamp_nominal by (cbn [fb_value set_fb_value]; apply fb_unclamped_0).
      cbn [fb_value fb_data set_fb_data set_fb_value]. rewrite fb_unclamped_0. auto.
    - cbn [fb_value fb_data set_sof_count set_fb_data set_fb_value]. auto. }
  destruct V as [V1 V2].
  assert (D : fb_data (sof_transmit c dsts (sof_computed c ndtr h s)) = fb_bytes (fb_nom c)).
  { rewrite <- V2. unfold sof_transmit.
    destruct (tx_flag _ =? 0); [|reflexivity]. destruct (_ =? _); reflexivity. }
  rewrite fb_value_sof_transmit. repeat split; auto.
  intros F. rewrite D. unfold fb_nom, AUDIO_FB_DEFAULT. rewrite F. reflexivity.
Qed.

Lemma C8_zero_deviation_nominal_witness :
  exists s',
    USBD_AUDIO_SOF cfg48 1280 0 (streaming_state cfg48 0) = Some (USBD_OK, s') /\
    fb_unclamped cfg48 0 = fb_nom cfg48 /\
    fb_value s' = fb_nom cfg48 /\
    fb_data s' = fb_bytes (fb_nom cfg48) /\
    (USBD_AUDIO_FREQ cfg48 = 48000 -> fb_data s' = [0x00; 0x00; 0x0C]).
Proof.
  apply (C8_zero_deviation_nominal cfg48 1280 0 (streaming_state cfg48 0)
           (set_wr_ptr 0 (set_rd_enable 1 (set_offset AUDIO_OFFSET_NONE (fresh_handle 1920 0))))).
  - reflexivity.
  - vm_compute. discriminate.
  - reflexivity.
  - vm_compute. reflexivity.
Defined.

(** ** SET_INTERFACE *)

Lemma is_set_interface_inv req :
  is_set_interface req = true ->
  Z.land (bmRequest req) USB_REQ_TYPE_MASK = USB_REQ_TYPE_STANDARD /\
  bRequest req = USB_REQ_SET_INTERFACE.
Proof.
  unfold is_set_interface. intros H. apply andb_true_iff in H as [H1 H2].
  split; apply Z.eqb_eq; assumption.
Qed.

(** With a handle, a standard SET_INTERFACE request goes to its case. *)
Lemma Setup_set_interface c req s h :
  pClassData s = Some h -> is_set_interface req = true ->
  USBD_AUDIO_Setup c req s = setup_set_interface c req h s.
Proof.
  intros Hh Hreq. apply is_set_interface_inv in Hreq as [Hty Hb].
  unfold USBD_AUDIO_Setup. rewrite Hh, Hty, Hb. reflexivity.
Qed.

Lemma set_interface_rejected c req s h :
  USBD_MAX_NUM_INTERFACES c < req_alt req \/ dev_state s <> USBD_STATE_CONFIGURED ->
  setup_set_interface c req h s = (USBD_FAIL, emit CtlError s).
Proof.
  intros H. unfold setup_set_interface, ctl_error, req_alt in *.
  destruct (dev_state s =? USBD_STATE_CONFIGURED) eqn:E; [|reflexivity].
  apply Z.eqb_eq in E.
  destruct (u8 (wValue req) <=? USBD_MAX_NUM_INTERFACES c) eqn:L; [|reflexivity].
  apply Z.leb_le in L. destruct H; [lia | contradiction].
Qed.

Lemma set_interface_status_ok c req s h :
  dev_state s = USBD_STATE_CONFIGURED -> req_alt req <= USBD_MAX_NUM_INTERFACES c ->
  fst (setup_set_interface c req h s) = USBD_OK.
Proof.
  intros E L. unfold setup_set_interface, req_alt in *. rewrite E.
  replace (u8 (wValue req) <=? USBD_MAX_NUM_INTERFACES c) with true
    by (symmetry; apply Z.leb_le; exact L).
  reflexivity.
Qed.

(** The operational branch, for any non-zero alternate setting in range. *)
Lemma set_interface_operational c req s h :
  dev_state s = USBD_STATE_CONFIGURED ->
  req_alt req <> 0 -> req_alt req <= USBD_MAX_NUM_INTERFACES c ->
  setup_set_interface c req h s = (USBD_OK, operational_state c (req_alt req) h s).
Proof.
  intros E N L. unfold setup_set_interface, req_alt in *. rewrite E.
  replace (u8 (wValue req) <=? USBD_MAX_NUM_INTERFACES c) with true
    by (symmetry; apply Z.leb_le; exact L).
  cbn [Z.eqb USBD_STATE_CONFIGURED Pos.eqb alt_setting set_alt_setting].
  apply Z.eqb_neq in N. rewrite N.
  apply f_equal. apply State_ext; try reflexivity.
  change (((((calls s ++ [LL_FlushEP (AUDIO_IN_EP c)]) ++ [LL_FlushEP (AUDIO_OUT_EP c)])
             ++ [Itf_Init (USBD_AUDIO_FREQ c) (AUDIO_DEFAULT_VOLUME c) 0])
            ++ [LL_FlushEP (AUDIO_IN_EP c)]) =
          calls s ++ [ LL_FlushEP (AUDIO_IN_EP c); LL_FlushEP (AUDIO_OUT_EP c);
                       Itf_Init (USBD_AUDIO_FREQ c) (AUDIO_DEFAULT_VOLUME c) 0;
                       LL_FlushEP (AUDIO_IN_EP c) ]).
  rewrite <- !app_assoc. reflexivity.
Qed.

(** The zero-bandwidth branch. *)
Lemma set_interface_zero_bandwidth c req s h :
  dev_state s = USBD_STATE_CONFIGURED ->
  req_alt req = 0 -> 0 <= USBD_MAX_NUM_INTERFACES c ->
  setup_set_interface c req h s =
  (USBD_OK,
   emit (LL_FlushEP (AUDIO_IN_EP c))
     (emit (Itf_DeInit 0)
        (reset_state c 0 (replicate (Z.to_nat (AUDIO_TOTAL_BUF_SIZE c)) 0) h s))).
Proof.
  intros E N L. unfold setup_set_interface, req_alt in *. rewrite E, N.
  replace (0 <=? USBD_MAX_NUM_INTERFACES c) with true
    by (symmetry; apply Z.leb_le; exact L).
  apply f_equal. apply State_ext; try reflexivity.
  change ((((calls s ++ [LL_FlushEP (AUDIO_IN_EP c)]) ++ [LL_FlushEP (AUDIO_OUT_EP c)])
             ++ [Itf_DeInit 0]) ++ [LL_FlushEP (AUDIO_IN_EP c)] =
          ((calls s ++ [LL_FlushEP (AUDIO_IN_EP c); LL_FlushEP (AUDIO_OUT_EP c)])
             ++ [Itf_DeInit 0]) ++ [LL_FlushEP (AUDIO_IN_EP c)]).
  rewrite <- !app_assoc. reflexivity.
Qed.

Lemma operational_state_split c alt h s :
  operational_state c alt h s =
  emit (LL_FlushEP (AUDIO_IN_EP c)) (arm_operational c (reset_state c alt (buffer h) h s)).
Proof.
  apply State_ext; try reflexivity.
  change (calls s ++ [ LL_FlushEP (AUDIO_IN_EP c); LL_FlushEP (AUDIO_OUT_EP c);
                       Itf_Init (USBD_AUDIO_FREQ c) (AUDIO_DEFAULT_VOLUME c) 0;
                       LL_FlushEP (AUDIO_IN_EP c) ] =
          ((calls s ++ [LL_FlushEP (AUDIO_IN_EP c); LL_FlushEP (AUDIO_OUT_EP c)])
             ++ [Itf_Init (USBD_AUDIO_FREQ c) (AUDIO_DEFAULT_VOLUME c) 0])
            ++ [LL_FlushEP (AUDIO_IN_EP c)]).
  rewrite <- !app_assoc. reflexivity.
Qed.

(** C3, as the code has it. A SET_INTERFACE request with alternate setting
    1, received in Configured state by a build with at least one interface,
    clears [all_ready] and [is_playing], sets [tx_flag] to 1, puts both
    pointers at 0, sets the offset state to UNKNOWN, disables reads and
    flushes the IN and the OUT endpoint, then calls the DAC's init, sets
    [tx_flag] to 0 and [all_ready] to 1.  The ring keeps its contents: only
    the alternate-setting-0 branch, which runs the same reset and then the
    DAC's deinit, zeroes it. *)
Theorem C3_alt1_reset_keeps_ring c req req0 s h :
  pClassData s = Some h -> dev_state s = USBD_STATE_CONFIGURED ->
  1 <= USBD_MAX_NUM_INTERFACES c ->
  is_set_interface req = true -> req_alt req = 1 ->
  is_set_interface req0 = true -> req_alt req0 = 0 ->
  USBD_AUDIO_Setup c req s =
    (USBD_OK,
     emit (LL_FlushEP (AUDIO_IN_EP c))
       (arm_operational c (reset_state c 1 (buffer h) h s))) /\
  USBD_AUDIO_Setup c req0 s =
    (USBD_OK,
     emit (LL_FlushEP (AUDIO_IN_EP c))
       (emit (Itf_DeInit 0)
          (reset_state c 0 (replicate (Z.to_nat (AUDIO_TOTAL_BUF_SIZE c)) 0) h s))) /\
  exists s' h',
    USBD_AUDIO_Setup c req s = (USBD_OK, s') /\ pClassData s' = Some h' /\
    buffer h' = buffer h /\ tx_flag s' = 0 /\ all_ready s' = 1 /\ is_playing s' = 0 /\
    wr_ptr h' = 0 /\ rd_ptr h' = 0 /\ rd_enable h' = 0 /\ offset h' = AUDIO_OFFSET_UNKNOWN /\
    new_calls s s' = [ LL_FlushEP (AUDIO_IN_EP c); LL_FlushEP (AUDIO_OUT_EP c);
                       Itf_Init (USBD_AUDIO_FREQ c) (AUDIO_DEFAULT_VOLUME c) 0;
                       LL_FlushEP (AUDIO_IN_EP c) ].
Proof.
  intros Hh E M Hreq Halt Hreq0 Halt0.
  assert (R : USBD_AUDIO_Setup c req s = (USBD_OK, operational_state c 1 h s)).
  { rewrite (Setup_set_interface c req s h Hh Hreq), <- Halt.
    apply set_interface_operational; [exact E | lia | lia]. }
  split; [rewrite R, operational_state_split; reflexivity|].
  split.
  { rewrite (Setup_set_interface c req0 s h Hh Hreq0).
    apply set_interface_zero_bandwidth; [exact E | exact Halt0 | lia]. }
  eexists. eexists. split; [exact R|].
  split; [reflexivity|].
  repeat (split; [reflexivity|]).
  apply new_calls_app. reflexivity.
Qed.

Lemma C3_alt1_reset_keeps_ring_witness :
  USBD_AUDIO_Setup cfg48 (SET_INTERFACE_req 1) (stale_ring_state cfg48) =
    (USBD_OK,
     emit (LL_FlushEP (AUDIO_IN_EP cfg48))
       (arm_operational cfg48
          (reset_state cfg48 1 (buffer (fresh_handle 1920 0xAA)) (fresh_handle 1920 0xAA)
             (stale_ring_state cfg48)))) /\
  USBD_AUDIO_Setup cfg48 (SET_INTERFACE_req 0) (stale_ring_state cfg48) =
    (USBD_OK,
     emit (LL_FlushEP (AUDIO_IN_EP cfg48))
       (emit (Itf_DeInit 0)
          (reset_state cfg48 0 (replicate (Z.to_nat (AUDIO_TOTAL_BUF_SIZE cfg48)) 0)
             (fresh_handle 1920 0xAA) (stale_ring_state cfg48)))) /\
  exists s' h',
    USBD_AUDIO_Setup cfg48 (SET_INTERFACE_req 1) (stale_ring_state cfg48) = (USBD_OK, s') /\
    pClassData s' = Some h' /\
    buffer h' = buffer (fresh_handle 1920 0xAA) /\ tx_flag s' = 0 /\ all_ready s' = 1 /\
    is_playing s' = 0 /\
    wr_ptr h' = 0 /\ rd_ptr h' = 0 /\ rd_enable h' = 0 /\ offset h' = AUDIO_OFFSET_UNKNOWN /\
    new_calls (stale_ring_state cfg48) s' =
      [ LL_FlushEP (AUDIO_IN_EP cfg48); LL_FlushEP (AUDIO_OUT_EP cfg48);
        Itf_Init (USBD_AUDIO_FREQ cfg48) (AUDIO_DEFAULT_VOLUME cfg48) 0;
        LL_FlushEP (AUDIO_IN_EP cfg48) ].
Proof.
  apply (C3_alt1_reset_keeps_ring cfg48 (SET_INTERFACE_req 1) (SET_INTERFACE_req 0)
           (stale_ring_state cfg48) (fresh_handle 1920 0xAA)).
  - reflexivity.
  - reflexivity.
  - vm_compute; discriminate.
  - reflexivity.
  - reflexivity.
  - reflexivity.
  - reflexivity.
Defined.

(** C3 as worded fails: on a ring full of 0xAA, SET_INTERFACE with
    alternate setting 1 in Configured state leaves every byte 0xAA, so the
    ring is not zeroed. *)
Lemma C3_counterexample :
  is_set_interface (SET_INTERFACE_req 1) = true /\
  req_alt (SET_INTERFACE_req 1) = 1 /\
  dev_state (stale_ring_state cfg48) = USBD_STATE_CONFIGURED /\
  exists s' h',
    USBD_AUDIO_Setup cfg48 (SET_INTERFACE_req 1) (stale_ring_state cfg48) = (USBD_OK, s') /\
    pClassData s' = Some h' /\
    buffer h' = replicate 1920 0xAA /\
    buffer h' <> replicate (Z.to_nat (AUDIO_TOTAL_BUF_SIZE cfg48)) 0.
Proof.
  split; [reflexivity|]. split; [reflexivity|]. split; [reflexivity|].
  eexists. eexists. split; [vm_compute; reflexivity|].
  split; [reflexivity|]. split; [reflexivity|].
  cbn [buffer]. intros H. apply (f_equal (fun l => l !! 0%nat)) in H.
  vm_compute in H. discriminate H.
Qed.

(** C9, as the code has it. With the audio handle allocated, a
    SET_INTERFACE request is answered by [USBD_CtlError] and [USBD_FAIL]
    exactly when its alternate setting exceeds [USBD_MAX_NUM_INTERFACES] or
    the device is not Configured; the rejected request changes nothing but
    the call log, so no reset runs and neither DAC callback is called.
    Without a handle the request returns [USBD_FAIL] at once: no call, no
    [USBD_CtlError], no change. *)
Theorem C9_set_interface_rejection c req s :
  is_set_interface req = true ->
  (pClassData s = None -> USBD_AUDIO_Setup c req s = (USBD_FAIL, s)) /\
  (forall h, pClassData s = Some h ->
   (USBD_AUDIO_Setup c req s = (USBD_FAIL, emit CtlError s) <->
    (USBD_MAX_NUM_INTERFACES c < req_alt req \/ dev_state s <> USBD_STATE_CONFIGURED)) /\
   (fst (USBD_AUDIO_Setup c req s) = USBD_FAIL <->
    (USBD_MAX_NUM_INTERFACES c < req_alt req \/ dev_state s <> USBD_STATE_CONFIGURED)) /\
   (existsb is_ctl_error (new_calls s (snd (USBD_AUDIO_Setup c req s))) = true <->
    (USBD_MAX_NUM_INTERFACES c < req_alt req \/ dev_state s <> USBD_STATE_CONFIGURED)) /\
   (fst (USBD_AUDIO_Setup c req s) = USBD_FAIL ->
    new_calls s (snd (USBD_AUDIO_Setup c req s)) = [CtlError] /\
    existsb is_dac_init_deinit (new_calls s (snd (USBD_AUDIO_Setup c req s))) = false /\
    pClassData (snd (USBD_AUDIO_Setup c req s)) = Some h /\
    tx_flag (snd (USBD_AUDIO_Setup c req s)) = tx_flag s /\
    all_ready (snd (USBD_AUDIO_Setup c req s)) = all_ready s /\
    is_playing (snd (USBD_AUDIO_Setup c req s)) = is_playing s)).
Proof.
  intros Hreq. split.
  { intros Hn. unfold USBD_AUDIO_Setup. rewrite Hn. reflexivity. }
  intros h Hh. rewrite (Setup_set_interface c req s h Hh Hreq).
  destruct (Z_lt_le_dec (USBD_MAX_NUM_INTERFACES c) (req_alt req)) as [G | L].
  - rewrite (set_interface_rejected c req s h (or_introl G)).
    cbn [fst snd]. rewrite (new_calls_app s (emit CtlError s) [CtlError] eq_refl).
    repeat split; auto.
  - destruct (Z.eq_dec (dev_state s) USBD_STATE_CONFIGURED) as [E | N].
    + assert (NR : ~ (USBD_MAX_NUM_INTERFACES c < req_alt req \/
                      dev_state s <> USBD_STATE_CONFIGURED)) by (intros [?|?]; [lia|auto]).
      pose proof (set_interface_status_ok c req s h E L) as OK.
      assert (NC : existsb is_ctl_error (new_calls s (snd (setup_set_interface c req h s)))
                   = false).
      { destruct (Z.eq_dec (req_alt req) 0) as [Z0 | NZ].
        - rewrite (set_interface_zero_bandwidth c req s h E Z0) by lia.
          cbn [snd].
          rewrite (new_calls_app s _ [ LL_FlushEP (AUDIO_IN_EP c); LL_FlushEP (AUDIO_OUT_EP c);
                                       Itf_DeInit 0; LL_FlushEP (AUDIO_IN_EP c) ]);
            [reflexivity|].
          change (((calls s ++ [LL_FlushEP (AUDIO_IN_EP c); LL_FlushEP (AUDIO_OUT_EP c)])
                     ++ [Itf_DeInit 0]) ++ [LL_FlushEP (AUDIO_IN_EP c)] =
                  calls s ++ [ LL_FlushEP (AUDIO_IN_EP c); LL_FlushEP (AUDIO_OUT_EP c);
                               Itf_DeInit 0; LL_FlushEP (AUDIO_IN_EP c) ]).
          rewrite <- !app_assoc. reflexivity.
        - rewrite (set_interface_operational c req s h E NZ L).
          cbn [snd]. erewrite new_calls_app; [|reflexivity]. reflexivity. }
      split; [split; [intros H; rewrite H in OK; discriminate OK | tauto]|].
      split; [split; [intros H; rewrite H in OK; discriminate OK | tauto]|].
      split; [split; [intros H; rewrite H in NC; discriminate NC | tauto]|].
      intros H; rewrite H in OK; discriminate OK.
    + rewrite (set_interface_rejected c req s h (or_intror N)).
      cbn [fst snd]. rewrite (new_calls_app s (emit CtlError s) [CtlError] eq_refl).
      repeat split; auto.
Qed.

Lemma C9_set_interface_rejection_witness :
  (USBD_AUDIO_Setup cfg48 (SET_INTERFACE_req 2) (stale_ring_state cfg48)
   = (USBD_FAIL, emit CtlError (stale_ring_state cfg48))) /\
  fst (USBD_AUDIO_Setup cfg48 (SET_INTERFACE_req 1) (stale_ring_state cfg48)) <> USBD_FAIL.
Proof.
  pose proof (C9_set_interface_rejection cfg48 (SET_INTERFACE_req 2) (stale_ring_state cfg48)
                eq_refl) as [_ R2].
  pose proof (C9_set_interface_rejection cfg48 (SET_INTERFACE_req 1) (stale_ring_state cfg48)
                eq_refl) as [_ R1].
  destruct (R2 (fresh_handle 1920 0xAA) eq_refl) as [[_ H2] _].
  destruct (R1 (fresh_handle 1920 0xAA) eq_refl) as [_ [[H1 _] _]].
  split.
  - apply H2. left. vm_compute. reflexivity.
  - intros F. apply H1 in F. destruct F as [F | F].
    + vm_compute in F. discriminate F.
    + apply F. reflexivity.
Defined.

(** C9 as worded fails: before the first Init the device is Addressed,
    not Configured, and has no handle; a SET_INTERFACE request then
    returns [USBD_FAIL] without any call to [USBD_CtlError]. *)
Lemma C9_counterexample :
  is_set_interface (SET_INTERFACE_req 0) = true /\
  dev_state (boot_state cfg48 2 1) <> USBD_STATE_CONFIGURED /\
  USBD_AUDIO_Setup cfg48 (SET_INTERFACE_req 0) (boot_state cfg48 2 1)
    = (USBD_FAIL, boot_state cfg48 2 1) /\
  existsb is_ctl_error
    (new_calls (boot_state cfg48 2 1)
       (snd (USBD_AUDIO_Setup cfg48 (SET_INTERFACE_req 0) (boot_state cfg48 2 1)))) = false.
Proof.
  split; [reflexivity|]. split; [discriminate|]. split; reflexivity.
Qed.

(** C10. In Configured state a SET_INTERFACE request whose alternate
    setting A satisfies 2 <= A <= [USBD_MAX_NUM_INTERFACES] is accepted:
    [alt_setting] becomes A and the operational sequence runs, with the DAC
    re-initialised, [tx_flag] = 0 and [all_ready] = 1, and no
    [USBD_CtlError]. *)
Theorem C10_alt_above_1_accepted c req s h :
  pClassData s = Some h -> dev_state s = USBD_STATE_CONFIGURED ->
  is_set_interface req = true ->
  2 <= req_alt req <= USBD_MAX_NUM_INTERFACES c ->
  USBD_AUDIO_Setup c req s = (USBD_OK, operational_state c (req_alt req) h s) /\
  operational_state c (req_alt req) h s =
    emit (LL_FlushEP (AUDIO_IN_EP c))
      (arm_operational c (reset_state c (req_alt req) (buffer h) h s)) /\
  (alt_setting <$> pClassData (operational_state c (req_alt req) h s)) = Some (req_alt req) /\
  tx_flag (operational_state c (req_alt req) h s) = 0 /\
  all_ready (operational_state c (req_alt req) h s) = 1 /\
  new_calls s (operational_state c (req_alt req) h s) =
    [ LL_FlushEP (AUDIO_IN_EP c); LL_FlushEP (AUDIO_OUT_EP c);
      Itf_Init (USBD_AUDIO_FREQ c) (AUDIO_DEFAULT_VOLUME c) 0;
      LL_FlushEP (AUDIO_IN_EP c) ].
Proof.
  intros Hh E Hreq [L U].
  split.
  { rewrite (Setup_set_interface c req s h Hh Hreq).
    apply set_interface_operational; [exact E | lia | exact U]. }
  split; [apply operational_state_split|].
  repeat (split; [reflexivity|]).
  apply new_calls_app. reflexivity.
Qed.

Lemma C10_alt_above_1_accepted_witness :
  USBD_AUDIO_Setup cfg48_2itf (SET_INTERFACE_req 2) (stale_ring_state cfg48_2itf)
  = (USBD_OK, operational_state cfg48_2itf 2 (fresh_handle 1920 0xAA)
                (stale_ring_state cfg48_2itf)).
Proof.
  apply (C10_alt_above_1_accepted cfg48_2itf (SET_INTERFACE_req 2)
           (stale_ring_state cfg48_2itf) (fresh_handle 1920 0xAA)).
  - reflexivity.
  - reflexivity.
  - reflexivity.
  - vm_compute. split; discriminate.
Defined.

(** ** Ingestion *)

Lemma set_handle_same s h : pClassData s = Some h -> set_handle h s = s.
Proof. destruct s; cbn. intros ->. reflexivity. Qed.

Lemma store_byte_wr v h : wr_ptr (store_byte v h) = u16 (wr_ptr h + 1).
Proof. reflexivity. Qed.

(** One iteration of the copy loop moves an aligned offset to the next
    frame, or back to 0 at the end of the ring. *)
Lemma ingest_loop_wr_ok c n : forall tmp p h,
  ring_ok c -> wr_ok c h -> wr_ok c (ingest_loop c n tmp p h).
Proof.
  induction n as [|n IH]; intros tmp p h R W; [exact W|].
  cbn [ingest_loop]. apply IH; [exact R|].
  destruct R as [[R0 R1] R4]. destruct W as [W4 [W0 W1]].
  assert (E : wr_ptr (store_byte (tmpbuf_at tmp (p + 3))
                (store_byte (tmpbuf_at tmp (p + 2))
                   (store_byte (tmpbuf_at tmp (p + 1))
                      (store_byte (tmpbuf_at tmp p) h)))) = wr_ptr h + 4).
  { rewrite !store_byte_wr. unfold u16. change (2 ^ 16) with 65536 in *.
    assert (wr_ptr h + 4 <= AUDIO_TOTAL_BUF_SIZE c) by (Z.div_mod_to_equations; lia).
    rewrite (Z.mod_small (wr_ptr h + 1) 65536) by lia.
    rewrite (Z.mod_small (wr_ptr h + 1 + 1) 65536) by lia.
    rewrite (Z.mod_small (wr_ptr h + 1 + 1 + 1) 65536) by lia.
    rewrite Z.mod_small by lia. lia. }
  destruct (AUDIO_TOTAL_BUF_SIZE c <=? wr_ptr _) eqn:L.
  - unfold wr_ok. cbn [wr_ptr set_wr_ptr]. split; [reflexivity | lia].
  - apply Z.leb_gt in L. rewrite E in L. unfold wr_ok. rewrite E.
    split; [|lia].
    rewrite <- Zplus_mod_idemp_l, W4. reflexivity.
Qed.

Lemma ingest_loop_0 c tmp p h : ingest_loop c 0 tmp p h = h.
Proof. reflexivity. Qed.

(** What the latch leaves behind. *)
Lemma playback_latch_calls c h s :
  calls (playback_latch c h s) =
  calls s ++ (if latch_starts c h s
              then [Itf_AudioCmd 0 (AUDIO_TOTAL_BUF_SIZE c / 2) AUDIO_CMD_START] else []).
Proof.
  unfold playback_latch, latch_starts, latch_fires.
  destruct (offset_is_unknown (offset h) && (is_playing s =? 0));
    [|cbn; rewrite app_nil_r; reflexivity].
  destruct (AUDIO_TOTAL_BUF_SIZE c / 2 <=? wr_ptr h);
    [|cbn; rewrite app_nil_r; reflexivity].
  cbn [andb rd_enable set_offset].
  destruct (rd_enable h =? 0); cbn; [reflexivity | rewrite app_nil_r; reflexivity].
Qed.

Lemma playback_latch_handle c h s :
  pClassData s = Some h ->
  exists h', pClassData (playback_latch c h s) = Some h' /\
             wr_ptr h' = wr_ptr h /\ buffer h' = buffer h /\
             (latch_fires c h s = false -> h' = h) /\
             (latch_fires c h s = true -> offset h' = AUDIO_OFFSET_NONE).
Proof.
  intros Hh. unfold playback_latch, latch_fires.
  destruct (offset_is_unknown (offset h) && (is_playing s =? 0));
    [|exists h; cbn; auto 6; repeat split; auto; discriminate].
  destruct (AUDIO_TOTAL_BUF_SIZE c / 2 <=? wr_ptr h);
    [|exists h; repeat split; auto; discriminate].
  cbn [andb rd_enable set_offset].
  destruct (rd_enable h =? 0); eexists; (split; [reflexivity|]);
    repeat split; auto; discriminate.
Qed.

Lemma playback_latch_is_playing c h s :
  is_playing (playback_latch c h s) = if latch_fires c h s then 1 else is_playing s.
Proof.
  unfold playback_latch, latch_fires.
  destruct (offset_is_unknown (offset h) && (is_playing s =? 0)); [|reflexivity].
  destruct (AUDIO_TOTAL_BUF_SIZE c / 2 <=? wr_ptr h); [|reflexivity].
  cbn [andb rd_enable set_offset]. destruct (rd_enable h =? 0); reflexivity.
Qed.

Lemma playback_latch_idle c h s :
  latch_fires c h s = false -> playback_latch c h s = s.
Proof.
  unfold playback_latch, latch_fires.
  destruct (offset_is_unknown (offset h) && (is_playing s =? 0)); [|reflexivity].
  destruct (AUDIO_TOTAL_BUF_SIZE c / 2 <=? wr_ptr h); [discriminate | reflexivity].
Qed.

(** The handler on its active path. *)
Lemma DataOut_active c epnum rx_size s h :
  pClassData s = Some h -> epnum = AUDIO_OUT_EP c -> all_ready s = 1 ->
  USBD_AUDIO_DataOut c epnum rx_size s =
  (USBD_OK,
   emit (LL_PrepareReceive (AUDIO_OUT_EP c) RxTmpbuf (AUDIO_OUT_PACKET c))
     (playback_latch c
        (ingest_loop c (Z.to_nat (packet_size c rx_size / 4)) (tmpbuf s) 0 h)
        (set_handle
           (ingest_loop c (Z.to_nat (packet_size c rx_size / 4)) (tmpbuf s) 0 h) s))).
Proof.
  intros Hh -> Har. unfold USBD_AUDIO_DataOut. rewrite Hh, Har, Z.eqb_refl. reflexivity.
Qed.

Lemma DataOut_inactive c epnum rx_size s h :
  pClassData s = Some h -> (epnum =? AUDIO_OUT_EP c) && (all_ready s =? 1) = false ->
  USBD_AUDIO_DataOut c epnum rx_size s = (USBD_OK, s).
Proof. intros Hh G. unfold USBD_AUDIO_DataOut. rewrite Hh, G. reflexivity. Qed.

Lemma packet_size_oversize c rx_size :
  0 <= rx_size < 2 ^ 16 -> AUDIO_OUT_PACKET c < rx_size -> packet_size c rx_size = 0.
Proof.
  intros B G. unfold packet_size, u16. rewrite Z.mod_small by exact B.
  replace (rx_size >? AUDIO_OUT_PACKET c) with true; [reflexivity|].
  symmetry. apply Z.gtb_lt. exact G.
Qed.

(** C6. A DataOut on the audio OUT endpoint with [all_ready] = 1 whose
    reported size (a 16-bit count) exceeds [AUDIO_OUT_PACKET] is dropped:
    the size becomes 0, the ring and [wr_ptr] stay as they are, no
    [USBD_CtlError] is raised and the last call re-arms the OUT endpoint.
    The handler does what it does for an empty packet. *)
Theorem C6_oversize_packet_dropped c epnum rx_size s h :
  pClassData s = Some h -> epnum = AUDIO_OUT_EP c -> all_ready s = 1 ->
  0 <= rx_size < 2 ^ 16 -> AUDIO_OUT_PACKET c < rx_size ->
  packet_size c rx_size = 0 /\
  exists s' h',
    USBD_AUDIO_DataOut c epnum rx_size s = (USBD_OK, s') /\
    s' = emit (LL_PrepareReceive (AUDIO_OUT_EP c) RxTmpbuf (AUDIO_OUT_PACKET c))
              (playback_latch c h s) /\
    pClassData s' = Some h' /\
    buffer h' = buffer h /\ wr_ptr h' = wr_ptr h /\
    existsb is_ctl_error (new_calls s s') = false /\
    new_calls s s' =
      (if latch_starts c h s
       then [Itf_AudioCmd 0 (AUDIO_TOTAL_BUF_SIZE c / 2) AUDIO_CMD_START] else [])
      ++ [LL_PrepareReceive (AUDIO_OUT_EP c) RxTmpbuf (AUDIO_OUT_PACKET c)] /\
    (latch_fires c h s = false ->
     s' = emit (LL_PrepareReceive (AUDIO_OUT_EP c) RxTmpbuf (AUDIO_OUT_PACKET c)) s).
Proof.
  intros Hh Hep Har B G.
  pose proof (packet_size_oversize c rx_size B G) as P0.
  split; [exact P0|].
  destruct (playback_latch_handle c h s Hh) as (h' & L1 & L2 & L3 & L4 & _).
  eexists. exists h'.
  split.
  { rewrite (DataOut_active c epnum rx_size s h Hh Hep Har), P0.
    change (Z.to_nat (0 / 4)) with 0%nat. rewrite ingest_loop_0, (set_handle_same s h Hh).
    reflexivity. }
  split; [reflexivity|].
  split; [exact L1|]. split; [exact L3|]. split; [exact L2|].
  assert (N : new_calls s
                (emit (LL_PrepareReceive (AUDIO_OUT_EP c) RxTmpbuf (AUDIO_OUT_PACKET c))
                   (playback_latch c h s)) =
              (if latch_starts c h s
               then [Itf_AudioCmd 0 (AUDIO_TOTAL_BUF_SIZE c / 2) AUDIO_CMD_START] else [])
              ++ [LL_PrepareReceive (AUDIO_OUT_EP c) RxTmpbuf (AUDIO_OUT_PACKET c)]).
  { apply new_calls_app. rewrite calls_emit, playback_latch_calls, <- app_assoc. reflexivity. }
  split; [rewrite N; destruct (latch_starts c h s); reflexivity|].
  split; [exact N|].
  intros F. rewrite (playback_latch_idle c h s F). reflexivity.
Qed.

Lemma C6_oversize_packet_dropped_witness :
  packet_size cfg48 196 = 0 /\
  exists s' h',
    USBD_AUDIO_DataOut cfg48 0x01 196
      (arm_operational cfg48 (stale_ring_state cfg48)) = (USBD_OK, s') /\
    s' = emit (LL_PrepareReceive (AUDIO_OUT_EP cfg48) RxTmpbuf (AUDIO_OUT_PACKET cfg48))
              (playback_latch cfg48 (fresh_handle 1920 0xAA)
                 (arm_operational cfg48 (stale_ring_state cfg48))) /\
    pClassData s' = Some h' /\
    buffer h' = buffer (fresh_handle 1920 0xAA) /\
    wr_ptr h' = wr_ptr (fresh_handle 1920 0xAA) /\
    existsb is_ctl_error (new_calls (arm_operational cfg48 (stale_ring_state cfg48)) s')
      = false /\
    new_calls (arm_operational cfg48 (stale_ring_state cfg48)) s' =
      (if latch_starts cfg48 (fresh_handle 1920 0xAA)
            (arm_operational cfg48 (stale_ring_state cfg48))
       then [Itf_AudioCmd 0 (AUDIO_TOTAL_BUF_SIZE cfg48 / 2) AUDIO_CMD_START] else [])
      ++ [LL_PrepareReceive (AUDIO_OUT_EP cfg48) RxTmpbuf (AUDIO_OUT_PACKET cfg48)] /\
    (latch_fires cfg48 (fresh_handle 1920 0xAA)
       (arm_operational cfg48 (stale_ring_state cfg48)) = false ->
     s' = emit (LL_PrepareReceive (AUDIO_OUT_EP cfg48) RxTmpbuf (AUDIO_OUT_PACKET cfg48))
               (arm_operational cfg48 (stale_ring_state cfg48))).
Proof.
  apply (C6_oversize_packet_dropped cfg48 0x01 196
           (arm_operational cfg48 (stale_ring_state cfg48)) (fresh_handle 1920 0xAA)).
  - reflexivity.
  - reflexivity.
  - reflexivity.
  - vm_compute. split; [discriminate | reflexivity].
  - reflexivity.
Defined.

(** DataOut keeps the write offset aligned and in range. *)
Lemma DataOut_wr_ok c epnum rx_size s h :
  ring_ok c -> pClassData s = Some h -> wr_ok c h ->
  exists h', pClassData (snd (USBD_AUDIO_DataOut c epnum rx_size s)) = Some h' /\ wr_ok c h'.
Proof.
  intros R Hh W.
  destruct ((epnum =? AUDIO_OUT_EP c) && (all_ready s =? 1)) eqn:G.
  - apply andb_true_iff in G as [G1 G2]. apply Z.eqb_eq in G1, G2.
    rewrite (DataOut_active c epnum rx_size s h Hh G1 G2). cbn [snd pClassData emit].
    set (h1 := ingest_loop c _ _ _ h).
    assert (W1 : wr_ok c h1) by (apply ingest_loop_wr_ok; assumption).
    destruct (playback_latch_handle c h1 (set_handle h1 s) eq_refl) as (h' & L1 & L2 & _).
    exists h'. split; [exact L1|]. unfold wr_ok in *. rewrite L2. exact W1.
  - rewrite (DataOut_inactive c epnum rx_size s h Hh G). exists h. auto.
Qed.

(** C7. From a write offset of 0, after every event of a sequence of
    DataOut events the handle is still there and [wr_ptr] is a multiple of
    4 in [0, AUDIO_TOTAL_BUF_SIZE), for a ring size that is a positive
    multiple of 4 below 2^16.  This holds for every reported size, in
    particular for multiples of 4 up to [AUDIO_OUT_PACKET]; every event of
    the sequence is processed. *)
Theorem C7_wr_aligned_in_range c : forall evs s0 h0,
  ring_ok c -> pClassData s0 = Some h0 -> wr_ptr h0 = 0 ->
  forallb is_dataout evs = true ->
  length (transitions c s0 evs) = length evs /\
  Forall (fun t => exists h', pClassData (snd t) = Some h' /\
                              wr_ptr h' mod 4 = 0 /\
                              0 <= wr_ptr h' < AUDIO_TOTAL_BUF_SIZE c)
         (transitions c s0 evs).
Proof.
  intros evs s0 h0 R Hh W0.
  assert (W : wr_ok c h0).
  { unfold wr_ok. rewrite W0. destruct R as [[? ?] ?]. split; [reflexivity | lia]. }
  clear W0. revert s0 h0 Hh W.
  induction evs as [|e evs IH]; intros s0 h0 Hh W F; [split; [reflexivity | constructor]|].
  cbn [forallb] in F. apply andb_true_iff in F as [Fe F].
  destruct e; try discriminate Fe.
  cbn [transitions dispatch].
  destruct (DataOut_wr_ok c epnum rx_size (set_tmpbuf pkt s0) h0 R Hh W) as (h' & P & W').
  destruct (IH _ h' P W' F) as [IL IF].
  split; [cbn [length]; rewrite IL; reflexivity|].
  constructor; [|exact IF].
  exists h'. split; [exact P | exact W'].
Qed.

Lemma C7_wr_aligned_in_range_witness :
  length (transitions cfg48 (arm_operational cfg48 (stale_ring_state cfg48))
            [EvDataOut 0x01 192 demo_packet; EvDataOut 0x01 188 demo_packet]) = 2%nat /\
  Forall (fun t => exists h', pClassData (snd t) = Some h' /\
                              wr_ptr h' mod 4 = 0 /\
                              0 <= wr_ptr h' < AUDIO_TOTAL_BUF_SIZE cfg48)
         (transitions cfg48 (arm_operational cfg48 (stale_ring_state cfg48))
            [EvDataOut 0x01 192 demo_packet; EvDataOut 0x01 188 demo_packet]).
Proof.
  apply (C7_wr_aligned_in_range cfg48
           [EvDataOut 0x01 192 demo_packet; EvDataOut 0x01 188 demo_packet]
           (arm_operational cfg48 (stale_ring_state cfg48)) (fresh_handle 1920 0xAA)).
  - unfold ring_ok. vm_compute. repeat split; discriminate.
  - reflexivity.
  - reflexivity.
  - reflexivity.
Defined.

(** ** Frames of the handlers *)

Lemma calls_set_pClassData v s : calls (set_pClassData v s) = calls s.
Proof. reflexivity. Qed.
Lemma calls_set_handle h s : calls (set_handle h s) = calls s.
Proof. reflexivity. Qed.
Lemma calls_set_ep_out v w s : calls (set_ep_out v w s) = calls s.
Proof. reflexivity. Qed.
Lemma calls_set_ep_in_is_used v s : calls (set_ep_in_is_used v s) = calls s.
Proof. reflexivity. Qed.
Lemma calls_set_tx_flag v s : calls (set_tx_flag v s) = calls s.
Proof. reflexivity. Qed.
Lemma calls_set_is_playing v s : calls (set_is_playing v s) = calls s.
Proof. reflexivity. Qed.
Lemma calls_set_all_ready v s : calls (set_all_ready v s) = calls s.
Proof. reflexivity. Qed.
Lemma calls_set_fnsof v s : calls (set_fnsof v s) = calls s.
Proof. reflexivity. Qed.
Lemma calls_set_fb_value v s : calls (set_fb_value v s) = calls s.
Proof. reflexivity. Qed.
Lemma calls_set_fb_raw v s : calls (set_fb_raw v s) = calls s.
Proof. reflexivity. Qed.
Lemma calls_set_fb_data v s : calls (set_fb_data v s) = calls s.
Proof. reflexivity. Qed.
Lemma calls_set_sof_count v s : calls (set_sof_count v s) = calls s.
Proof. reflexivity. Qed.
Lemma calls_set_tmpbuf v s : calls (set_tmpbuf v s) = calls s.
Proof. reflexivity. Qed.
Lemma calls_set_dev_state v s : calls (set_dev_state v s) = calls s.
Proof. reflexivity. Qed.

Create Rewrite HintDb calls_db.
#[local] Hint Rewrite calls_emit calls_set_pClassData calls_set_handle calls_set_ep_out
  calls_set_ep_in_is_used calls_set_tx_flag calls_set_is_playing calls_set_all_ready
  calls_set_fnsof calls_set_fb_value calls_set_fb_raw calls_set_fb_data calls_set_sof_count
  calls_set_tmpbuf calls_set_dev_state : calls_db.

(** Case analysis on every test a handler makes. *)
Ltac split_ifs :=
  repeat match goal with
         | |- context [if ?b then _ else _] => destruct b
         | |- context [match pClassData ?s with Some _ => _ | None => _ end] =>
           destruct (pClassData s) eqn:?
         end.

(** Put the call log of a handler's result in the form [calls s ++ l]. *)
Ltac calls_ext :=
  autorewrite with calls_db; rewrite <- ?app_assoc;
  first [ reflexivity | symmetry; apply app_nil_r ].

Lemma frame_refl s : frame s s.
Proof. repeat split. Qed.

Lemma fb_clamp_frame c s : frame s (fb_clamp c s) /\ pClassData (fb_clamp c s) = pClassData s.
Proof. unfold fb_clamp. split_ifs; repeat split. Qed.

Lemma sof_computed_frame c ndtr h s :
  frame s (sof_computed c ndtr h s) /\
  pClassData (sof_computed c ndtr h s) = Some (set_rd_ptr (rd_from_ndtr c ndtr) h).
Proof.
  unfold sof_computed. cbv zeta. destruct (sof_count _ =? 1).
  - unfold sof_feedback. cbv zeta.
    match goal with
    | |- context [fb_clamp c ?x] => destruct (fb_clamp_frame c x) as [(F1 & F2 & F3 & F4 & F5) F6]
    end.
    unfold frame. cbn [tx_flag is_playing all_ready fnsof calls pClassData set_fb_data].
    rewrite F1, F2, F3, F4, F5, F6. repeat split.
  - repeat split.
Qed.

(** [USBD_AUDIO_SOF] in one equation: the state after the feedback block,
    plus the submission when its conditions hold. *)
Lemma SOF_result c ndtr dsts s h :
  pClassData s = Some h ->
  exists s1 h1,
    frame s s1 /\ pClassData s1 = Some h1 /\ same_stream h h1 /\
    USBD_AUDIO_SOF c ndtr dsts s =
    Some (USBD_OK,
          if sof_submits dsts h s
          then set_tx_flag 1 (emit (LL_Transmit (AUDIO_IN_EP c) (fb_data s1) 3) s1)
          else s1).
Proof.
  intros Hh. unfold sof_submits.
  destruct ((1 <=? rd_enable h) && (all_ready s =? 1)) eqn:G.
  - apply andb_true_iff in G as [G1 G2]. apply Z.leb_le in G1. apply Z.eqb_eq in G2.
    destruct (sof_computed_frame c ndtr h s) as [F P].
    exists (sof_computed c ndtr h s), (set_rd_ptr (rd_from_ndtr c ndtr) h).
    split; [exact F|]. split; [exact P|]. split; [repeat split|].
    rewrite (SOF_open c ndtr dsts s h Hh G1 G2). unfold sof_transmit.
    destruct F as (F1 & _ & _ & F4 & _). rewrite F1, F4. cbn [andb].
    destruct (tx_flag s =? 0); [|reflexivity].
    cbn [andb]. destruct (_ =? _); reflexivity.
  - exists s, h. split; [apply frame_refl|]. split; [exact Hh|]. split; [repeat split|].
    rewrite (SOF_closed c ndtr dsts s h Hh G). reflexivity.
Qed.

Lemma playback_latch_frame c h s :
  tx_flag (playback_latch c h s) = tx_flag s /\
  all_ready (playback_latch c h s) = all_ready s /\
  fnsof (playback_latch c h s) = fnsof s.
Proof. unfold playback_latch. split_ifs; repeat split. Qed.

Lemma ingest_loop_stream c n : forall tmp p h,
  offset (ingest_loop c n tmp p h) = offset h /\
  rd_enable (ingest_loop c n tmp p h) = rd_enable h.
Proof.
  induction n as [|n IH]; intros tmp p h; [split; reflexivity|].
  cbn [ingest_loop].
  match goal with |- context [ingest_loop c n ?t ?q ?x] => destruct (IH t q x) as [I1 I2] end.
  rewrite I1, I2. destruct (AUDIO_TOTAL_BUF_SIZE c <=? _); split; reflexivity.
Qed.

(** The captured frame number changes in IsoInIncomplete and nowhere else. *)
Lemma dispatch_fnsof c e s s' :
  dispatch c e s = Some s' ->
  fnsof s' = match e with
             | EvIsoINIncomplete _ dsts => fnsof_of_dsts dsts
             | _ => fnsof s
             end.
Proof.
  destruct e; cbn [dispatch]; intros H.
  - injection H as <-. reflexivity.
  - injection H as <-. unfold USBD_AUDIO_Init. destruct mem; split_ifs; reflexivity.
  - injection H as <-. unfold USBD_AUDIO_DeInit. cbv zeta. split_ifs; reflexivity.
  - injection H as <-.
    unfold USBD_AUDIO_Setup, setup_set_interface, ctl_error, AUDIO_REQ_GetCurrent,
      AUDIO_REQ_SetCurrent.
    split_ifs; reflexivity.
  - injection H as <-. reflexivity.
  - injection H as <-. unfold USBD_AUDIO_EP0_RxReady, deliver_control.
    split_ifs; reflexivity.
  - injection H as <-. unfold USBD_AUDIO_DataIn. split_ifs; reflexivity.
  - injection H as <-. unfold USBD_AUDIO_DataOut.
    destruct (pClassData (set_tmpbuf pkt s)); [|reflexivity].
    destruct (_ && _); [|reflexivity].
    cbn [snd fnsof emit].
    match goal with
    | |- context [playback_latch c ?x ?y] =>
      destruct (playback_latch_frame c x y) as (_ & _ & F)
    end.
    rewrite F. reflexivity.
  - destruct (pClassData s) as [h|] eqn:Hh.
    + destruct (SOF_result c ndtr dsts s h Hh) as (s1 & h1 & F & _ & _ & R).
      rewrite R in H. cbn [fmap option_fmap option_map snd] in H. injection H as <-.
      destruct F as (_ & _ & _ & F4 & _).
      destruct (sof_submits dsts h s); [cbn [fnsof set_tx_flag emit]|]; exact F4.
    + unfold USBD_AUDIO_SOF in H. rewrite Hh in H. discriminate H.
  - injection H as <-. unfold USBD_AUDIO_IsoINIncomplete. cbv zeta.
    split_ifs; reflexivity.
  - unfold USBD_AUDIO_IsoOutIncomplete in H.
    destruct (pClassData s); [|discriminate H].
    cbn [fmap option_fmap option_map snd] in H. injection H as <-. reflexivity.
Qed.

Lemma run_fnsof c : forall evs s0 s,
  run c evs s0 = Some s -> fnsof s = last_captured_fnsof evs (fnsof s0).
Proof.
  induction evs as [|e evs IH]; intros s0 s H.
  - cbn in H. injection H as <-. reflexivity.
  - cbn [run] in H. destruct (dispatch c e s0) as [s1|] eqn:D; [|discriminate H].
    rewrite (IH _ _ H), (dispatch_fnsof c e s0 s1 D).
    destruct e; reflexivity.
Qed.

(** ** Feedback gating *)

(** C4. On a SOF tick a feedback transfer is submitted only when
    [tx_flag] is 0 and the low bit of the frame number just read equals
    the low bit of the one captured by the most recent IsoInIncomplete;
    the submission is the only call of the tick and leaves [tx_flag] at 1.
    Without a submission the tick makes no call and leaves [tx_flag]
    alone. *)
Theorem C4_feedback_submit_guard c evs s0 s h ndtr dsts :
  run c evs s0 = Some s -> pClassData s = Some h ->
  exists s',
    USBD_AUDIO_SOF c ndtr dsts s = Some (USBD_OK, s') /\
    (existsb is_transmit (new_calls s s') = true <-> sof_submits dsts h s = true) /\
    (existsb is_transmit (new_calls s s') = true ->
     tx_flag s = 0 /\
     Z.land (fnsof_of_dsts dsts) 0x1 = Z.land (last_captured_fnsof evs (fnsof s0)) 0x1 /\
     new_calls s s' = [LL_Transmit (AUDIO_IN_EP c) (fb_data s') 3] /\
     tx_flag s' = 1) /\
    (existsb is_transmit (new_calls s s') = false ->
     new_calls s s' = [] /\ tx_flag s' = tx_flag s).
Proof.
  intros Hrun Hh.
  destruct (SOF_result c ndtr dsts s h Hh) as (s1 & h1 & F & _ & _ & R).
  destruct F as (F1 & _ & _ & _ & F5).
  eexists. split; [exact R|].
  destruct (sof_submits dsts h s) eqn:Sub.
  - assert (N : new_calls s (set_tx_flag 1 (emit (LL_Transmit (AUDIO_IN_EP c) (fb_data s1) 3) s1))
                = [LL_Transmit (AUDIO_IN_EP c) (fb_data s1) 3]).
    { apply new_calls_app. rewrite calls_set_tx_flag, calls_emit, F5. reflexivity. }
    rewrite N. cbn [existsb is_transmit orb].
    split; [tauto|]. split; [|discriminate].
    intros _. unfold sof_submits in Sub.
    apply andb_true_iff in Sub as [Sub P]. apply andb_true_iff in Sub as [_ T].
    apply Z.eqb_eq in P, T.
    rewrite <- (run_fnsof c evs s0 s Hrun).
    repeat split; auto.
  - assert (N : new_calls s s1 = []).
    { apply new_calls_app. rewrite F5, app_nil_r. reflexivity. }
    rewrite N. cbn [existsb].
    split; [split; discriminate|]. split; [discriminate|].
    intros _. split; [reflexivity | exact F1].
Qed.

Lemma C4_feedback_submit_guard_witness :
  exists s',
    USBD_AUDIO_SOF cfg48 1280 0x300 (set_fnsof 1 (streaming_state cfg48 0))
      = Some (USBD_OK, s') /\
    tx_flag s' = 1 /\
    new_calls (set_fnsof 1 (streaming_state cfg48 0)) s'
      = [LL_Transmit 0x81 [0x00; 0x00; 0x0C] 3].
Proof.
  destruct (C4_feedback_submit_guard cfg48
              [EvIsoINIncomplete 1 0x100; EvDataIn 1]
              (streaming_state cfg48 0) (set_fnsof 1 (streaming_state cfg48 0))
              (set_wr_ptr 0 (set_rd_enable 1 (set_offset AUDIO_OFFSET_NONE
                                                (fresh_handle 1920 0))))
              1280 0x300) as (s' & R & [_ Sub] & Yes & _).
  - vm_compute. reflexivity.
  - reflexivity.
  - exists s'. split; [exact R|].
    destruct (Yes (Sub eq_refl)) as (_ & _ & N & T).
    split; [exact T|].
    rewrite N. f_equal. f_equal.
    vm_compute in R. injection R as <-. reflexivity.
Defined.

(** ** Transitions of [tx_flag] *)

Lemma DataOut_tx_flag c epnum rx_size s :
  tx_flag (snd (USBD_AUDIO_DataOut c epnum rx_size s)) = tx_flag s.
Proof.
  unfold USBD_AUDIO_DataOut.
  destruct (pClassData s); [|reflexivity].
  destruct (_ && _); [|reflexivity].
  cbn [snd tx_flag emit].
  match goal with
  | |- context [playback_latch c ?x ?y] => destruct (playback_latch_frame c x y) as (F & _ & _)
  end.
  rewrite F. reflexivity.
Qed.

(** Every callback leaves [tx_flag] at 0 or 1 once it is there. *)
Lemma dispatch_tx_flag_01 c e s s' :
  tx_flag s = 0 \/ tx_flag s = 1 -> dispatch c e s = Some s' ->
  tx_flag s' = 0 \/ tx_flag s' = 1.
Proof.
  intros B.
  assert (K : forall t : State, tx_flag t = tx_flag s \/ tx_flag t = 0 \/ tx_flag t = 1 ->
                                tx_flag t = 0 \/ tx_flag t = 1).
  { intros t [E | E]; [rewrite E; exact B | exact E]. }
  destruct e; cbn [dispatch]; intros H.
  - injection H as <-. exact B.
  - injection H as <-. apply K. unfold USBD_AUDIO_Init.
    destruct mem; split_ifs;
      first [left; reflexivity | right; left; reflexivity | right; right; reflexivity].
  - injection H as <-. apply K. unfold USBD_AUDIO_DeInit. cbv zeta.
    split_ifs;
      first [left; reflexivity | right; left; reflexivity | right; right; reflexivity].
  - injection H as <-. apply K.
    unfold USBD_AUDIO_Setup, setup_set_interface, ctl_error, AUDIO_REQ_GetCurrent,
      AUDIO_REQ_SetCurrent.
    split_ifs;
      first [left; reflexivity | right; left; reflexivity | right; right; reflexivity].
  - injection H as <-. exact B.
  - injection H as <-. apply K. unfold USBD_AUDIO_EP0_RxReady, deliver_control.
    split_ifs;
      first [left; reflexivity | right; left; reflexivity | right; right; reflexivity].
  - injection H as <-. apply K. unfold USBD_AUDIO_DataIn.
    split_ifs;
      first [left; reflexivity | right; left; reflexivity | right; right; reflexivity].
  - injection H as <-. rewrite DataOut_tx_flag. exact B.
  - destruct (pClassData s) as [h|] eqn:Hh.
    + destruct (SOF_result c ndtr dsts s h Hh) as (s1 & h1 & F & _ & _ & R).
      rewrite R in H. cbn [fmap option_fmap option_map snd] in H. injection H as <-.
      destruct F as (F1 & _).
      destruct (sof_submits dsts h s); [right; reflexivity | rewrite F1; exact B].
    + unfold USBD_AUDIO_SOF in H. rewrite Hh in H. discriminate H.
  - injection H as <-. apply K. unfold USBD_AUDIO_IsoINIncomplete. cbv zeta.
    split_ifs;
      first [left; reflexivity | right; left; reflexivity | right; right; reflexivity].
  - unfold USBD_AUDIO_IsoOutIncomplete in H.
    destruct (pClassData s); [|discriminate H].
    cbn [fmap option_fmap option_map snd] in H. injection H as <-. exact B.
Qed.

(** C2, as the code has it. Among the isochronous handlers [tx_flag]
    goes from 1 to 0 in DataIn on the feedback IN endpoint and in
    IsoInIncomplete, and from 0 to 1 in SOF, there together with the
    submission of the feedback packet; DataOut and IsoOutIncomplete never
    change it, and no handler makes any other transition. *)
Theorem C2_tx_flag_transitions c e s s' :
  iso_event e = true -> tx_flag s = 0 \/ tx_flag s = 1 ->
  dispatch c e s = Some s' ->
  (tx_flag s' = 0 \/ tx_flag s' = 1) /\
  (tx_flag s' <> tx_flag s ->
   tx_transition_clearing c e (tx_flag s) (tx_flag s') /\
   match e with
   | EvSOF _ _ => new_calls s s' = [LL_Transmit (AUDIO_IN_EP c) (fb_data s') 3]
   | EvIsoINIncomplete _ _ => new_calls s s' = [LL_FlushEP (AUDIO_IN_EP c)]
   | _ => new_calls s s' = []
   end).
Proof.
  intros I B D. split; [exact (dispatch_tx_flag_01 c e s s' B D)|].
  destruct e; try discriminate I; cbn [dispatch] in D; cbn [tx_transition_clearing].
  - injection D as <-. unfold USBD_AUDIO_DataIn.
    destruct (epnum =? Z.land (AUDIO_IN_EP c) 15) eqn:E; cbn [snd tx_flag set_tx_flag].
    + apply Z.eqb_eq in E. intros N.
      split; [repeat split; [exact E | lia]|]. apply new_calls_app.
      rewrite calls_set_tx_flag, app_nil_r. reflexivity.
    + intros N. contradiction N. reflexivity.
  - injection D as <-. rewrite DataOut_tx_flag. intros N. contradiction N. reflexivity.
  - destruct (pClassData s) as [h|] eqn:Hh.
    + destruct (SOF_result c ndtr dsts s h Hh) as (s1 & h1 & F & _ & _ & R).
      rewrite R in D. cbn [fmap option_fmap option_map snd] in D. injection D as <-.
      destruct F as (F1 & _ & _ & _ & F5).
      destruct (sof_submits dsts h s) eqn:Sub.
      * intros N. cbn [tx_flag set_tx_flag fb_data emit] in *.
        split; [split; [lia | reflexivity]|].
        apply new_calls_app. rewrite calls_set_tx_flag, calls_emit, F5. reflexivity.
      * intros N. contradiction N.
    + unfold USBD_AUDIO_SOF in D. rewrite Hh in D. discriminate D.
  - injection D as <-. unfold USBD_AUDIO_IsoINIncomplete. cbv zeta.
    cbn [tx_flag set_fnsof].
    destruct (tx_flag s =? 1) eqn:E; cbn [snd tx_flag emit set_tx_flag set_fnsof].
    + apply Z.eqb_eq in E. intros N.
      split; [split; [exact E | reflexivity]|].
      apply new_calls_app. reflexivity.
    + intros N. contradiction N. reflexivity.
  - unfold USBD_AUDIO_IsoOutIncomplete in D.
    destruct (pClassData s); [|discriminate D].
    cbn [fmap option_fmap option_map snd] in D. injection D as <-. intros N. contradiction N. reflexivity.
Qed.

Lemma C2_tx_flag_transitions_witness :
  exists s',
    dispatch cfg48 (EvIsoINIncomplete 1 0x100) (boot_state cfg48 USBD_STATE_CONFIGURED 1)
      = Some s' /\
    tx_flag (boot_state cfg48 USBD_STATE_CONFIGURED 1) = 1 /\ tx_flag s' = 0 /\
    new_calls (boot_state cfg48 USBD_STATE_CONFIGURED 1) s' = [LL_FlushEP 0x81].
Proof.
  eexists. split; [reflexivity|].
  destruct (C2_tx_flag_transitions cfg48 (EvIsoINIncomplete 1 0x100)
              (boot_state cfg48 USBD_STATE_CONFIGURED 1) _ eq_refl
              (or_intror eq_refl) eq_refl) as [_ T].
  destruct T as [[T0 T1] T2]; [vm_compute; discriminate|].
  split; [exact T0|]. split; [exact T1 | exact T2].
Defined.

(** C2 as worded fails: from the boot state, where [tx_flag] is 1,
    IsoInIncomplete takes [tx_flag] to 0; the table that puts
    IsoInIncomplete on the 0-to-1 side does not allow that transition. *)
Lemma C2_counterexample :
  exists s',
    iso_event (EvIsoINIncomplete 1 0x100) = true /\
    dispatch cfg48 (EvIsoINIncomplete 1 0x100) (boot_state cfg48 USBD_STATE_CONFIGURED 1)
      = Some s' /\
    tx_flag (boot_state cfg48 USBD_STATE_CONFIGURED 1) = 1 /\
    tx_flag s' = 0 /\
    ~ tx_transition_setting cfg48 (EvIsoINIncomplete 1 0x100)
        (tx_flag (boot_state cfg48 USBD_STATE_CONFIGURED 1)) (tx_flag s').
Proof.
  eexists. split; [reflexivity|]. split; [reflexivity|].
  split; [reflexivity|]. split; [reflexivity|].
  intros [H _]. discriminate H.
Qed.

(** ** Sessions and the start of playback *)

Lemma pClassData_emit k s : pClassData (emit k s) = pClassData s.
Proof. reflexivity. Qed.
Lemma pClassData_set_ep_out v w s : pClassData (set_ep_out v w s) = pClassData s.
Proof. reflexivity. Qed.
Lemma pClassData_set_ep_in_is_used v s : pClassData (set_ep_in_is_used v s) = pClassData s.
Proof. reflexivity. Qed.
Lemma pClassData_set_tx_flag v s : pClassData (set_tx_flag v s) = pClassData s.
Proof. reflexivity. Qed.
Lemma pClassData_set_is_playing v s : pClassData (set_is_playing v s) = pClassData s.
Proof. reflexivity. Qed.
Lemma pClassData_set_all_ready v s : pClassData (set_all_ready v s) = pClassData s.
Proof. reflexivity. Qed.
Lemma pClassData_set_fnsof v s : pClassData (set_fnsof v s) = pClassData s.
Proof. reflexivity. Qed.
Lemma pClassData_set_fb_value v s : pClassData (set_fb_value v s) = pClassData s.
Proof. reflexivity. Qed.
Lemma pClassData_set_fb_raw v s : pClassData (set_fb_raw v s) = pClassData s.
Proof. reflexivity. Qed.
Lemma pClassData_set_fb_data v s : pClassData (set_fb_data v s) = pClassData s.
Proof. reflexivity. Qed.
Lemma pClassData_set_sof_count v s : pClassData (set_sof_count v s) = pClassData s.
Proof. reflexivity. Qed.
Lemma pClassData_set_tmpbuf v s : pClassData (set_tmpbuf v s) = pClassData s.
Proof. reflexivity. Qed.
Lemma pClassData_set_dev_state v s : pClassData (set_dev_state v s) = pClassData s.
Proof. reflexivity. Qed.
Lemma pClassData_set_pClassData v s : pClassData (set_pClassData v s) = v.
Proof. reflexivity. Qed.
Lemma pClassData_set_handle h s : pClassData (set_handle h s) = Some h.
Proof. reflexivity. Qed.

Create Rewrite HintDb pcd_db.
#[local] Hint Rewrite pClassData_emit pClassData_set_ep_out pClassData_set_ep_in_is_used pClassData_set_tx_flag pClassData_set_is_playing pClassData_set_all_ready pClassData_set_fnsof pClassData_set_fb_value pClassData_set_fb_raw pClassData_set_fb_data pClassData_set_sof_count pClassData_set_tmpbuf pClassData_set_dev_state pClassData_set_pClassData pClassData_set_handle : pcd_db.

(** Case analysis that remembers the outcome of every test. *)
Ltac split_ifs_eqn :=
  repeat match goal with
         | |- context [if ?b then _ else _] => destruct b eqn:?
         | |- context [match pClassData ?s with Some _ => _ | None => _ end] =>
           destruct (pClassData s) eqn:?
         end.

Ltac quiet_leaf :=
  unfold quiet, stream_key;
  split; [reflexivity|];
  split; [autorewrite with pcd_db;
          repeat match goal with H : pClassData _ = _ |- _ => rewrite H end;
          reflexivity|];
  eexists; split; [calls_ext | reflexivity].

Lemma quiet_idle s s' : quiet s s' -> unknown_means_idle s -> unknown_means_idle s'.
Proof.
  intros (_ & K & _). unfold unknown_means_idle, stream_key in *.
  destruct (pClassData s') as [h'|]; [|trivial].
  destruct (pClassData s) as [h|]; [|discriminate K].
  injection K as K1 K2. rewrite K1, K2. trivial.
Qed.

Lemma quiet_no_start s e s' : quiet s s' -> no_start (s, e, s').
Proof.
  intros (_ & _ & l & C & N). unfold no_start. cbn [fst snd].
  rewrite (new_calls_app s s' l C). exact N.
Qed.

(** A Setup request that does not reach a reset branch is quiet. *)
Lemma Setup_quiet c req s :
  set_interface_accepted c req s = false -> quiet s (snd (USBD_AUDIO_Setup c req s)).
Proof.
  intros A. destruct (pClassData s) as [h|] eqn:Hh.
  - destruct (is_set_interface req) eqn:I.
    + rewrite (Setup_set_interface c req s h Hh I).
      unfold set_interface_accepted in A. rewrite Hh, I in A. cbn [andb] in A.
      rewrite set_interface_rejected; [cbn [snd]; quiet_leaf|].
      apply andb_false_iff in A as [A | A].
      * right. apply Z.eqb_neq. exact A.
      * left. apply Z.leb_gt. exact A.
    + unfold USBD_AUDIO_Setup. rewrite Hh. unfold is_set_interface in I.
      unfold ctl_error, AUDIO_REQ_GetCurrent, AUDIO_REQ_SetCurrent.
      destruct (Z.land (bmRequest req) USB_REQ_TYPE_MASK =? USB_REQ_TYPE_CLASS);
        [split_ifs_eqn; cbn [snd]; quiet_leaf|].
      destruct (Z.land (bmRequest req) USB_REQ_TYPE_MASK =? USB_REQ_TYPE_STANDARD);
        [|cbn [snd]; quiet_leaf].
      cbn [andb] in I. rewrite I.
      split_ifs_eqn; cbn [snd]; quiet_leaf.
  - unfold USBD_AUDIO_Setup. rewrite Hh. cbn [snd]. quiet_leaf.
Qed.

(** Every callback other than DataOut that is not a reset is quiet. *)
Lemma dispatch_quiet c e s s' :
  resets c s e = false -> is_dataout e = false -> dispatch c e s = Some s' -> quiet s s'.
Proof.
  intros NR ND. destruct e; try discriminate NR; try discriminate ND;
    cbn [dispatch resets] in *; intros H.
  - injection H as <-. quiet_leaf.
  - injection H as <-. apply Setup_quiet. exact NR.
  - injection H as <-. cbn [USBD_AUDIO_EP0_TxReady snd]. quiet_leaf.
  - injection H as <-. unfold USBD_AUDIO_EP0_RxReady, deliver_control.
    destruct (pClassData s) as [h|] eqn:Hh.
    + rewrite pClassData_set_handle. cbn [control set_control ctl_cmd ctl_unit ctl_data].
      split_ifs_eqn; cbn [snd]; quiet_leaf.
    + rewrite Hh. cbn [snd]. quiet_leaf.
  - injection H as <-. unfold USBD_AUDIO_DataIn. split_ifs_eqn; cbn [snd]; quiet_leaf.
  - destruct (pClassData s) as [h|] eqn:Hh.
    + destruct (SOF_result c ndtr dsts s h Hh) as (s1 & h1 & F & P & (K1 & K2 & _) & R).
      rewrite R in H. cbn [fmap option_fmap option_map snd] in H. injection H as <-.
      destruct F as (_ & F2 & _ & _ & F5).
      unfold quiet, stream_key.
      destruct (sof_submits dsts h s).
      * split; [exact F2|].
        split; [autorewrite with pcd_db; rewrite P, Hh, K1, K2; reflexivity|].
        eexists. split; [rewrite calls_set_tx_flag, calls_emit, F5; reflexivity | reflexivity].
      * split; [exact F2|].
        split; [rewrite P, Hh, K1, K2; reflexivity|].
        exists []. split; [rewrite F5, app_nil_r; reflexivity | reflexivity].
    + unfold USBD_AUDIO_SOF in H. rewrite Hh in H. discriminate H.
  - injection H as <-. unfold USBD_AUDIO_IsoINIncomplete. cbv zeta.
    split_ifs_eqn; cbn [snd]; quiet_leaf.
  - unfold USBD_AUDIO_IsoOutIncomplete in H.
    destruct (pClassData s) as [h|] eqn:Hh; [|discriminate H].
    cbn [fmap option_fmap option_map snd] in H. injection H as <-. quiet_leaf.
Qed.

(** DataOut either starts playback, taking [is_playing] from 0 to 1, or
    leaves [is_playing] and the DAC alone. *)
Lemma DataOut_step c epnum rx_size pkt s s' :
  unknown_means_idle s ->
  dispatch c (EvDataOut epnum rx_size pkt) s = Some s' ->
  unknown_means_idle s' /\
  ((is_playing s = 0 /\ is_playing s' = 1 /\
    starts_playback c (s, EvDataOut epnum rx_size pkt, s')) \/
   (is_playing s' = is_playing s /\ no_start (s, EvDataOut epnum rx_size pkt, s'))).
Proof.
  intros J H. cbn [dispatch] in H. injection H as <-.
  assert (Q : forall t, quiet s t ->
                unknown_means_idle t /\
                ((is_playing s = 0 /\ is_playing t = 1 /\
                  starts_playback c (s, EvDataOut epnum rx_size pkt, t)) \/
                 (is_playing t = is_playing s /\ no_start (s, EvDataOut epnum rx_size pkt, t)))).
  { intros t Qt. split; [exact (quiet_idle s t Qt J)|]. right.
    split; [apply Qt | exact (quiet_no_start s _ t Qt)]. }
  destruct (pClassData s) as [h|] eqn:Hh.
  - destruct ((epnum =? AUDIO_OUT_EP c) && (all_ready s =? 1)) eqn:G.
    + apply andb_true_iff in G as [G1 G2]. apply Z.eqb_eq in G1, G2.
      rewrite (DataOut_active c epnum rx_size (set_tmpbuf pkt s) h Hh G1 G2). cbn [snd].
      set (h1 := ingest_loop c _ _ _ h).
      destruct (ingest_loop_stream c (Z.to_nat (packet_size c rx_size / 4))
                  (tmpbuf (set_tmpbuf pkt s)) 0 h) as [O1 O2].
      fold h1 in O1, O2.
      set (s1 := set_handle h1 (set_tmpbuf pkt s)).
      destruct (latch_fires c h1 s1) eqn:LF.
      * destruct (playback_latch_handle c h1 s1 eq_refl) as (h' & P & W & _ & _ & N).
        specialize (N LF).
        pose proof (playback_latch_is_playing c h1 s1) as IP. rewrite LF in IP.
        pose proof (playback_latch_calls c h1 s1) as PC.
        unfold latch_fires in LF.
        apply andb_true_iff in LF as [LF L3]. apply andb_true_iff in LF as [L1 L2].
        apply Z.eqb_eq in L2. apply Z.leb_le in L3.
        assert (RD : rd_enable h1 = 0).
        { unfold unknown_means_idle in J. rewrite Hh in J. rewrite O2. apply J.
          rewrite <- O1. exact L1. }
        unfold latch_starts, latch_fires in PC.
        rewrite L1, RD in PC. subst s1.
        cbn [is_playing set_handle set_pClassData set_tmpbuf] in L2, PC.
        rewrite L2 in PC.
        replace (AUDIO_TOTAL_BUF_SIZE c / 2 <=? wr_ptr h1) with true in PC
          by (symmetry; apply Z.leb_le; exact L3).
        cbn [andb Z.eqb] in PC.
        split.
        { unfold unknown_means_idle. rewrite pClassData_emit, P, N. discriminate. }
        left. split; [exact L2|]. split; [exact IP|].
        unfold starts_playback. cbn [fst snd].
        exists epnum, rx_size, pkt, h'.
        split; [reflexivity|]. split; [rewrite pClassData_emit; exact P|].
        split; [rewrite W; exact L3|].
        apply new_calls_app. rewrite calls_emit, PC, <- app_assoc. reflexivity.
      * rewrite (playback_latch_idle c h1 s1 LF). apply Q. subst s1.
        unfold quiet, stream_key.
        split; [reflexivity|].
        split; [autorewrite with pcd_db; rewrite Hh, O1, O2; reflexivity|].
        eexists; split; [calls_ext | reflexivity].
    + rewrite (DataOut_inactive c epnum rx_size (set_tmpbuf pkt s) h Hh G). cbn [snd].
      apply Q. quiet_leaf.
  - unfold USBD_AUDIO_DataOut. rewrite pClassData_set_tmpbuf, Hh. cbn [snd].
    apply Q. quiet_leaf.
Qed.

Lemma session_step c e s s' :
  unknown_means_idle s -> resets c s e = false -> dispatch c e s = Some s' ->
  unknown_means_idle s' /\
  ((is_playing s = 0 /\ is_playing s' = 1 /\ starts_playback c (s, e, s')) \/
   (is_playing s' = is_playing s /\ no_start (s, e, s'))).
Proof.
  intros J NR D. destruct (is_dataout e) eqn:DO.
  - destruct e; try discriminate DO. exact (DataOut_step c _ _ _ s s' J D).
  - pose proof (dispatch_quiet c e s s' NR DO D) as Q.
    split; [exact (quiet_idle s s' Q J)|]. right.
    split; [apply Q | exact (quiet_no_start s e s' Q)].
Qed.

Lemma rising_same s e s' : is_playing s' = is_playing s -> rising (s, e, s') = false.
Proof.
  intros E. unfold rising. cbn [fst snd]. rewrite E.
  destruct (is_playing s =? 0) eqn:Z0; [|reflexivity].
  apply Z.eqb_eq in Z0. rewrite Z0. reflexivity.
Qed.

(** Within a session playback starts at most once, and not at all when
    [is_playing] is already set. *)
Lemma session_rising c : forall evs s,
  unknown_means_idle s -> is_session c s evs = true ->
  (count_rising (transitions c s evs) <= if (is_playing s =? 0)%Z then 1 else 0)%nat /\
  Forall (fun t => if rising t then starts_playback c t else no_start t)
         (transitions c s evs).
Proof.
  induction evs as [|e evs IH]; intros s J S.
  - cbn. split; [lia | constructor].
  - cbn [is_session] in S. apply andb_true_iff in S as [NR S].
    apply negb_true_iff in NR. cbn [transitions].
    destruct (dispatch c e s) as [s'|] eqn:D;
      [|cbn; split; [lia | constructor]].
    destruct (session_step c e s s' J NR D) as [J' [(P0 & P1 & SP) | (PE & NS)]].
    + destruct (IH s' J' S) as [IC IF]. rewrite P1 in IC. cbn [Z.eqb] in IC.
      assert (R : rising (s, e, s') = true).
      { unfold rising. cbn [fst snd]. rewrite P0, P1. reflexivity. }
      unfold count_rising in *. cbn [List.filter]. rewrite R, P0. cbn [length Z.eqb].
      split; [lia|]. constructor; [rewrite R; exact SP | exact IF].
    + destruct (IH s' J' S) as [IC IF]. rewrite PE in IC.
      pose proof (rising_same s e s' PE) as R.
      unfold count_rising in *. cbn [List.filter]. rewrite R.
      split; [exact IC|]. constructor; [rewrite R; exact NS | exact IF].
Qed.

(** A session opens with reads disabled and the offset state UNKNOWN. *)
Lemma opens_session_idle c e s s0 :
  opens_session c s e = true -> dispatch c e s = Some s0 -> unknown_means_idle s0.
Proof.
  intros O D. destruct e; try discriminate O; cbn [dispatch opens_session] in *.
  - destruct mem as [h|]; [|discriminate O]. injection D as <-.
    unfold USBD_AUDIO_Init, unknown_means_idle.
    destruct (negb (itf_ret =? 0)); cbn [snd]; autorewrite with pcd_db; reflexivity.
  - injection D as <-. apply andb_true_iff in O as [A NZ].
    apply negb_true_iff, Z.eqb_neq in NZ.
    unfold set_interface_accepted in A.
    destruct (pClassData s) as [h|] eqn:Hh; [|discriminate A].
    apply andb_true_iff in A as [A L]. apply andb_true_iff in A as [I E].
    apply Z.eqb_eq in E. apply Z.leb_le in L.
    rewrite (Setup_set_interface c req s h Hh I),
      (set_interface_operational c req s h E NZ L).
    unfold unknown_means_idle. cbn [snd pClassData operational_state rd_enable].
    intros _. reflexivity.
Qed.

(** With a handle in place no callback faults, and outside resets the
    handle stays in place. *)
Lemma dispatch_total c e s h :
  pClassData s = Some h -> exists s', dispatch c e s = Some s'.
Proof.
  intros Hh. destruct e; cbn [dispatch]; try (eexists; reflexivity).
  - destruct (SOF_result c ndtr dsts s h Hh) as (s1 & h1 & _ & _ & _ & R).
    rewrite R. eexists. reflexivity.
  - unfold USBD_AUDIO_IsoOutIncomplete. rewrite Hh. eexists. reflexivity.
Qed.

Lemma session_step_handle c e s s' h :
  pClassData s = Some h -> resets c s e = false -> dispatch c e s = Some s' ->
  exists h', pClassData s' = Some h'.
Proof.
  intros Hh NR D. destruct (is_dataout e) eqn:DO.
  - destruct e; try discriminate DO. cbn [dispatch] in D. injection D as <-.
    destruct ((epnum =? AUDIO_OUT_EP c) && (all_ready s =? 1)) eqn:G.
    + apply andb_true_iff in G as [G1 G2]. apply Z.eqb_eq in G1, G2.
      rewrite (DataOut_active c epnum rx_size (set_tmpbuf pkt s) h Hh G1 G2).
      cbn [snd]. rewrite pClassData_emit.
      match goal with
      | |- context [playback_latch c ?x ?y] =>
        destruct (playback_latch_handle c x y eq_refl) as (h' & P & _)
      end.
      exists h'. exact P.
    + rewrite (DataOut_inactive c epnum rx_size (set_tmpbuf pkt s) h Hh G).
      exists h. exact Hh.
  - destruct (dispatch_quiet c e s s' NR DO D) as (_ & K & _).
    unfold stream_key in K. rewrite Hh in K.
    destruct (pClassData s') as [h'|]; [exists h'; reflexivity | discriminate K].
Qed.

Lemma session_total c : forall evs s h,
  pClassData s = Some h -> is_session c s evs = true ->
  length (transitions c s evs) = length evs.
Proof.
  induction evs as [|e evs IH]; intros s h Hh S; [reflexivity|].
  cbn [is_session] in S. apply andb_true_iff in S as [NR S].
  apply negb_true_iff in NR. cbn [transitions].
  destruct (dispatch_total c e s h Hh) as [s' D]. rewrite D in *.
  destruct (session_step_handle c e s s' h Hh NR D) as [h' Hh'].
  cbn [length]. rewrite (IH s' h' Hh' S). reflexivity.
Qed.

Lemma opens_session_handle c e s s0 :
  opens_session c s e = true -> dispatch c e s = Some s0 ->
  exists h0, pClassData s0 = Some h0.
Proof.
  intros O D. destruct e; try discriminate O; cbn [dispatch opens_session] in *.
  - destruct mem as [h|]; [|discriminate O]. injection D as <-.
    unfold USBD_AUDIO_Init.
    destruct (negb (itf_ret =? 0)); cbn [snd]; autorewrite with pcd_db;
      eexists; reflexivity.
  - injection D as <-. apply andb_true_iff in O as [A NZ].
    apply negb_true_iff, Z.eqb_neq in NZ.
    unfold set_interface_accepted in A.
    destruct (pClassData s) as [h|] eqn:Hh; [|discriminate A].
    apply andb_true_iff in A as [A L]. apply andb_true_iff in A as [I E].
    apply Z.eqb_eq in E. apply Z.leb_le in L.
    rewrite (Setup_set_interface c req s h Hh I),
      (set_interface_operational c req s h E NZ L).
    eexists. reflexivity.
Qed.

(** C5. In a session, that is after an Init that obtained a handle or an
    accepted SET_INTERFACE with a non-zero alternate setting and before
    the next Init, DeInit or accepted SET_INTERFACE, every callback runs to
    its end and at most one step takes [is_playing] from 0 to 1.  Such a
    step is a DataOut that leaves [wr_ptr] at or past half the ring and
    calls the DAC's start command exactly once, on the start of the ring
    with size [AUDIO_TOTAL_BUF_SIZE / 2]; no other step of the session
    calls the DAC's command entry. *)
Theorem C5_playback_starts_once c e s s0 evs :
  opens_session c s e = true -> dispatch c e s = Some s0 ->
  is_session c s0 evs = true ->
  length (transitions c s0 evs) = length evs /\
  (count_rising (transitions c s0 evs) <= 1)%nat /\
  Forall (fun t => if rising t then starts_playback c t else no_start t)
         (transitions c s0 evs).
Proof.
  intros O D S.
  destruct (opens_session_handle c e s s0 O D) as [h0 Hh0].
  split; [exact (session_total c evs s0 h0 Hh0 S)|].
  destruct (session_rising c evs s0 (opens_session_idle c e s s0 O D) S) as [C F].
  split; [|exact F].
  destruct (is_playing s0 =? 0); lia.
Qed.

Lemma C5_playback_starts_once_witness :
  length (transitions cfg48 demo_session_start demo_session) = length demo_session /\
  (count_rising
     (transitions cfg48
        demo_session_start
        demo_session) <= 1)%nat /\
  Forall (fun t => if rising t then starts_playback cfg48 t else no_start t)
    (transitions cfg48
       demo_session_start
       demo_session).
Proof.
  apply (C5_playback_starts_once cfg48 (EvSetup (SET_INTERFACE_req 1))
           (stale_ring_state cfg48)).
  - reflexivity.
  - vm_compute. reflexivity.
  - vm_compute. reflexivity.
Defined.

(** ** Scenarios on the 48 kHz build *)

(** Five full packets fill half of the 1920-byte ring: playback starts on
    the fifth, and only there. *)
Example half_full_starts_playback :
  map rising
    (transitions cfg48
       demo_session_start
       demo_session)
  = [false; false; false; false; true; false; false].
Proof. vm_compute. reflexivity. Qed.

(** Sixteen frames more free space than the set-point raise the feedback
    above nominal, inside the clamp. *)
Example feedback_above_nominal :
  fb_unclamped cfg48 16 = 0x0C030000 /\
  audio_buf_writable_dev_from_nom_size cfg48 (160 + 16) = 16.
Proof. split; reflexivity. Qed.

(** A deviation of a million frames is clamped to nominal plus delta. *)
Example feedback_clamped_high :
  fb_value (fb_clamp cfg48 (set_fb_value (fb_unclamped cfg48 1000000)
                              (boot_state cfg48 USBD_STATE_CONFIGURED 1)))
  = 0x0C400000.
Proof. reflexivity. Qed.

(** An oversize report of 196 bytes moves nothing. *)
Example oversize_keeps_wr :
  (wr_ptr <$> pClassData
     (snd (USBD_AUDIO_DataOut cfg48 0x01 196
             (arm_operational cfg48 (stale_ring_state cfg48))))) = Some 0.
Proof. reflexivity. Qed.

(** * Further properties of the driver *)

(** ** Feedback arithmetic *)

Lemma u8_land_shiftr v k :
  0 <= k -> u8 (Z.land (Z.shiftr v k) 0xFF) = (v / 2 ^ k) mod 256.
Proof.
  intros P. unfold u8. change 0xFF with (Z.ones 8).
  rewrite Z.land_ones by lia. rewrite Z.shiftr_div_pow2 by lia.
  change (2 ^ 8) with 256. apply Z.mod_mod. lia.
Qed.

(** Reading the three bytes back gives bits 8..31 of a 32-bit value. *)
Lemma le24_fb_bytes v : 0 <= v < 2 ^ 32 -> le24 (fb_bytes v) = v / 256.
Proof.
  intros B. unfold le24, fb_bytes.
  rewrite !u8_land_shiftr by lia.
  change (2 ^ 8) with 256. change (2 ^ 16) with (256 * 256).
  change (2 ^ 24) with (256 * (256 * 256)). change (2 ^ 32) with 4294967296 in B.
  rewrite <- !Z.div_div by lia.
  assert (Q : 0 <= v / 256 < 16777216) by (Z.div_mod_to_equations; lia).
  set (q := v / 256) in *. clearbody q. clear B.
  Z.div_mod_to_equations. lia.
Qed.

Lemma fb_bytes_bytes v : Forall (fun b => 0 <= b < 256) (fb_bytes v).
Proof.
  unfold fb_bytes. rewrite !u8_land_shiftr by lia.
  repeat constructor; apply Z.mod_pos_bound; lia.
Qed.

Lemma fb_value_range c v : fb_in_range c v -> 0 <= v < 2 ^ 32.
Proof.
  unfold fb_in_range. rewrite AUDIO_FB_DELTA_value. change (2 ^ 32) with 4294967296.
  destruct (fb_nom_cases c) as [E | [E | E]]; rewrite E; lia.
Qed.

(** After the feedback block the packet is the serialisation of the value. *)
Lemma sof_computed_packet c ndtr h s :
  fb_data (sof_computed c ndtr h s) = fb_bytes (fb_value (sof_computed c ndtr h s)) /\
  fb_in_range c (fb_value (sof_computed c ndtr h s)).
Proof.
  unfold sof_computed. cbv zeta. destruct (sof_count _ =? 1).
  - split; [reflexivity|]. rewrite fb_value_sof_feedback. apply fb_clamp_in_range.
  - split; [reflexivity|]. apply fb_nom_in_range.
Qed.

Lemma fb_data_sof_transmit c dsts s : fb_data (sof_transmit c dsts s) = fb_data s.
Proof.
  unfold sof_transmit. destruct (tx_flag s =? 0); [|reflexivity].
  destruct (_ =? _); reflexivity.
Qed.

(** X1. After every SOF tick whose guard holds, the three bytes of
    [fb_data] are bytes, they serialise the current [fb_value], and read
    back as a little-endian number they give [fb_value >> 8]: the packet
    round-trips the upper 24 bits of the feedback value. *)
Theorem X1_feedback_packet_roundtrip c ndtr dsts s h :
  pClassData s = Some h -> 1 <= rd_enable h -> all_ready s = 1 ->
  exists s',
    USBD_AUDIO_SOF c ndtr dsts s = Some (USBD_OK, s') /\
    fb_data s' = fb_bytes (fb_value s') /\
    Forall (fun b => 0 <= b < 256) (fb_data s') /\
    le24 (fb_data s') = Z.shiftr (fb_value s') 8 /\
    le24 (fb_data s') * 256 <= fb_value s' < le24 (fb_data s') * 256 + 256.
Proof.
  intros Hh Hrd Har. eexists. split; [apply (SOF_open c ndtr dsts s h Hh Hrd Har)|].
  rewrite fb_data_sof_transmit, fb_value_sof_transmit.
  destruct (sof_computed_packet c ndtr h s) as [P R]. rewrite P.
  pose proof (fb_value_range c _ R) as B.
  split; [reflexivity|]. split; [apply fb_bytes_bytes|].
  rewrite (le24_fb_bytes _ B), Z.shiftr_div_pow2 by lia. change (2 ^ 8) with 256.
  split; [reflexivity|]. Z.div_mod_to_equations. lia.
Qed.

Lemma X1_feedback_packet_roundtrip_witness :
  exists s',
    USBD_AUDIO_SOF cfg48 7 0 (streaming_state cfg48 960) = Some (USBD_OK, s') /\
    fb_data s' = fb_bytes (fb_value s') /\
    Forall (fun b => 0 <= b < 256) (fb_data s') /\
    le24 (fb_data s') = Z.shiftr (fb_value s') 8 /\
    le24 (fb_data s') * 256 <= fb_value s' < le24 (fb_data s') * 256 + 256.
Proof.
  apply (X1_feedback_packet_roundtrip cfg48 7 0 (streaming_state cfg48 960)
           (set_wr_ptr 960 (set_rd_enable 1 (set_offset AUDIO_OFFSET_NONE (fresh_handle 1920 0))))).
  - reflexivity.
  - vm_compute. discriminate.
  - reflexivity.
Defined.

(** X2. For offsets inside a ring that fits 16 bits, the free space the
    SOF handler computes is the forward distance from the write offset to
    the read offset modulo the ring size, in whole frames; it is 0 when
    the two offsets coincide and always below a quarter of the ring. *)
Theorem X2_writable_is_ring_distance c rd wr :
  0 < AUDIO_TOTAL_BUF_SIZE c < 2 ^ 16 ->
  0 <= rd < AUDIO_TOTAL_BUF_SIZE c -> 0 <= wr < AUDIO_TOTAL_BUF_SIZE c ->
  audio_buf_writable_size c rd wr = ((rd - wr) mod AUDIO_TOTAL_BUF_SIZE c) / 4 /\
  (rd = wr -> audio_buf_writable_size c rd wr = 0) /\
  0 <= audio_buf_writable_size c rd wr <= (AUDIO_TOTAL_BUF_SIZE c - 1) / 4.
Proof.
  intros T R W. change (2 ^ 16) with 65536 in T.
  assert (E : audio_buf_writable_size c rd wr = ((rd - wr) mod AUDIO_TOTAL_BUF_SIZE c) / 4).
  { unfold audio_buf_writable_size, u32. change (2 ^ 32) with 4294967296.
    destruct (rd <? wr) eqn:L.
    - apply Z.ltb_lt in L. rewrite Z.quot_div_nonneg by lia.
      replace ((rd - wr) mod AUDIO_TOTAL_BUF_SIZE c) with (rd + AUDIO_TOTAL_BUF_SIZE c - wr).
      + apply Z.mod_small. Z.div_mod_to_equations. lia.
      + apply (Z.mod_unique _ _ (-1)); lia.
    - apply Z.ltb_ge in L. rewrite Z.quot_div_nonneg by lia.
      rewrite (Z.mod_small (rd - wr)) by lia.
      apply Z.mod_small. Z.div_mod_to_equations. lia. }
  split; [exact E|]. rewrite E. split.
  - intros ->. rewrite Z.sub_diag, Z.mod_0_l by lia. reflexivity.
  - pose proof (Z.mod_pos_bound (rd - wr) (AUDIO_TOTAL_BUF_SIZE c) ltac:(lia)) as M.
    set (m := (rd - wr) mod AUDIO_TOTAL_BUF_SIZE c) in *. clearbody m.
    split; [apply Z.div_pos; lia|]. apply Z.div_le_mono; lia.
Qed.

Lemma X2_writable_is_ring_distance_witness :
  audio_buf_writable_size cfg48 100 1900 = ((100 - 1900) mod AUDIO_TOTAL_BUF_SIZE cfg48) / 4 /\
  (100 = 1900 -> audio_buf_writable_size cfg48 100 1900 = 0) /\
  0 <= audio_buf_writable_size cfg48 100 1900 <= (AUDIO_TOTAL_BUF_SIZE cfg48 - 1) / 4.
Proof.
  apply (X2_writable_is_ring_distance cfg48 100 1900); vm_compute; split; congruence.
Defined.

Lemma i32_small x : - 2 ^ 31 <= x < 2 ^ 31 -> i32 x = x.
Proof.
  intros B. unfold i32. change (2 ^ 31) with 2147483648 in *.
  change (2 ^ 32) with 4294967296. rewrite Z.mod_small by lia. lia.
Qed.

Lemma i32_u32 x : - 2 ^ 31 <= x < 2 ^ 31 -> i32 (u32 x) = x.
Proof.
  intros B. unfold i32, u32. change (2 ^ 31) with 2147483648 in *.
  change (2 ^ 32) with 4294967296. Z.div_mod_to_equations. lia.
Qed.

(** The deviation is the plain difference for 16-bit quantities. *)
Lemma dev_small c w :
  0 <= AUDIO_TOTAL_BUF_SIZE c < 2 ^ 16 -> 0 <= w < 2 ^ 16 ->
  audio_buf_writable_dev_from_nom_size c w = w - AUDIO_TOTAL_BUF_SIZE c / 12 /\
  - 5461 <= audio_buf_writable_dev_from_nom_size c w < 65536.
Proof.
  intros T W. change (2 ^ 16) with 65536 in *.
  unfold audio_buf_writable_dev_from_nom_size. change (2 * 6) with 12.
  rewrite Z.quot_div_nonneg by lia.
  assert (0 <= AUDIO_TOTAL_BUF_SIZE c / 12 <= 5461) by (Z.div_mod_to_equations; lia).
  rewrite i32_u32 by (change (2 ^ 31) with 2147483648; lia). lia.
Qed.

Lemma pid_tmp_small dev :
  - 5461 <= dev < 65536 -> pid_tmp dev = 2 ^ 22 + 256 * dev.
Proof.
  intros D. unfold pid_tmp. change (Z.shiftl 1 22) with 4194304.
  change (2 ^ 22) with 4194304.
  rewrite (i32_small 4194304) by (change (2 ^ 31) with 2147483648; lia).
  rewrite (i32_small (dev * 256)) by (change (2 ^ 31) with 2147483648; lia).
  rewrite i32_small by (change (2 ^ 31) with 2147483648; lia).
  unfold u64. change (2 ^ 64) with 18446744073709551616.
  rewrite Z.mod_small by lia. lia.
Qed.

Lemma fb_unclamped_small c dev :
  - 5461 <= dev < 65536 ->
  fb_unclamped c dev = fb_nom c * (2 ^ 22 + 256 * dev) / 2 ^ 22 /\
  0 <= fb_unclamped c dev < 2 ^ 32.
Proof.
  intros D. unfold fb_unclamped, pid_k. rewrite (pid_tmp_small dev D).
  change (2 ^ 22) with 4194304. change (2 ^ 32) with 4294967296.
  rewrite Z.shiftr_div_pow2 by lia. change (2 ^ 22) with 4194304.
  unfold u64, u32. change (2 ^ 64) with 18446744073709551616.
  change (2 ^ 32) with 4294967296.
  destruct (fb_nom_cases c) as [E | [E | E]];
    (rewrite (Z.mod_small (fb_nom c) 18446744073709551616) by (rewrite E; lia));
    rewrite E;
    (rewrite (Z.mod_small _ 18446744073709551616) by lia);
    match goal with
    | |- context [(?n * (4194304 + 256 * dev)) / 4194304] =>
      assert (B : 0 <= (n * (4194304 + 256 * dev)) / 4194304 < 4294967296)
        by (split; [apply Z.div_pos; lia | apply Z.div_lt_upper_bound; lia])
    end;
    (rewrite (Z.mod_small _ 4294967296) by exact B); (split; [reflexivity | exact B]).
Qed.

Lemma fb_clamp_max_min c v s :
  0 <= v < 2 ^ 32 ->
  fb_value (fb_clamp c (set_fb_value v s)) = Z.max (fb_lo c) (Z.min (fb_hi c) v).
Proof.
  intros B. unfold fb_clamp, fb_lo, fb_hi. rewrite AUDIO_FB_DELTA_value.
  cbn [fb_value set_fb_value].
  destruct (fb_nom_cases c) as [E | [E | E]]; rewrite E;
    repeat match goal with
           | |- context [u32 ?x] =>
             let r := eval vm_compute in (u32 x) in change (u32 x) with r
           | |- context [i32 ?x] =>
             let r := eval vm_compute in (i32 x) in change (i32 x) with r
           end;
    repeat match goal with
           | |- context [if ?b then _ else _] => destruct b eqn:?
           end; cbn [fb_value set_fb_value set_fb_raw]; lia.
Qed.

(** The feedback block in closed form, for 16-bit ring sizes and free
    space. *)
Lemma sof_feedback_closed c w s :
  0 <= AUDIO_TOTAL_BUF_SIZE c < 2 ^ 16 -> 0 <= w < 2 ^ 16 ->
  fb_value (sof_feedback c w s) = fb_closed_form c w.
Proof.
  intros T W. rewrite fb_value_sof_feedback.
  destruct (dev_small c w T W) as [D DB].
  destruct (fb_unclamped_small c _ DB) as [U UB].
  rewrite (fb_clamp_max_min c _ s UB), U, D. reflexivity.
Qed.

Lemma fb_closed_form_mono c w1 w2 :
  w1 <= w2 -> fb_closed_form c w1 <= fb_closed_form c w2.
Proof.
  intros L. unfold fb_closed_form.
  apply Z.max_le_compat_l, Z.min_le_compat_l, Z.div_le_mono; [reflexivity|].
  assert (0 <= fb_nom c) by (destruct (fb_nom_cases c) as [E | [E | E]]; rewrite E; lia).
  apply Z.mul_le_mono_nonneg_l; lia.
Qed.

Lemma fb_closed_form_nominal c :
  fb_closed_form c (AUDIO_TOTAL_BUF_SIZE c / 12) = fb_nom c.
Proof.
  unfold fb_closed_form, fb_lo, fb_hi. rewrite AUDIO_FB_DELTA_value, Z.sub_diag.
  change (2 ^ 22 + 256 * 0) with (2 ^ 22). rewrite Z.div_mul by discriminate. lia.
Qed.

(** X3. In the feedback block more free space never lowers the feedback
    value: it is monotone in the free space, at least nominal when the
    free space is at or above the set-point [AUDIO_TOTAL_BUF_SIZE / 12]
    and at most nominal when it is at or below (16-bit ring sizes and
    free space). *)
Theorem X3_feedback_monotone c w1 w2 s1 s2 :
  0 <= AUDIO_TOTAL_BUF_SIZE c < 2 ^ 16 -> 0 <= w1 -> w1 <= w2 -> w2 < 2 ^ 16 ->
  fb_value (sof_feedback c w1 s1) <= fb_value (sof_feedback c w2 s2) /\
  (AUDIO_TOTAL_BUF_SIZE c / 12 <= w1 -> fb_nom c <= fb_value (sof_feedback c w1 s1)) /\
  (w2 <= AUDIO_TOTAL_BUF_SIZE c / 12 -> fb_value (sof_feedback c w2 s2) <= fb_nom c).
Proof.
  intros T W0 L W2.
  rewrite (sof_feedback_closed c w1 s1 T) by lia.
  rewrite (sof_feedback_closed c w2 s2 T) by lia.
  split; [apply fb_closed_form_mono; exact L|].
  split; intros S; rewrite <- (fb_closed_form_nominal c) at 1 || rewrite <- (fb_closed_form_nominal c);
    apply fb_closed_form_mono; exact S.
Qed.

Lemma X3_feedback_monotone_witness :
  fb_value (sof_feedback cfg48 100 (streaming_state cfg48 0))
  <= fb_value (sof_feedback cfg48 200 (streaming_state cfg48 0)).
Proof.
  apply (X3_feedback_monotone cfg48 100 200 (streaming_state cfg48 0) (streaming_state cfg48 0));
    vm_compute; try split; congruence.
Defined.

Lemma sof_count_sof_feedback c w s : sof_count (sof_feedback c w s) = sof_count s.
Proof.
  unfold sof_feedback. cbv zeta. cbn [sof_count set_fb_data]. unfold fb_clamp.
  split_ifs; reflexivity.
Qed.

(** X4. On a SOF tick whose guard holds, with the tick counter at 0 and
    the write offset inside a ring that fits 16 bits, the new [fb_value]
    is [fb_nom * ((1 << 22) + 256 * dev) / (1 << 22)] clamped to
    [fb_nom - delta, fb_nom + delta], where [dev] is the free space minus
    [AUDIO_TOTAL_BUF_SIZE / 12]: no intermediate conversion wraps. *)
Theorem X4_feedback_closed_form c ndtr dsts s h :
  pClassData s = Some h -> 1 <= rd_enable h -> all_ready s = 1 -> sof_count s = 0 ->
  0 < AUDIO_TOTAL_BUF_SIZE c < 2 ^ 16 -> 0 <= wr_ptr h < AUDIO_TOTAL_BUF_SIZE c ->
  exists s',
    USBD_AUDIO_SOF c ndtr dsts s = Some (USBD_OK, s') /\
    sof_count s' = 0 /\
    fb_value s' =
      fb_closed_form c (audio_buf_writable_size c (rd_from_ndtr c ndtr) (wr_ptr h)).
Proof.
  intros Hh Hrd Har Hc T W. eexists.
  split; [apply (SOF_open c ndtr dsts s h Hh Hrd Har)|].
  assert (SC : forall t, sof_count (sof_transmit c dsts t) = sof_count t).
  { intros t. unfold sof_transmit. destruct (tx_flag t =? 0); [|reflexivity].
    destruct (_ =? _); reflexivity. }
  rewrite SC, fb_value_sof_transmit. unfold sof_computed. cbv zeta.
  cbn [sof_count set_sof_count set_fb_data set_fb_value set_handle set_pClassData].
  rewrite Hc. change (u32 (0 + 1) =? 1) with true. cbn iota.
  split; [rewrite sof_count_sof_feedback; reflexivity|].
  apply sof_feedback_closed; [lia|].
  cbn [rd_ptr wr_ptr set_rd_ptr].
  change (2 ^ 16) with 65536 in *.
  assert (R : 0 <= rd_from_ndtr c ndtr < 65536).
  { unfold rd_from_ndtr, u16. apply Z.mod_pos_bound. reflexivity. }
  unfold audio_buf_writable_size, u32. change (2 ^ 32) with 4294967296.
  destruct (_ <? _) eqn:L; [apply Z.ltb_lt in L | apply Z.ltb_ge in L];
    (rewrite Z.quot_div_nonneg by lia);
    (rewrite Z.mod_small by (Z.div_mod_to_equations; lia));
    Z.div_mod_to_equations; lia.
Qed.

Lemma X4_feedback_closed_form_witness :
  exists s',
    USBD_AUDIO_SOF cfg48 1216 0 (streaming_state cfg48 0) = Some (USBD_OK, s') /\
    sof_count s' = 0 /\
    fb_value s' =
      fb_closed_form cfg48 (audio_buf_writable_size cfg48 (rd_from_ndtr cfg48 1216)
                              (wr_ptr (set_wr_ptr 0 (set_rd_enable 1
                                 (set_offset AUDIO_OFFSET_NONE (fresh_handle 1920 0)))))).
Proof.
  apply (X4_feedback_closed_form cfg48 1216 0 (streaming_state cfg48 0)
           (set_wr_ptr 0 (set_rd_enable 1 (set_offset AUDIO_OFFSET_NONE (fresh_handle 1920 0)))));
    try reflexivity; vm_compute; try split; congruence.
Defined.

(** ** Invariants of every run *)

Lemma run_invariant c (I : State -> Prop) :
  (forall e s s', I s -> dispatch c e s = Some s' -> I s') ->
  forall evs s0 s, I s0 -> run c evs s0 = Some s -> I s.
Proof.
  intros Step. induction evs as [|e evs IH]; intros s0 s I0 R.
  - cbn in R. injection R as <-. exact I0.
  - cbn [run] in R. destruct (dispatch c e s0) as [s1|] eqn:D; [|discriminate R].
    exact (IH s1 s (Step e s0 s1 I0 D) R).
Qed.

(** [USBD_AUDIO_SOF] either leaves the state alone or runs the feedback
    block and the transmit decision. *)
Lemma SOF_cases c ndtr dsts s h :
  pClassData s = Some h ->
  USBD_AUDIO_SOF c ndtr dsts s = Some (USBD_OK, s) \/
  USBD_AUDIO_SOF c ndtr dsts s =
    Some (USBD_OK, sof_transmit c dsts (sof_computed c ndtr h s)).
Proof.
  intros Hh. destruct ((1 <=? rd_enable h) && (all_ready s =? 1)) eqn:G.
  - right. apply andb_true_iff in G as [G1 G2].
    apply SOF_open; [exact Hh | apply Z.leb_le; exact G1 | apply Z.eqb_eq; exact G2].
  - left. apply SOF_closed with h; assumption.
Qed.

Lemma dispatch_SOF_cases c ndtr dsts s s' :
  dispatch c (EvSOF ndtr dsts) s = Some s' ->
  exists h, pClassData s = Some h /\
            (s' = s \/ s' = sof_transmit c dsts (sof_computed c ndtr h s)).
Proof.
  cbn [dispatch]. intros D. destruct (pClassData s) as [h|] eqn:Hh.
  - exists h. split; [reflexivity|].
    destruct (SOF_cases c ndtr dsts s h Hh) as [R | R]; rewrite R in D;
      cbn [fmap option_fmap option_map snd] in D; injection D as <-; auto.
  - unfold USBD_AUDIO_SOF in D. rewrite Hh in D. discriminate D.
Qed.

Lemma sof_transmit_rest c dsts s :
  sof_count (sof_transmit c dsts s) = sof_count s /\
  pClassData (sof_transmit c dsts s) = pClassData s /\
  all_ready (sof_transmit c dsts s) = all_ready s /\
  is_playing (sof_transmit c dsts s) = is_playing s.
Proof.
  unfold sof_transmit. destruct (tx_flag s =? 0); [|repeat split].
  destruct (_ =? _); repeat split.
Qed.

Lemma sof_computed_count c ndtr h s :
  sof_count s = 0 -> sof_count (sof_computed c ndtr h s) = 0.
Proof.
  intros Hc. unfold sof_computed. cbv zeta.
  cbn [sof_count set_sof_count set_fb_data set_fb_value set_handle set_pClassData].
  rewrite Hc. change (u32 (0 + 1) =? 1) with true. cbn iota.
  rewrite sof_count_sof_feedback. reflexivity.
Qed.

(** What a DataOut leaves: the state as found, or the ingested handle
    after the latch and the re-arm. *)
Lemma dispatch_DataOut_cases c epnum rx_size pkt s s' :
  dispatch c (EvDataOut epnum rx_size pkt) s = Some s' ->
  s' = set_tmpbuf pkt s \/
  exists h h1,
    pClassData s = Some h /\ all_ready s = 1 /\
    h1 = ingest_loop c (Z.to_nat (packet_size c rx_size / 4)) pkt 0 h /\
    s' = emit (LL_PrepareReceive (AUDIO_OUT_EP c) RxTmpbuf (AUDIO_OUT_PACKET c))
           (playback_latch c h1 (set_handle h1 (set_tmpbuf pkt s))).
Proof.
  cbn [dispatch]. intros D. injection D as <-.
  destruct (pClassData s) as [h|] eqn:Hh.
  - destruct ((epnum =? AUDIO_OUT_EP c) && (all_ready s =? 1)) eqn:G.
    + right. apply andb_true_iff in G as [G1 G2]. apply Z.eqb_eq in G1, G2.
      exists h, (ingest_loop c (Z.to_nat (packet_size c rx_size / 4)) pkt 0 h).
      split; [reflexivity|]. split; [exact G2|]. split; [reflexivity|].
      rewrite (DataOut_active c epnum rx_size (set_tmpbuf pkt s) h Hh G1 G2). reflexivity.
    + left. rewrite (DataOut_inactive c epnum rx_size (set_tmpbuf pkt s) h Hh G). reflexivity.
  - left. unfold USBD_AUDIO_DataOut. rewrite pClassData_set_tmpbuf, Hh. reflexivity.
Qed.

Lemma playback_latch_rest c h s :
  sof_count (playback_latch c h s) = sof_count s /\
  fb_value (playback_latch c h s) = fb_value s /\
  fb_data (playback_latch c h s) = fb_data s.
Proof. unfold playback_latch. split_ifs; repeat split. Qed.

(** Unfold every handler that is a plain sequence of tests and
    assignments. *)
Ltac open_handlers :=
  unfold USBD_AUDIO_Init, USBD_AUDIO_DeInit, USBD_AUDIO_Setup, setup_set_interface,
    ctl_error, AUDIO_REQ_GetCurrent, AUDIO_REQ_SetCurrent, USBD_AUDIO_EP0_TxReady,
    USBD_AUDIO_EP0_RxReady, deliver_control, USBD_AUDIO_DataIn,
    USBD_AUDIO_IsoINIncomplete, USBD_AUDIO_IsoOutIncomplete;
  cbv zeta.

(** Reduce a goal about [dispatch c e s = Some s'] for an event other than
    SOF and DataOut to the leaves of the handler. *)
Ltac split_handle :=
  repeat match goal with
         | |- context [match pClassData ?x with Some _ => _ | None => _ end] =>
           destruct (pClassData x) eqn:?
         end.

Ltac plain_event D :=
  cbn [dispatch] in D;
  first [ injection D as <-
        | (unfold USBD_AUDIO_IsoOutIncomplete in D;
           match type of D with
           | context [pClassData ?s] => destruct (pClassData s) eqn:?; [|discriminate D]
           end;
           cbn [fmap option_fmap option_map snd] in D; injection D as <-) ];
  open_handlers;
  try match goal with |- context [match ?m with Some _ => _ | None => _ end] =>
        is_var m; destruct m end;
  split_handle; split_ifs; cbn [snd].

Lemma dispatch_flags_ok c e s s' : flags_ok s -> dispatch c e s = Some s' -> flags_ok s'.
Proof.
  intros (T & A & P & C) D.
  assert (K : forall t,
             (tx_flag t = tx_flag s \/ tx_flag t = 0 \/ tx_flag t = 1) ->
             (all_ready t = all_ready s \/ all_ready t = 0 \/ all_ready t = 1) ->
             (is_playing t = is_playing s \/ is_playing t = 0 \/ is_playing t = 1) ->
             sof_count t = sof_count s -> flags_ok t).
  { intros t [E1 | E1] [E2 | E2] [E3 | E3] E4; unfold flags_ok;
      rewrite ?E1, ?E2, ?E3, E4; auto. }
  pose proof (dispatch_tx_flag_01 c e s s' T D) as T'.
  destruct e.
  1-7,10-11: plain_event D; apply K;
    first [left; reflexivity | right; left; reflexivity | right; right; reflexivity
          | reflexivity].
  - destruct (dispatch_DataOut_cases c _ _ _ s s' D) as [-> | (h & h1 & _ & _ & _ & ->)].
    + apply K; auto.
    + unfold flags_ok. cbn [tx_flag all_ready is_playing sof_count emit].
      destruct (playback_latch_frame c h1 (set_handle h1 (set_tmpbuf pkt s))) as (F1 & F2 & _).
      destruct (playback_latch_rest c h1 (set_handle h1 (set_tmpbuf pkt s))) as (F3 & _).
      rewrite F1, F2, F3, playback_latch_is_playing.
      destruct (latch_fires _ _ _); auto 6.
  - destruct (dispatch_SOF_cases c ndtr dsts s s' D) as (h & Hh & [-> | ->]).
    + unfold flags_ok; auto.
    + destruct (sof_transmit_rest c dsts (sof_computed c ndtr h s)) as (S1 & _ & S3 & S4).
      destruct (sof_computed_frame c ndtr h s) as [(_ & F2 & F3 & _) _].
      unfold flags_ok. rewrite S1, S3, S4, F2, F3, (sof_computed_count c ndtr h s C).
      auto.
Qed.

(** X5. In every state reached from the boot state by any sequence of
    callbacks, [tx_flag], [all_ready] and [is_playing] hold 0 or 1 and the
    SOF tick counter is 0, so the test [sof_count == 1] of the SOF handler
    never fails: every tick whose guard holds recomputes the feedback. *)
Theorem X5_flags_boolean_counter_zero c st sp evs s :
  run c evs (boot_state c st sp) = Some s ->
  (tx_flag s = 0 \/ tx_flag s = 1) /\ (all_ready s = 0 \/ all_ready s = 1) /\
  (is_playing s = 0 \/ is_playing s = 1) /\ sof_count s = 0.
Proof.
  intros R.
  apply (run_invariant c flags_ok (dispatch_flags_ok c) evs (boot_state c st sp) s);
    [|exact R].
  unfold flags_ok. cbn. auto.
Qed.

Lemma X5_flags_boolean_counter_zero_witness :
  sof_count (emit (LL_FlushEP 0x81) (set_tx_flag 0 (set_fnsof 1 (boot_state cfg48 3 1)))) = 0.
Proof.
  apply (X5_flags_boolean_counter_zero cfg48 3 1 [EvIsoINIncomplete 1 0x100; EvDataIn 1]).
  vm_compute. reflexivity.
Defined.

Lemma boot_feedback_ok c st sp : feedback_ok c (boot_state c st sp).
Proof.
  unfold feedback_ok, boot_state. cbn [fb_value fb_data].
  unfold fb_in_range, fb_nom, AUDIO_FB_DEFAULT, fb_default_masked.
  rewrite AUDIO_FB_DELTA_value.
  destruct (USBD_AUDIO_FREQ c =? 96000); [split; [vm_compute; split; discriminate | reflexivity]|].
  destruct (USBD_AUDIO_FREQ c =? 48000); [split; [vm_compute; split; discriminate | reflexivity]|].
  destruct (USBD_AUDIO_FREQ c =? 44100); split; first [vm_compute; split; discriminate | reflexivity].
Qed.

Lemma dispatch_feedback_ok c e s s' :
  feedback_ok c s -> dispatch c e s = Some s' -> feedback_ok c s'.
Proof.
  intros [V P] D.
  assert (K : forall t, fb_value t = fb_value s -> fb_data t = fb_data s -> feedback_ok c t).
  { intros t E1 E2. unfold feedback_ok. rewrite E1, E2. auto. }
  destruct e.
  1-7,10-11: plain_event D; apply K; reflexivity.
  - destruct (dispatch_DataOut_cases c _ _ _ s s' D) as [-> | (h & h1 & _ & _ & _ & ->)].
    + apply K; reflexivity.
    + destruct (playback_latch_rest c h1 (set_handle h1 (set_tmpbuf pkt s))) as (_ & F2 & F3).
      apply K; cbn [fb_value fb_data emit]; [rewrite F2 | rewrite F3]; reflexivity.
  - destruct (dispatch_SOF_cases c ndtr dsts s s' D) as (h & Hh & [-> | ->]).
    + split; assumption.
    + unfold feedback_ok. rewrite fb_value_sof_transmit, fb_data_sof_transmit.
      destruct (sof_computed_packet c ndtr h s) as [Q R]. auto.
Qed.

(** X6. In every state reached from the boot state, [fb_value] lies
    within [AUDIO_FB_DELTA] of [fb_nom] and the three bytes of [fb_data]
    are the serialisation of [fb_value].  This holds from the start: the
    initialiser of [fb_data], where the unparenthesised [AUDIO_FB_DEFAULT]
    makes the mask apply to the last alternative only, still yields the
    bytes of the nominal value for every sampling rate. *)
Theorem X6_feedback_state_consistent c st sp evs s :
  run c evs (boot_state c st sp) = Some s ->
  fb_nom c - AUDIO_FB_DELTA <= fb_value s <= fb_nom c + AUDIO_FB_DELTA /\
  fb_data s = fb_bytes (fb_value s) /\
  fb_data (boot_state c st sp) = fb_bytes (fb_nom c).
Proof.
  intros R.
  destruct (run_invariant c (feedback_ok c) (dispatch_feedback_ok c) evs
              (boot_state c st sp) s (boot_feedback_ok c st sp) R) as [V P].
  split; [exact V|]. split; [exact P|].
  destruct (boot_feedback_ok c st sp) as [_ B]. rewrite B.
  unfold boot_state, fb_nom, AUDIO_FB_DEFAULT. cbn [fb_value].
  destruct (USBD_AUDIO_FREQ c =? 96000); [reflexivity|].
  destruct (USBD_AUDIO_FREQ c =? 48000); [reflexivity|].
  destruct (USBD_AUDIO_FREQ c =? 44100); reflexivity.
Qed.

Lemma X6_feedback_state_consistent_witness :
  fb_data (emit (LL_FlushEP 0x81) (set_tx_flag 0 (set_fnsof 1 (boot_state cfg48 3 1))))
  = fb_bytes (fb_value (emit (LL_FlushEP 0x81)
                          (set_tx_flag 0 (set_fnsof 1 (boot_state cfg48 3 1))))).
Proof.
  apply (X6_feedback_state_consistent cfg48 3 1 [EvIsoINIncomplete 1 0x100; EvDataIn 1]).
  vm_compute. reflexivity.
Defined.






(** ** Control requests *)

Lemma Setup_dev_state c req s : dev_state (snd (USBD_AUDIO_Setup c req s)) = dev_state s.
Proof.
  unfold USBD_AUDIO_Setup, setup_set_interface, ctl_error, AUDIO_REQ_GetCurrent,
    AUDIO_REQ_SetCurrent.
  split_ifs; reflexivity.
Qed.

(** X8. In Configured state, SET_INTERFACE to alternate setting 0
    followed by SET_INTERFACE to alternate setting 1 both return
    [USBD_OK]; between them the ring is all zeroes with processing
    disabled, and afterwards the ring is still all zeroes, both offsets
    are 0, the offset state is UNKNOWN, reads are off, [is_playing] is 0,
    [tx_flag] is 0 and [all_ready] is 1.  The DAC is de-initialised once
    and then initialised once. *)
Theorem X8_alt0_then_alt1_fresh_ring c req0 req1 s h :
  pClassData s = Some h -> dev_state s = USBD_STATE_CONFIGURED ->
  1 <= USBD_MAX_NUM_INTERFACES c ->
  is_set_interface req0 = true -> req_alt req0 = 0 ->
  is_set_interface req1 = true -> req_alt req1 = 1 ->
  exists s1 s2 h1 h2,
    USBD_AUDIO_Setup c req0 s = (USBD_OK, s1) /\
    USBD_AUDIO_Setup c req1 s1 = (USBD_OK, s2) /\
    pClassData s1 = Some h1 /\ pClassData s2 = Some h2 /\
    buffer h1 = replicate (Z.to_nat (AUDIO_TOTAL_BUF_SIZE c)) 0 /\
    all_ready s1 = 0 /\ tx_flag s1 = 1 /\
    buffer h2 = replicate (Z.to_nat (AUDIO_TOTAL_BUF_SIZE c)) 0 /\
    wr_ptr h2 = 0 /\ rd_ptr h2 = 0 /\ offset h2 = AUDIO_OFFSET_UNKNOWN /\
    rd_enable h2 = 0 /\ alt_setting h2 = 1 /\
    is_playing s2 = 0 /\ tx_flag s2 = 0 /\ all_ready s2 = 1 /\
    new_calls s s2 =
      [ LL_FlushEP (AUDIO_IN_EP c); LL_FlushEP (AUDIO_OUT_EP c); Itf_DeInit 0;
        LL_FlushEP (AUDIO_IN_EP c);
        LL_FlushEP (AUDIO_IN_EP c); LL_FlushEP (AUDIO_OUT_EP c);
        Itf_Init (USBD_AUDIO_FREQ c) (AUDIO_DEFAULT_VOLUME c) 0;
        LL_FlushEP (AUDIO_IN_EP c) ].
Proof.
  intros Hh E M I0 A0 I1 A1.
  pose proof (Setup_set_interface c req0 s h Hh I0) as R0.
  rewrite (set_interface_zero_bandwidth c req0 s h E A0) in R0 by lia.
  set (s1 := emit (LL_FlushEP (AUDIO_IN_EP c))
               (emit (Itf_DeInit 0)
                  (reset_state c 0 (replicate (Z.to_nat (AUDIO_TOTAL_BUF_SIZE c)) 0) h s))) in *.
  set (h1 := {| alt_setting := 0;
                buffer := replicate (Z.to_nat (AUDIO_TOTAL_BUF_SIZE c)) 0;
                offset := AUDIO_OFFSET_UNKNOWN; rd_enable := 0; rd_ptr := 0; wr_ptr := 0;
                control := control h |}).
  assert (Hh1 : pClassData s1 = Some h1) by reflexivity.
  assert (E1 : dev_state s1 = USBD_STATE_CONFIGURED) by exact E.
  pose proof (Setup_set_interface c req1 s1 h1 Hh1 I1) as R1.
  rewrite (set_interface_operational c req1 s1 h1 E1) in R1 by lia.
  rewrite A1 in R1.
  exists s1, (operational_state c 1 h1 s1), h1,
    {| alt_setting := 1; buffer := buffer h1; offset := AUDIO_OFFSET_UNKNOWN;
       rd_enable := 0; rd_ptr := 0; wr_ptr := 0; control := control h1 |}.
  split; [exact R0|]. split; [exact R1|].
  repeat (split; [reflexivity|]).
  apply new_calls_app.
  change (calls (operational_state c 1 h1 s1)) with
    ((((calls s ++ [LL_FlushEP (AUDIO_IN_EP c); LL_FlushEP (AUDIO_OUT_EP c)])
         ++ [Itf_DeInit 0]) ++ [LL_FlushEP (AUDIO_IN_EP c)])
       ++ [ LL_FlushEP (AUDIO_IN_EP c); LL_FlushEP (AUDIO_OUT_EP c);
            Itf_Init (USBD_AUDIO_FREQ c) (AUDIO_DEFAULT_VOLUME c) 0;
            LL_FlushEP (AUDIO_IN_EP c) ]).
  rewrite <- !app_assoc. reflexivity.
Qed.

Lemma X8_alt0_then_alt1_fresh_ring_witness :
  exists s1 s2 h1 h2,
    USBD_AUDIO_Setup cfg48 (SET_INTERFACE_req 0) (stale_ring_state cfg48) = (USBD_OK, s1) /\
    USBD_AUDIO_Setup cfg48 (SET_INTERFACE_req 1) s1 = (USBD_OK, s2) /\
    pClassData s1 = Some h1 /\ pClassData s2 = Some h2 /\
    buffer h1 = replicate (Z.to_nat (AUDIO_TOTAL_BUF_SIZE cfg48)) 0 /\
    all_ready s1 = 0 /\ tx_flag s1 = 1 /\
    buffer h2 = replicate (Z.to_nat (AUDIO_TOTAL_BUF_SIZE cfg48)) 0 /\
    wr_ptr h2 = 0 /\ rd_ptr h2 = 0 /\ offset h2 = AUDIO_OFFSET_UNKNOWN /\
    rd_enable h2 = 0 /\ alt_setting h2 = 1 /\
    is_playing s2 = 0 /\ tx_flag s2 = 0 /\ all_ready s2 = 1 /\
    new_calls (stale_ring_state cfg48) s2 =
      [ LL_FlushEP (AUDIO_IN_EP cfg48); LL_FlushEP (AUDIO_OUT_EP cfg48); Itf_DeInit 0;
        LL_FlushEP (AUDIO_IN_EP cfg48);
        LL_FlushEP (AUDIO_IN_EP cfg48); LL_FlushEP (AUDIO_OUT_EP cfg48);
        Itf_Init (USBD_AUDIO_FREQ cfg48) (AUDIO_DEFAULT_VOLUME cfg48) 0;
        LL_FlushEP (AUDIO_IN_EP cfg48) ].
Proof.
  apply (X8_alt0_then_alt1_fresh_ring cfg48 (SET_INTERFACE_req 0) (SET_INTERFACE_req 1)
           (stale_ring_state cfg48) (fresh_handle 1920 0xAA));
    try reflexivity; vm_compute; discriminate.
Defined.

Lemma Setup_get_interface c req s h :
  pClassData s = Some h -> is_get_interface req = true ->
  USBD_AUDIO_Setup c req s =
  if dev_state s =? USBD_STATE_CONFIGURED
  then (USBD_OK, emit (CtlSendData (TxAltSetting (alt_setting h)) 1) s)
  else (USBD_FAIL, emit CtlError s).
Proof.
  intros Hh I. unfold is_get_interface in I. apply andb_true_iff in I as [I1 I2].
  apply Z.eqb_eq in I1, I2. unfold USBD_AUDIO_Setup. rewrite Hh, I1, I2. reflexivity.
Qed.

(** X9. GET_INTERFACE reads back what SET_INTERFACE stored: after an
    accepted SET_INTERFACE with alternate setting A (the low byte of
    wValue), a GET_INTERFACE request in Configured state returns
    [USBD_OK] and its single call sends one byte holding A. *)
Theorem X9_get_interface_after_set c req greq s h :
  pClassData s = Some h -> dev_state s = USBD_STATE_CONFIGURED ->
  is_set_interface req = true -> req_alt req <= USBD_MAX_NUM_INTERFACES c ->
  is_get_interface greq = true ->
  exists s1 s2,
    USBD_AUDIO_Setup c req s = (USBD_OK, s1) /\
    USBD_AUDIO_Setup c greq s1 = (USBD_OK, s2) /\
    new_calls s1 s2 = [CtlSendData (TxAltSetting (req_alt req)) 1] /\
    s2 = emit (CtlSendData (TxAltSetting (req_alt req)) 1) s1.
Proof.
  intros Hh E I L G.
  pose proof (Setup_set_interface c req s h Hh I) as R.
  pose proof (Setup_dev_state c req s) as DS. rewrite E in DS.
  destruct (Z.eq_dec (req_alt req) 0) as [Z0 | NZ].
  - rewrite (set_interface_zero_bandwidth c req s h E Z0) in R by lia.
    eexists. eexists. split; [exact R|].
    rewrite R in DS. cbn [snd] in DS.
    erewrite Setup_get_interface; [|reflexivity | exact G].
    rewrite DS. cbn [Z.eqb USBD_STATE_CONFIGURED Pos.eqb].
    cbn [alt_setting]. rewrite Z0.
    split; [reflexivity|]. split; [|reflexivity].
    apply new_calls_app. reflexivity.
  - rewrite (set_interface_operational c req s h E NZ L) in R.
    eexists. eexists. split; [exact R|].
    rewrite R in DS. cbn [snd] in DS.
    erewrite Setup_get_interface; [|reflexivity | exact G].
    rewrite DS. cbn [Z.eqb USBD_STATE_CONFIGURED Pos.eqb].
    cbn [alt_setting].
    split; [reflexivity|]. split; [|reflexivity].
    apply new_calls_app. reflexivity.
Qed.

Lemma X9_get_interface_after_set_witness :
  exists s1 s2,
    USBD_AUDIO_Setup cfg48 (SET_INTERFACE_req 1) (stale_ring_state cfg48) = (USBD_OK, s1) /\
    USBD_AUDIO_Setup cfg48 GET_INTERFACE_req s1 = (USBD_OK, s2) /\
    new_calls s1 s2 = [CtlSendData (TxAltSetting (req_alt (SET_INTERFACE_req 1))) 1] /\
    s2 = emit (CtlSendData (TxAltSetting (req_alt (SET_INTERFACE_req 1))) 1) s1.
Proof.
  apply (X9_get_interface_after_set cfg48 (SET_INTERFACE_req 1) GET_INTERFACE_req
           (stale_ring_state cfg48) (fresh_handle 1920 0xAA));
    try reflexivity; vm_compute; discriminate.
Defined.

Lemma no_stall_from_ext s s' :
  (exists l, calls s' = calls s ++ l /\ existsb is_ctl_error l = false) ->
  existsb is_ctl_error (new_calls s s') = false.
Proof. intros (l & C & N). rewrite (new_calls_app s s' l C). exact N. Qed.

(** X10. With a handle, [USBD_AUDIO_Setup] fails exactly when it stalls:
    either it returns [USBD_FAIL] and the only thing it did was to call
    [USBD_CtlError], or it returns [USBD_OK] and never called
    [USBD_CtlError].  It returns no other status. *)
Theorem X10_setup_fails_iff_stalls c req s h :
  pClassData s = Some h ->
  (fst (USBD_AUDIO_Setup c req s) = USBD_FAIL /\
   snd (USBD_AUDIO_Setup c req s) = emit CtlError s) \/
  (fst (USBD_AUDIO_Setup c req s) = USBD_OK /\
   existsb is_ctl_error (new_calls s (snd (USBD_AUDIO_Setup c req s))) = false).
Proof.
  intros Hh.
  unfold USBD_AUDIO_Setup, setup_set_interface, ctl_error, AUDIO_REQ_GetCurrent,
    AUDIO_REQ_SetCurrent, set_interface_alt0, set_interface_alt_other.
  rewrite Hh. split_ifs; cbn [fst snd];
    first [ left; split; reflexivity
          | right; split; [reflexivity|];
            apply no_stall_from_ext; eexists; split; [calls_ext | reflexivity] ].
Qed.

Lemma X10_setup_fails_iff_stalls_witness :
  (fst (USBD_AUDIO_Setup cfg48 (SET_INTERFACE_req 2) (stale_ring_state cfg48)) = USBD_FAIL /\
   snd (USBD_AUDIO_Setup cfg48 (SET_INTERFACE_req 2) (stale_ring_state cfg48))
   = emit CtlError (stale_ring_state cfg48)) \/
  (fst (USBD_AUDIO_Setup cfg48 (SET_INTERFACE_req 2) (stale_ring_state cfg48)) = USBD_OK /\
   existsb is_ctl_error
     (new_calls (stale_ring_state cfg48)
        (snd (USBD_AUDIO_Setup cfg48 (SET_INTERFACE_req 2) (stale_ring_state cfg48)))) = false).
Proof.
  apply (X10_setup_fails_iff_stalls cfg48 (SET_INTERFACE_req 2) (stale_ring_state cfg48)
           (fresh_handle 1920 0xAA)).
  reflexivity.
Defined.

Lemma Setup_get_descriptor c req s h :
  pClassData s = Some h -> is_get_descriptor req = true ->
  USBD_AUDIO_Setup c req s =
  if Z.shiftr (wValue req) 8 =? AUDIO_DESCRIPTOR_TYPE
  then (USBD_OK,
        emit (CtlSendData (TxCfgDesc 18) (u16 (MIN USB_AUDIO_DESC_SIZ (wLength req)))) s)
  else (USBD_OK, s).
Proof.
  intros Hh I. unfold is_get_descriptor in I. apply andb_true_iff in I as [I1 I2].
  apply Z.eqb_eq in I1, I2. unfold USBD_AUDIO_Setup. rewrite Hh, I1, I2. reflexivity.
Qed.

(** X11. A standard GET_DESCRIPTOR request always returns [USBD_OK] and
    never stalls.  For the audio descriptor type it sends, from offset 18
    of the configuration descriptor, the smaller of 9 and wLength bytes;
    for any other descriptor type it does nothing at all. *)
Theorem X11_get_descriptor_bounded c req s h :
  pClassData s = Some h -> is_get_descriptor req = true -> 0 <= wLength req < 2 ^ 16 ->
  fst (USBD_AUDIO_Setup c req s) = USBD_OK /\
  (Z.shiftr (wValue req) 8 = AUDIO_DESCRIPTOR_TYPE ->
   snd (USBD_AUDIO_Setup c req s)
   = emit (CtlSendData (TxCfgDesc 18) (Z.min 9 (wLength req))) s) /\
  (Z.shiftr (wValue req) 8 <> AUDIO_DESCRIPTOR_TYPE ->
   snd (USBD_AUDIO_Setup c req s) = s).
Proof.
  intros Hh I L. rewrite (Setup_get_descriptor c req s h Hh I).
  change (2 ^ 16) with 65536 in L.
  assert (M : u16 (MIN USB_AUDIO_DESC_SIZ (wLength req)) = Z.min 9 (wLength req)).
  { unfold MIN, USB_AUDIO_DESC_SIZ, u16. change (2 ^ 16) with 65536.
    destruct (9 <? wLength req) eqn:Lt;
      [apply Z.ltb_lt in Lt | apply Z.ltb_ge in Lt];
      rewrite Z.mod_small by lia; lia. }
  destruct (Z.shiftr (wValue req) 8 =? AUDIO_DESCRIPTOR_TYPE) eqn:T.
  - apply Z.eqb_eq in T. cbn [fst snd]. rewrite M.
    split; [reflexivity|]. split; [reflexivity | intros N; contradiction].
  - apply Z.eqb_neq in T. cbn [fst snd].
    split; [reflexivity|]. split; [intros N; contradiction | reflexivity].
Qed.

Lemma X11_get_descriptor_bounded_witness :
  snd (USBD_AUDIO_Setup cfg48 (GET_DESCRIPTOR_req 0x21 255) (stale_ring_state cfg48))
  = emit (CtlSendData (TxCfgDesc 18) (Z.min 9 (wLength (GET_DESCRIPTOR_req 0x21 255))))
      (stale_ring_state cfg48).
Proof.
  destruct (X11_get_descriptor_bounded cfg48 (GET_DESCRIPTOR_req 0x21 255)
              (stale_ring_state cfg48) (fresh_handle 1920 0xAA)) as (_ & Y & _).
  - reflexivity.
  - reflexivity.
  - vm_compute. split; [discriminate | reflexivity].
  - apply Y. reflexivity.
Defined.







(** ** Init and DeInit *)

(** X14. The three outcomes of [USBD_AUDIO_Init].  Without memory it
    returns [USBD_EMEM], clears the handle and makes no call.  With
    memory it opens both endpoints, flushes the IN endpoint, sets
    [tx_flag], resets the handle's pointers and flags (leaving the ring
    contents as found) and calls the DAC's init; if that returns non-zero
    the result is [USBD_FAIL] and reception is not armed, the endpoints
    staying open and the handle allocated; otherwise the result is
    [USBD_OK] and the last call arms reception at the start of the ring.
    [is_playing] and [all_ready] are never touched. *)
Theorem X14_init_outcomes c mem itf_ret s :
  fst (USBD_AUDIO_Init c mem itf_ret s) =
    match mem with
    | None => USBD_EMEM
    | Some _ => if itf_ret =? 0 then USBD_OK else USBD_FAIL
    end /\
  new_calls s (snd (USBD_AUDIO_Init c mem itf_ret s)) =
    match mem with
    | None => []
    | Some _ =>
      init_calls c ++
      (if itf_ret =? 0
       then [LL_PrepareReceive (AUDIO_OUT_EP c) (RxRing 0) (AUDIO_OUT_PACKET c)] else [])
    end /\
  pClassData (snd (USBD_AUDIO_Init c mem itf_ret s)) = init_handle <$> mem /\
  tx_flag (snd (USBD_AUDIO_Init c mem itf_ret s)) =
    match mem with None => tx_flag s | Some _ => 1 end /\
  ep_out_bInterval (snd (USBD_AUDIO_Init c mem itf_ret s)) =
    match mem with
    | None => ep_out_bInterval s
    | Some _ => if dev_speed s =? USBD_SPEED_HIGH then AUDIO_HS_BINTERVAL else AUDIO_FS_BINTERVAL
    end /\
  is_playing (snd (USBD_AUDIO_Init c mem itf_ret s)) = is_playing s /\
  all_ready (snd (USBD_AUDIO_Init c mem itf_ret s)) = all_ready s.
Proof.
  unfold USBD_AUDIO_Init. destruct mem as [h0|]; cbv zeta.
  - cbn [dev_speed set_handle set_pClassData].
    destruct (itf_ret =? 0); cbn [negb fst snd];
      (split; [reflexivity|]);
      (split; [apply new_calls_app; destruct (dev_speed s =? USBD_SPEED_HIGH);
               autorewrite with calls_db; rewrite <- ?app_assoc; reflexivity|]);
      (split; [destruct (dev_speed s =? USBD_SPEED_HIGH); reflexivity|]);
      (split; [destruct (dev_speed s =? USBD_SPEED_HIGH); reflexivity|]);
      (split; [destruct (dev_speed s =? USBD_SPEED_HIGH); reflexivity|]);
      split; destruct (dev_speed s =? USBD_SPEED_HIGH); reflexivity.
  - cbn [fst snd]. split; [reflexivity|].
    split; [apply new_calls_app; rewrite app_nil_r; reflexivity|].
    repeat split.
Qed.

Lemma DeInit_result c s :
  exists s1,
    USBD_AUDIO_DeInit c s = (USBD_OK, s1) /\
    pClassData s1 = None /\ tx_flag s1 = 0 /\
    ep_out_is_used s1 = 0 /\ ep_out_bInterval s1 = 0 /\ ep_in_is_used s1 = 0 /\
    is_playing s1 = is_playing s /\ all_ready s1 = all_ready s /\
    calls s1 = calls s ++ deinit_ep_calls c ++
               match pClassData s with Some _ => [Itf_DeInit 0] | None => [] end.
Proof.
  unfold USBD_AUDIO_DeInit. cbv zeta.
  cbn [pClassData set_tx_flag set_ep_in_is_used set_ep_out emit].
  destruct (pClassData s) as [h|] eqn:Hh; eexists; (split; [reflexivity|]);
    repeat (split; [first [reflexivity | exact Hh]|]);
    autorewrite with calls_db; rewrite <- ?app_assoc; reflexivity.
Qed.

(** X15. [USBD_AUDIO_DeInit] always returns [USBD_OK], releases the
    handle, clears [tx_flag] and marks both endpoints unused; besides
    flushing and closing the two endpoints it calls the DAC's deinit
    exactly when there was a handle.  A second DeInit therefore flushes
    and closes the endpoints again but makes no DAC call. *)
Theorem X15_deinit_releases_once c s :
  exists s1 s2,
    USBD_AUDIO_DeInit c s = (USBD_OK, s1) /\
    USBD_AUDIO_DeInit c s1 = (USBD_OK, s2) /\
    pClassData s1 = None /\ tx_flag s1 = 0 /\
    ep_out_is_used s1 = 0 /\ ep_in_is_used s1 = 0 /\
    new_calls s s1 =
      deinit_ep_calls c ++
      match pClassData s with Some _ => [Itf_DeInit 0] | None => [] end /\
    new_calls s1 s2 = deinit_ep_calls c.
Proof.
  destruct (DeInit_result c s) as (s1 & R1 & P1 & T1 & O1 & _ & I1 & _ & _ & C1).
  destruct (DeInit_result c s1) as (s2 & R2 & _ & _ & _ & _ & _ & _ & _ & C2).
  exists s1, s2. repeat (split; [assumption|]).
  split; [apply new_calls_app; exact C1|].
  apply new_calls_app. rewrite C2, P1, app_nil_r. reflexivity.
Qed.

(** X16. Once DeInit has released the handle, the guarded handlers refuse
    to work: Setup, DataOut and EP0_RxReady return [USBD_FAIL] and leave
    the state as it is, for every request, endpoint and size.  SOF and
    IsoOutIncomplete have no such guard and dereference the null handle. *)
Theorem X16_after_deinit_handlers_refuse c s req epnum rx_size ndtr dsts :
  USBD_AUDIO_Setup c req (snd (USBD_AUDIO_DeInit c s))
    = (USBD_FAIL, snd (USBD_AUDIO_DeInit c s)) /\
  USBD_AUDIO_DataOut c epnum rx_size (snd (USBD_AUDIO_DeInit c s))
    = (USBD_FAIL, snd (USBD_AUDIO_DeInit c s)) /\
  USBD_AUDIO_EP0_RxReady (snd (USBD_AUDIO_DeInit c s))
    = (USBD_FAIL, snd (USBD_AUDIO_DeInit c s)) /\
  USBD_AUDIO_SOF c ndtr dsts (snd (USBD_AUDIO_DeInit c s)) = None /\
  USBD_AUDIO_IsoOutIncomplete c epnum (snd (USBD_AUDIO_DeInit c s)) = None.
Proof.
  destruct (DeInit_result c s) as (s1 & R1 & P1 & _). rewrite R1. cbn [snd].
  unfold USBD_AUDIO_Setup, USBD_AUDIO_DataOut, USBD_AUDIO_EP0_RxReady, USBD_AUDIO_SOF,
    USBD_AUDIO_IsoOutIncomplete.
  rewrite P1. repeat split.
Qed.

Lemma Init_keeps_flags c h0 itf_ret s :
  is_playing (snd (USBD_AUDIO_Init c (Some h0) itf_ret s)) = is_playing s /\
  all_ready (snd (USBD_AUDIO_Init c (Some h0) itf_ret s)) = all_ready s /\
  unknown_means_idle (snd (USBD_AUDIO_Init c (Some h0) itf_ret s)).
Proof.
  unfold USBD_AUDIO_Init. cbv zeta. cbn [dev_speed set_handle set_pClassData].
  destruct (dev_speed s =? USBD_SPEED_HIGH); destruct (negb (itf_ret =? 0)); cbn [snd];
    (split; [reflexivity|]); (split; [reflexivity|]);
    unfold unknown_means_idle; autorewrite with pcd_db; intros _; reflexivity.
Qed.

(** In a session that begins with [is_playing] set, no step starts
    playback. *)
Lemma session_never_starts c : forall evs s,
  is_playing s <> 0 -> unknown_means_idle s -> is_session c s evs = true ->
  Forall (fun t => no_start t /\ is_playing (snd t) = is_playing s) (transitions c s evs).
Proof.
  induction evs as [|e evs IH]; intros s P J S; [constructor|].
  cbn [is_session] in S. apply andb_true_iff in S as [NR S].
  apply negb_true_iff in NR. cbn [transitions].
  destruct (dispatch c e s) as [s'|] eqn:D; [|constructor].
  destruct (session_step c e s s' J NR D) as [J' [(P0 & _) | (PE & NS)]];
    [contradiction|].
  constructor; [split; [exact NS | exact PE]|].
  rewrite <- PE in P. specialize (IH s' P J' S).
  eapply Forall_impl; [exact IH|].
  intros t [N Q]. split; [exact N | rewrite Q; exact PE].
Qed.

(** X17. Neither DeInit nor Init resets [is_playing] and [all_ready]:
    after DeInit followed by an Init that obtains a handle they are what
    they were.  If [is_playing] was non-zero, then in the session that
    follows, up to the next Init, DeInit or accepted SET_INTERFACE, no
    callback calls the DAC's command entry and [is_playing] never
    changes: playback is not started again however far the ring fills. *)
Theorem X17_stale_is_playing_blocks_start c s h0 itf_ret evs :
  is_playing s <> 0 ->
  is_session c (snd (USBD_AUDIO_Init c (Some h0) itf_ret (snd (USBD_AUDIO_DeInit c s)))) evs
    = true ->
  is_playing (snd (USBD_AUDIO_Init c (Some h0) itf_ret (snd (USBD_AUDIO_DeInit c s))))
    = is_playing s /\
  all_ready (snd (USBD_AUDIO_Init c (Some h0) itf_ret (snd (USBD_AUDIO_DeInit c s))))
    = all_ready s /\
  Forall (fun t => no_start t /\ is_playing (snd t) = is_playing s)
    (transitions c
       (snd (USBD_AUDIO_Init c (Some h0) itf_ret (snd (USBD_AUDIO_DeInit c s)))) evs).
Proof.
  intros P S.
  destruct (DeInit_result c s) as (s1 & R1 & _ & _ & _ & _ & _ & I1 & A1 & _).
  rewrite R1 in *. cbn [snd] in *.
  destruct (Init_keeps_flags c h0 itf_ret s1) as (I2 & A2 & J).
  set (s2 := snd (USBD_AUDIO_Init c (Some h0) itf_ret s1)) in *.
  split; [rewrite I2; exact I1|]. split; [rewrite A2; exact A1|].
  assert (P2 : is_playing s2 <> 0) by (rewrite I2, I1; exact P).
  pose proof (session_never_starts c evs s2 P2 J S) as F.
  eapply Forall_impl; [exact F|].
  intros t [N Q]. split; [exact N | rewrite Q, I2; exact I1].
Qed.

Lemma X17_stale_is_playing_blocks_start_witness :
  Forall (fun t => no_start t /\
                   is_playing (snd t) = is_playing (set_is_playing 1 (streaming_state cfg48 0)))
    (transitions cfg48
       (snd (USBD_AUDIO_Init cfg48 (Some (fresh_handle 1920 0xAA)) 0
               (snd (USBD_AUDIO_DeInit cfg48 (set_is_playing 1 (streaming_state cfg48 0))))))
       demo_session).
Proof.
  apply (X17_stale_is_playing_blocks_start cfg48 (set_is_playing 1 (streaming_state cfg48 0))
           (fresh_handle 1920 0xAA) 0 demo_session).
  - vm_compute. discriminate.
  - vm_compute. reflexivity.
Defined.

(** ** Ring contents *)

Lemma store_byte_spec v h :
  0 <= wr_ptr h < 65535 -> (Z.to_nat (wr_ptr h) < length (buffer h))%nat ->
  wr_ptr (store_byte v h) = wr_ptr h + 1 /\
  length (buffer (store_byte v h)) = length (buffer h) /\
  buffer (store_byte v h) !! Z.to_nat (wr_ptr h) = Some v /\
  (forall j : nat, j <> Z.to_nat (wr_ptr h) ->
                   buffer (store_byte v h) !! j = buffer h !! j) /\
  offset (store_byte v h) = offset h /\ rd_enable (store_byte v h) = rd_enable h.
Proof.
  intros W L. unfold store_byte. cbn [wr_ptr buffer offset rd_enable set_wr_ptr set_buffer].
  split; [unfold u16; change (2 ^ 16) with 65536; apply Z.mod_small; lia|].
  split; [apply length_insert|].
  split; [apply list_lookup_insert_eq; exact L|].
  split; [|split; reflexivity].
  intros j N. apply list_lookup_insert_ne. congruence.
Qed.

(** One iteration of the copy loop writes one frame at the write offset. *)
Lemma ingest_frame c v0 v1 v2 v3 h :
  ring_ok c -> wr_ok c h -> length (buffer h) = Z.to_nat (AUDIO_TOTAL_BUF_SIZE c) ->
  let h4 := store_byte v3 (store_byte v2 (store_byte v1 (store_byte v0 h))) in
  wr_ptr h4 = wr_ptr h + 4 /\ wr_ptr h + 4 <= AUDIO_TOTAL_BUF_SIZE c /\
  length (buffer h4) = length (buffer h) /\
  buffer h4 !! Z.to_nat (wr_ptr h) = Some v0 /\
  buffer h4 !! Z.to_nat (wr_ptr h + 1) = Some v1 /\
  buffer h4 !! Z.to_nat (wr_ptr h + 2) = Some v2 /\
  buffer h4 !! Z.to_nat (wr_ptr h + 3) = Some v3 /\
  (forall j, 0 <= j -> (j < wr_ptr h \/ wr_ptr h + 4 <= j) ->
             buffer h4 !! Z.to_nat j = buffer h !! Z.to_nat j).
Proof.
  intros [[R0 R1] R4] [W4 [W0 W1]] L. change (2 ^ 16) with 65536 in R1.
  assert (B : wr_ptr h + 4 <= AUDIO_TOTAL_BUF_SIZE c) by (Z.div_mod_to_equations; lia).
  destruct (store_byte_spec v0 h) as (A1 & A2 & A3 & A4 & _); [lia | lia|].
  set (h1 := store_byte v0 h) in *.
  destruct (store_byte_spec v1 h1) as (B1 & B2 & B3 & B4 & _); [lia | lia|].
  set (h2 := store_byte v1 h1) in *.
  destruct (store_byte_spec v2 h2) as (C1 & C2 & C3 & C4 & _); [lia | lia|].
  set (h3 := store_byte v2 h2) in *.
  destruct (store_byte_spec v3 h3) as (D1 & D2 & D3 & D4 & _); [lia | lia|].
  cbv zeta. set (h4 := store_byte v3 h3) in *.
  split; [lia|]. split; [exact B|]. split; [congruence|].
  split; [rewrite D4, C4, B4 by lia; exact A3|].
  split; [rewrite D4, C4 by lia; rewrite <- A1; exact B3|].
  split; [rewrite D4 by lia; replace (wr_ptr h + 2) with (wr_ptr h2) by lia; exact C3|].
  split; [replace (wr_ptr h + 3) with (wr_ptr h3) by lia; exact D3|].
  intros j J0 J. rewrite D4, C4, B4, A4 by lia. reflexivity.
Qed.

Lemma mod_window T wr a :
  0 <= wr < T -> 0 <= a <= T ->
  (wr + a) mod T = wr + a /\ wr + a < T \/ (wr + a) mod T = wr + a - T /\ T <= wr + a.
Proof.
  intros W A. destruct (Z_lt_le_dec (wr + a) T) as [L | G].
  - left. split; [apply Z.mod_small; lia | exact L].
  - right. split; [|exact G]. symmetry. apply (Z.mod_unique _ _ 1); lia.
Qed.

(** The copy loop: [k] frames from [tmpbuf[p ..]] land on the [4 * k]
    ring positions that follow the write offset, wrapping at the end, and
    nothing else in the ring changes. *)
Lemma ingest_loop_spec c tmp : forall k p h,
  ring_ok c -> wr_ok c h -> length (buffer h) = Z.to_nat (AUDIO_TOTAL_BUF_SIZE c) ->
  0 <= p -> p + 4 * Z.of_nat k < 2 ^ 32 -> 4 * Z.of_nat k <= AUDIO_TOTAL_BUF_SIZE c ->
  wr_ptr (ingest_loop c k tmp p h)
    = (wr_ptr h + 4 * Z.of_nat k) mod AUDIO_TOTAL_BUF_SIZE c /\
  length (buffer (ingest_loop c k tmp p h)) = length (buffer h) /\
  (forall i, 0 <= i < 4 * Z.of_nat k ->
     buffer (ingest_loop c k tmp p h)
       !! Z.to_nat ((wr_ptr h + i) mod AUDIO_TOTAL_BUF_SIZE c)
     = Some (tmpbuf_at tmp (p + i))) /\
  (forall j, 0 <= j < AUDIO_TOTAL_BUF_SIZE c ->
     (forall i, 0 <= i < 4 * Z.of_nat k ->
                j <> (wr_ptr h + i) mod AUDIO_TOTAL_BUF_SIZE c) ->
     buffer (ingest_loop c k tmp p h) !! Z.to_nat j = buffer h !! Z.to_nat j).
Proof.
  induction k as [|k IH]; intros p h R W L P0 P1 K.
  - cbn [ingest_loop]. destruct W as [W4 [W0 W1]].
    change (4 * Z.of_nat 0) with 0. rewrite Z.add_0_r, Z.mod_small by lia.
    split; [reflexivity|]. split; [reflexivity|]. split; [intros i Hi; lia | auto].
  - cbn [ingest_loop].
    destruct (ingest_frame c (tmpbuf_at tmp p) (tmpbuf_at tmp (p + 1))
                (tmpbuf_at tmp (p + 2)) (tmpbuf_at tmp (p + 3)) h R W L)
      as (F1 & F2 & F3 & G0 & G1 & G2 & G3 & GO).
    set (h4 := store_byte _ (store_byte _ (store_byte _ (store_byte _ h)))) in *.
    set (T := AUDIO_TOTAL_BUF_SIZE c) in *.
    pose proof W as W'. destruct W' as [W4 [W0 W1]].
    pose proof R as R'. destruct R' as [[R0 R1] R4]. fold T in R0, R1, R4, W1.
    change (2 ^ 32) with 4294967296 in P1. change (2 ^ 16) with 65536 in R1.
    set (h5 := if T <=? wr_ptr h4 then set_wr_ptr 0 h4 else h4).
    assert (E5 : wr_ptr h5 = (wr_ptr h + 4) mod T /\ buffer h5 = buffer h4).
    { unfold h5. destruct (T <=? wr_ptr h4) eqn:C.
      - apply Z.leb_le in C. cbn [wr_ptr buffer set_wr_ptr].
        replace (wr_ptr h + 4) with T by lia. rewrite Z.mod_same by lia. auto.
      - apply Z.leb_gt in C. rewrite Z.mod_small by lia. auto. }
    destruct E5 as [E5 B5].
    assert (W5 : wr_ok c h5).
    { unfold wr_ok. fold T. rewrite E5. split.
      - rewrite <- (Z.mod_mod (wr_ptr h + 4) T) by lia.
        destruct (mod_window T (wr_ptr h) 4) as [[M _] | [M _]]; [lia | lia | |];
          rewrite Z.mod_mod by lia; rewrite M; Z.div_mod_to_equations; lia.
      - apply Z.mod_pos_bound. lia. }
    assert (L5 : length (buffer h5) = Z.to_nat T) by (rewrite B5, F3; exact L).
    unfold u32. change (2 ^ 32) with 4294967296. rewrite (Z.mod_small (p + 4)) by lia.
    destruct (IH (p + 4) h5 R W5 L5) as (I1 & I2 & I3 & I4);
      [lia | change (2 ^ 32) with 4294967296; lia | fold T; lia|].
    fold T in I1, I3, I4.
    assert (S5 : forall a, (wr_ptr h5 + a) mod T = (wr_ptr h + (4 + a)) mod T).
    { intros a. rewrite E5, Zplus_mod_idemp_l. f_equal. lia. }
    split; [rewrite I1, S5; f_equal; lia|].
    split; [rewrite I2, B5; exact F3|].
    split.
    + intros i Hi. destruct (Z_lt_le_dec i 4) as [Lt | Ge].
      * rewrite (Z.mod_small (wr_ptr h + i)) by lia.
        rewrite I4; [| lia |].
        -- rewrite B5.
           assert (Ci : i = 0 \/ i = 1 \/ i = 2 \/ i = 3) by lia.
           destruct Ci as [-> | [-> | [-> | ->]]];
             rewrite ?Z.add_0_r; assumption.
        -- intros i' Hi'. rewrite S5.
           destruct (mod_window T (wr_ptr h) (4 + i')) as [[M B] | [M B]];
             [lia | lia | |]; rewrite M; lia.
      * replace (wr_ptr h + i) with (wr_ptr h + (4 + (i - 4))) by lia.
        rewrite <- S5, I3 by lia. f_equal. f_equal. lia.
    + intros j Hj Out. rewrite I4; [| exact Hj |].
      * rewrite B5. apply GO; [lia|].
        destruct (Z_lt_le_dec j (wr_ptr h)) as [Lt | Ge]; [left; exact Lt|].
        destruct (Z_lt_le_dec j (wr_ptr h + 4)) as [Lt' | Ge']; [|right; exact Ge'].
        exfalso. apply (Out (j - wr_ptr h)); [lia|].
        replace (wr_ptr h + (j - wr_ptr h)) with j by lia.
        rewrite Z.mod_small by lia. reflexivity.
      * intros i' Hi'. rewrite S5. apply Out. lia.
Qed.

Lemma packet_size_bound c rx_size :
  0 <= AUDIO_OUT_PACKET c -> 0 <= packet_size c rx_size <= AUDIO_OUT_PACKET c.
Proof.
  intros P. unfold packet_size.
  destruct (u16 rx_size >? AUDIO_OUT_PACKET c) eqn:G; [lia|].
  pose proof (Z.mod_pos_bound rx_size (2 ^ 16) ltac:(reflexivity)) as B.
  fold (u16 rx_size) in B.
  rewrite Z.gtb_ltb in G. apply Z.ltb_ge in G. lia.
Qed.

(** X18. What a DataOut writes.  On the audio OUT endpoint with
    [all_ready] = 1, a ring of the declared size and a packet size that
    fits the ring: with [n] the accepted size rounded down to whole
    frames, the [n] bytes at the start of [tmpbuf] land on the [n] ring
    positions following the old write offset, wrapping at the end of the
    ring; every other ring byte is unchanged; the write offset advances to
    [(wr + n) mod AUDIO_TOTAL_BUF_SIZE].  Bytes of a trailing partial
    frame are dropped. *)
Theorem X18_dataout_copies_packet c rx_size s h :
  ring_ok c -> pClassData s = Some h -> wr_ok c h ->
  length (buffer h) = Z.to_nat (AUDIO_TOTAL_BUF_SIZE c) -> all_ready s = 1 ->
  0 <= AUDIO_OUT_PACKET c <= AUDIO_TOTAL_BUF_SIZE c ->
  exists s' h',
    USBD_AUDIO_DataOut c (AUDIO_OUT_EP c) rx_size s = (USBD_OK, s') /\
    pClassData s' = Some h' /\
    wr_ptr h' = (wr_ptr h + 4 * (packet_size c rx_size / 4)) mod AUDIO_TOTAL_BUF_SIZE c /\
    length (buffer h') = length (buffer h) /\
    (forall i, 0 <= i < 4 * (packet_size c rx_size / 4) ->
       buffer h' !! Z.to_nat ((wr_ptr h + i) mod AUDIO_TOTAL_BUF_SIZE c)
       = Some (tmpbuf_at (tmpbuf s) i)) /\
    (forall j, 0 <= j < AUDIO_TOTAL_BUF_SIZE c ->
       (forall i, 0 <= i < 4 * (packet_size c rx_size / 4) ->
                  j <> (wr_ptr h + i) mod AUDIO_TOTAL_BUF_SIZE c) ->
       buffer h' !! Z.to_nat j = buffer h !! Z.to_nat j).
Proof.
  intros R Hh W L Har P.
  pose proof (packet_size_bound c rx_size ltac:(lia)) as PS.
  set (ps := packet_size c rx_size) in *.
  assert (Q : 0 <= ps / 4 /\ 4 * (ps / 4) <= ps) by (Z.div_mod_to_equations; lia).
  pose proof R as [[R0 R1] _]. change (2 ^ 16) with 65536 in R1.
  destruct (ingest_loop_spec c (tmpbuf s) (Z.to_nat (ps / 4)) 0 h R W L)
    as (I1 & I2 & I3 & I4);
    [lia | rewrite Z2Nat.id by lia; change (2 ^ 32) with 4294967296; lia
     | rewrite Z2Nat.id by lia; lia|].
  rewrite Z2Nat.id in I1, I3, I4 by lia.
  set (h1 := ingest_loop c (Z.to_nat (ps / 4)) (tmpbuf s) 0 h) in *.
  destruct (playback_latch_handle c h1 (set_handle h1 s) eq_refl) as (h' & Q1 & Q2 & Q3 & _).
  eexists. exists h'.
  split; [apply (DataOut_active c (AUDIO_OUT_EP c) rx_size s h Hh eq_refl Har)|].
  fold ps. fold h1.
  split; [rewrite pClassData_emit; exact Q1|].
  rewrite Q2, Q3. repeat split; assumption.
Qed.

Lemma X18_dataout_copies_packet_witness :
  exists s' h',
    USBD_AUDIO_DataOut cfg48 (AUDIO_OUT_EP cfg48) 190 (set_tmpbuf demo_packet demo_session_start)
      = (USBD_OK, s') /\
    pClassData s' = Some h' /\
    wr_ptr h' = 188.
Proof.
  destruct (X18_dataout_copies_packet cfg48 190 (set_tmpbuf demo_packet demo_session_start)
              {| alt_setting := 1; buffer := replicate 1920 0xAA;
                 offset := AUDIO_OFFSET_UNKNOWN; rd_enable := 0; rd_ptr := 0; wr_ptr := 0;
                 control := control (fresh_handle 1920 0xAA) |})
    as (s' & h' & D & P & W & _).
  - unfold ring_ok. vm_compute. repeat split; discriminate.
  - reflexivity.
  - unfold wr_ok. vm_compute. repeat split; discriminate.
  - vm_compute. reflexivity.
  - reflexivity.
  - vm_compute. split; discriminate.
  - exists s', h'. split; [exact D|]. split; [exact P|]. rewrite W. reflexivity.
Defined.

(** X19. When playback starts.  For a DataOut on the audio OUT endpoint
    with [all_ready] = 1, [is_playing] = 0, offset state UNKNOWN and reads
    off: if the write offset after ingestion is at or past half the ring,
    [is_playing] becomes 1, the offset state NONE, reads are enabled and
    the DAC's start command is called once before the endpoint is
    re-armed; if it is below half the ring, none of that happens and the
    only call is the re-arm. *)
Theorem X19_playback_starts_at_half c rx_size s h :
  pClassData s = Some h -> all_ready s = 1 -> is_playing s = 0 ->
  offset h = AUDIO_OFFSET_UNKNOWN -> rd_enable h = 0 ->
  exists s' h',
    USBD_AUDIO_DataOut c (AUDIO_OUT_EP c) rx_size s = (USBD_OK, s') /\
    pClassData s' = Some h' /\
    (AUDIO_TOTAL_BUF_SIZE c / 2 <= wr_ptr h' /\
     is_playing s' = 1 /\ offset h' = AUDIO_OFFSET_NONE /\ rd_enable h' = 1 /\
     new_calls s s' =
       [ Itf_AudioCmd 0 (AUDIO_TOTAL_BUF_SIZE c / 2) AUDIO_CMD_START;
         LL_PrepareReceive (AUDIO_OUT_EP c) RxTmpbuf (AUDIO_OUT_PACKET c) ]
     \/
     wr_ptr h' < AUDIO_TOTAL_BUF_SIZE c / 2 /\
     is_playing s' = 0 /\ offset h' = AUDIO_OFFSET_UNKNOWN /\ rd_enable h' = 0 /\
     new_calls s s' = [LL_PrepareReceive (AUDIO_OUT_EP c) RxTmpbuf (AUDIO_OUT_PACKET c)]).
Proof.
  intros Hh Har Hp Ho Hr.
  rewrite (DataOut_active c (AUDIO_OUT_EP c) rx_size s h Hh eq_refl Har).
  set (h1 := ingest_loop c (Z.to_nat (packet_size c rx_size / 4)) (tmpbuf s) 0 h).
  destruct (ingest_loop_stream c (Z.to_nat (packet_size c rx_size / 4)) (tmpbuf s) 0 h)
    as [O1 O2].
  fold h1 in O1, O2. rewrite Ho in O1. rewrite Hr in O2.
  unfold playback_latch. rewrite O1. cbn [offset_is_unknown andb].
  cbn [is_playing set_handle set_pClassData]. rewrite Hp. cbn [Z.eqb].
  destruct (AUDIO_TOTAL_BUF_SIZE c / 2 <=? wr_ptr h1) eqn:G.
  - apply Z.leb_le in G. cbn [rd_enable set_offset]. rewrite O2. cbn [Z.eqb].
    eexists. eexists. split; [reflexivity|]. split; [reflexivity|].
    left. split; [exact G|]. repeat (split; [reflexivity|]).
    apply new_calls_app. autorewrite with calls_db. rewrite <- app_assoc. reflexivity.
  - apply Z.leb_gt in G.
    eexists. eexists. split; [reflexivity|]. split; [reflexivity|].
    right. split; [exact G|]. split; [exact Hp|]. split; [exact O1|]. split; [exact O2|].
    apply new_calls_app. reflexivity.
Qed.

Lemma X19_playback_starts_at_half_witness :
  exists s' h',
    USBD_AUDIO_DataOut cfg48 (AUDIO_OUT_EP cfg48) 192 demo_session_start = (USBD_OK, s') /\
    pClassData s' = Some h' /\ wr_ptr h' = 192 /\ is_playing s' = 0.
Proof.
  destruct (X19_playback_starts_at_half cfg48 192 demo_session_start
              {| alt_setting := 1; buffer := replicate 1920 0xAA;
                 offset := AUDIO_OFFSET_UNKNOWN; rd_enable := 0; rd_ptr := 0; wr_ptr := 0;
                 control := control (fresh_handle 1920 0xAA) |})
    as (s' & h' & D & P & Q); try reflexivity.
  exists s', h'. split; [exact D|]. split; [exact P|].
  vm_compute in D. injection D as <-. vm_compute in P. injection P as <-.
  split; reflexivity.
Defined.

(** ** Zero-bandwidth operation and recovery *)




(** X21. Recovery after an incomplete feedback transfer.
    IsoInIncomplete leaves [tx_flag] at 0 and the frame number of the
    device status register in [fnsof]; on the SOF tick that follows, with
    the guard true, the feedback packet is transmitted exactly when the
    frame number read then has the same low bit as the captured one. *)
Theorem X21_incomplete_then_sof c epnum d1 ndtr d2 s h :
  pClassData s = Some h -> 1 <= rd_enable h -> all_ready s = 1 ->
  tx_flag s = 0 \/ tx_flag s = 1 ->
  exists s1 s2,
    USBD_AUDIO_IsoINIncomplete c epnum d1 s = (USBD_OK, s1) /\
    tx_flag s1 = 0 /\ fnsof s1 = fnsof_of_dsts d1 /\
    USBD_AUDIO_SOF c ndtr d2 s1 = Some (USBD_OK, s2) /\
    (existsb is_transmit (new_calls s1 s2) = true <->
     Z.land (fnsof_of_dsts d1) 0x1 = Z.land (fnsof_of_dsts d2) 0x1) /\
    (tx_flag s2 = 1 <-> Z.land (fnsof_of_dsts d1) 0x1 = Z.land (fnsof_of_dsts d2) 0x1).
Proof.
  intros Hh Hrd Har T.
  assert (E : exists s1, USBD_AUDIO_IsoINIncomplete c epnum d1 s = (USBD_OK, s1) /\
                         tx_flag s1 = 0 /\ fnsof s1 = fnsof_of_dsts d1 /\
                         pClassData s1 = Some h /\ all_ready s1 = 1).
  { unfold USBD_AUDIO_IsoINIncomplete. cbv zeta. cbn [tx_flag set_fnsof].
    destruct T as [T | T]; rewrite T; cbn [Z.eqb Pos.eqb];
      eexists; (split; [reflexivity|]); repeat split; assumption. }
  destruct E as (s1 & R1 & T1 & F1 & H1 & A1).
  destruct (SOF_result c ndtr d2 s1 h H1) as (t & ht & (G1 & _ & _ & _ & G5) & _ & _ & R2).
  exists s1. eexists. split; [exact R1|]. split; [exact T1|]. split; [exact F1|].
  split; [exact R2|].
  unfold sof_submits. rewrite A1, T1, F1.
  replace (1 <=? rd_enable h) with true by (symmetry; apply Z.leb_le; exact Hrd).
  cbn [andb Z.eqb Pos.eqb].
  destruct (Z.land (fnsof_of_dsts d1) 1 =? Z.land (fnsof_of_dsts d2) 1) eqn:P.
  - apply Z.eqb_eq in P.
    rewrite (new_calls_app s1 _ [LL_Transmit (AUDIO_IN_EP c) (fb_data t) 3])
      by (rewrite calls_set_tx_flag, calls_emit, G5; reflexivity).
    split; split; auto.
  - apply Z.eqb_neq in P.
    rewrite (new_calls_app s1 t []) by (rewrite G5, app_nil_r; reflexivity).
    rewrite G1, T1. split; split; intros X; first [discriminate X | contradiction].
Qed.

Lemma X21_incomplete_then_sof_witness :
  exists s1 s2,
    USBD_AUDIO_IsoINIncomplete cfg48 1 0x100 (streaming_state cfg48 0) = (USBD_OK, s1) /\
    USBD_AUDIO_SOF cfg48 1280 0x300 s1 = Some (USBD_OK, s2) /\
    existsb is_transmit (new_calls s1 s2) = true.
Proof.
  destruct (X21_incomplete_then_sof cfg48 1 0x100 1280 0x300 (streaming_state cfg48 0)
              (set_wr_ptr 0 (set_rd_enable 1 (set_offset AUDIO_OFFSET_NONE
                                                (fresh_handle 1920 0)))))
    as (s1 & s2 & R1 & _ & _ & R2 & [_ Y] & _).
  - reflexivity.
  - vm_compute. discriminate.
  - reflexivity.
  - left. reflexivity.
  - exists s1, s2. split; [exact R1|]. split; [exact R2|]. apply Y. reflexivity.
Defined.

(** ** Descriptor macros and the configuration descriptor *)

Lemma u8_shiftr v k : 0 <= k -> u8 (Z.shiftr v k) = (v / 2 ^ k) mod 256.
Proof.
  intros P. unfold u8. rewrite Z.shiftr_div_pow2 by lia. reflexivity.
Qed.

(** X22. The three bytes [AUDIO_SAMPLE_FREQ] puts in the format
    descriptor are bytes and, read as a little-endian number, give back
    the sampling frequency, for every frequency below 2^24. *)
Theorem X22_sample_freq_roundtrip frq :
  0 <= frq < 2 ^ 24 ->
  le_value (AUDIO_SAMPLE_FREQ frq) = frq /\
  Forall (fun b => 0 <= b < 256) (AUDIO_SAMPLE_FREQ frq).
Proof.
  intros B. change (2 ^ 24) with 16777216 in B. unfold AUDIO_SAMPLE_FREQ.
  rewrite !u8_shiftr by lia. unfold u8. change (2 ^ 8) with 256.
  change (2 ^ 16) with 65536. split.
  - cbn [le_value]. Z.div_mod_to_equations. lia.
  - repeat constructor; apply Z.mod_pos_bound; lia.
Qed.

Lemma X22_sample_freq_roundtrip_witness :
  le_value (AUDIO_SAMPLE_FREQ 48000) = 48000 /\
  Forall (fun b => 0 <= b < 256) (AUDIO_SAMPLE_FREQ 48000).
Proof.
  apply (X22_sample_freq_roundtrip 48000). vm_compute. split; [discriminate | reflexivity].
Defined.

(** X23. The two bytes [AUDIO_PACKET_SZE] puts in the OUT endpoint
    descriptor are bytes and read back as [frq * 4 / 1000], the number of
    bytes of stereo 16-bit audio per millisecond, whenever that number
    fits 16 bits. *)
Theorem X23_packet_size_roundtrip frq :
  0 <= frq -> frq * 4 / 1000 < 2 ^ 16 ->
  le_value (AUDIO_PACKET_SZE frq) = frq * 4 / 1000 /\
  Forall (fun b => 0 <= b < 256) (AUDIO_PACKET_SZE frq).
Proof.
  intros P B. change (2 ^ 16) with 65536 in B. unfold AUDIO_PACKET_SZE.
  assert (F : frq < 16384000) by (Z.div_mod_to_equations; lia).
  unfold u32. change (2 ^ 32) with 4294967296.
  rewrite (Z.mod_small (frq * 2)) by lia.
  rewrite (Z.mod_small (frq * 2 * 2)) by lia.
  replace (frq * 2 * 2) with (frq * 4) by lia.
  set (q := frq * 4 / 1000) in *.
  assert (Q : 0 <= q) by (unfold q; apply Z.div_pos; lia).
  clearbody q.
  replace (Z.land q 255) with (Z.land (Z.shiftr q 0) 255) by (rewrite Z.shiftr_0_r; reflexivity).
  rewrite !u8_land_shiftr by lia.
  change (2 ^ 0) with 1. change (2 ^ 8) with 256. rewrite Z.div_1_r. split.
  - cbn [le_value]. Z.div_mod_to_equations. lia.
  - repeat constructor; apply Z.mod_pos_bound; lia.
Qed.

Lemma X23_packet_size_roundtrip_witness :
  le_value (AUDIO_PACKET_SZE 48000) = 48000 * 4 / 1000 /\
  Forall (fun b => 0 <= b < 256) (AUDIO_PACKET_SZE 48000).
Proof.
  apply (X23_packet_size_roundtrip 48000); vm_compute; congruence.
Defined.

(** X24. The initialiser of the configuration descriptor has 118 bytes
    for every choice of the macros.  With the USB Audio 1.0 sizes for the
    five size macros it is a chain of 13 well-formed descriptors that
    covers the 118 bytes exactly; the third of them, at the offset 18 that
    GET_DESCRIPTOR sends from, is the 9-byte class-specific AudioControl
    header, and the total length 39 written in that header is the summed
    length of the header, the input terminal, the feature unit and the
    output terminal. *)
Theorem X24_config_descriptor_chain k c :
  uac1_sizes k ->
  length (USBD_AUDIO_CfgDesc_init k c) = 118%nat /\
  split_descriptors 118 (USBD_AUDIO_CfgDesc_init k c) =
    Some [ CfgDesc_configuration k; CfgDesc_ac_interface k; CfgDesc_ac_header k;
           CfgDesc_input_terminal k; CfgDesc_feature_unit k; CfgDesc_output_terminal k;
           CfgDesc_as_alt0 k; CfgDesc_as_alt1 k; CfgDesc_as_general k;
           CfgDesc_format k c; CfgDesc_out_endpoint k c; CfgDesc_as_endpoint k;
           CfgDesc_feedback_endpoint k c ] /\
  take 9 (drop 18 (USBD_AUDIO_CfgDesc_init k c)) = CfgDesc_ac_header k /\
  Z.of_nat (length (CfgDesc_ac_header k)) = USB_AUDIO_DESC_SIZ /\
  le_value (take 2 (drop 5 (CfgDesc_ac_header k))) =
    Z.of_nat (length (CfgDesc_ac_header k ++ CfgDesc_input_terminal k
                      ++ CfgDesc_feature_unit k ++ CfgDesc_output_terminal k)).
Proof.
  intros (S1 & S2 & S3 & S4 & S5).
  split; [reflexivity|].
  split; [|split; [reflexivity | split; reflexivity]].
  unfold USBD_AUDIO_CfgDesc_init, CfgDesc_configuration, CfgDesc_ac_interface,
    CfgDesc_ac_header, CfgDesc_input_terminal, CfgDesc_feature_unit,
    CfgDesc_output_terminal, CfgDesc_as_alt0, CfgDesc_as_alt1, CfgDesc_as_general,
    CfgDesc_format, CfgDesc_out_endpoint, CfgDesc_as_endpoint, CfgDesc_feedback_endpoint,
    AUDIO_SAMPLE_FREQ, AUDIO_PACKET_SZE.
  rewrite S1, S2, S3, S4, S5. reflexivity.
Qed.

Lemma X24_config_descriptor_chain_witness :
  length (USBD_AUDIO_CfgDesc_init st_consts cfg48) = 118%nat.
Proof.
  apply (X24_config_descriptor_chain st_consts cfg48).
  unfold uac1_sizes. repeat split.
Defined.

Lemma in_flight_step c e s s' h :
  keeps_in_flight c e = true -> pClassData s = Some h -> tx_flag s = 1 ->
  dispatch c e s = Some s' ->
  tx_flag s' = 1 /\ (exists h', pClassData s' = Some h') /\
  exists l, calls s' = calls s ++ l /\ existsb is_transmit l = false.
Proof.
  intros K Hh T D.
  assert (NR : resets c s e = false) by (destruct e; try discriminate K; reflexivity).
  split; [|split; [exact (session_step_handle c e s s' h Hh NR D)|]].
  - destruct e; try discriminate K.
    + cbn [keeps_in_flight] in K. apply negb_true_iff in K.
      cbn [dispatch] in D. injection D as <-. unfold USBD_AUDIO_DataIn. rewrite K. exact T.
    + cbn [dispatch] in D. injection D as <-. rewrite DataOut_tx_flag. exact T.
    + destruct (SOF_result c ndtr dsts s h Hh) as (s1 & h1 & (F1 & _) & _ & _ & R).
      cbn [dispatch] in D. rewrite R in D.
      cbn [fmap option_fmap option_map snd] in D. injection D as <-.
      unfold sof_submits. rewrite T. cbn [Z.eqb andb]. rewrite andb_false_r. cbn [andb].
      rewrite F1. exact T.
    + cbn [dispatch] in D. unfold USBD_AUDIO_IsoOutIncomplete in D. rewrite Hh in D.
      cbn [fmap option_fmap option_map snd] in D. injection D as <-. exact T.
  - destruct e; try discriminate K.
    + cbn [keeps_in_flight] in K. apply negb_true_iff in K.
      cbn [dispatch] in D. injection D as <-. unfold USBD_AUDIO_DataIn. rewrite K.
      exists []. split; [rewrite app_nil_r; reflexivity | reflexivity].
    + destruct (dispatch_DataOut_cases c _ _ _ s s' D) as [-> | (h0 & h1 & _ & _ & _ & ->)].
      * exists []. split; [rewrite app_nil_r; reflexivity | reflexivity].
      * eexists. split.
        -- rewrite calls_emit, playback_latch_calls, <- app_assoc. reflexivity.
        -- destruct (latch_starts _ _ _); reflexivity.
    + destruct (SOF_result c ndtr dsts s h Hh) as (s1 & h1 & (_ & _ & _ & _ & F5) & _ & _ & R).
      cbn [dispatch] in D. rewrite R in D.
      cbn [fmap option_fmap option_map snd] in D. injection D as <-.
      unfold sof_submits. rewrite T. cbn [Z.eqb andb]. rewrite andb_false_r. cbn [andb].
      exists []. split; [rewrite F5, app_nil_r; reflexivity | reflexivity].
    + cbn [dispatch] in D. unfold USBD_AUDIO_IsoOutIncomplete in D. rewrite Hh in D.
      cbn [fmap option_fmap option_map snd] in D. injection D as <-.
      eexists. split; [calls_ext | reflexivity].
Qed.

(** X25. One feedback transfer in flight at a time: while [tx_flag] is
    1, no sequence of SOF, DataOut and IsoOutIncomplete events, nor of
    DataIn events for another endpoint number, submits a feedback packet;
    every callback runs to its end and [tx_flag] stays 1.  Only a DataIn
    for the feedback endpoint, an IsoInIncomplete or a reset makes a new
    submission possible. *)
Theorem X25_no_resubmit_while_in_flight c : forall evs s h,
  pClassData s = Some h -> tx_flag s = 1 -> forallb (keeps_in_flight c) evs = true ->
  exists s',
    run c evs s = Some s' /\ tx_flag s' = 1 /\
    existsb is_transmit (new_calls s s') = false.
Proof.
  intros evs s h Hh T F.
  assert (G : forall evs t ht,
             pClassData t = Some ht -> tx_flag t = 1 ->
             forallb (keeps_in_flight c) evs = true ->
             exists s', run c evs t = Some s' /\ tx_flag s' = 1 /\
                        exists l, calls s' = calls t ++ l /\ existsb is_transmit l = false).
  { clear. induction evs as [|e evs IH]; intros t ht Ht Tt Fe.
    - exists t. split; [reflexivity|]. split; [exact Tt|].
      exists []. split; [rewrite app_nil_r; reflexivity | reflexivity].
    - cbn [forallb] in Fe. apply andb_true_iff in Fe as [Ke Fe]. cbn [run].
      destruct (dispatch_total c e t ht Ht) as [t' D]. rewrite D.
      destruct (in_flight_step c e t t' ht Ke Ht Tt D) as (T' & (h' & H') & l & C & N).
      destruct (IH t' h' H' T' Fe) as (s' & R & T2 & l2 & C2 & N2).
      exists s'. split; [exact R|]. split; [exact T2|].
      exists (l ++ l2). split; [rewrite C2, C, app_assoc; reflexivity|].
      rewrite existsb_app, N, N2. reflexivity. }
  destruct (G evs s h Hh T F) as (s' & R & T' & l & C & N).
  exists s'. split; [exact R|]. split; [exact T'|].
  rewrite (new_calls_app s s' l C). exact N.
Qed.

Lemma X25_no_resubmit_while_in_flight_witness :
  exists s',
    run cfg48 demo_session (set_tx_flag 1 (streaming_state cfg48 0)) = Some s' /\
    tx_flag s' = 1 /\
    existsb is_transmit (new_calls (set_tx_flag 1 (streaming_state cfg48 0)) s') = false.
Proof.
  apply (X25_no_resubmit_while_in_flight cfg48 demo_session
           (set_tx_flag 1 (streaming_state cfg48 0))
           (set_wr_ptr 0 (set_rd_enable 1 (set_offset AUDIO_OFFSET_NONE
                                             (fresh_handle 1920 0)))));
    reflexivity.
Defined.
